(** * Article Coach: issue detection, prioritisation and fix validation

    A shallow embedding of the coaching core of the repository
    ([coaching/problem_detector.py], [coaching/fix_validator.py],
    [coaching/issue_presenter.py], [article_coach.py] and the analysis
    logic of [optimization/local_analyzer.py]) together with the properties
    that its specification states about it.

    Conventions of the embedding:
    - a Python [str] is a [string]; text is taken to be ASCII, one character
      per code point;
    - a Python [int] is a [Z]; a Python [float] is a primitive binary64
      [float], with the IEEE comparisons Python uses;
    - a [dict] with string keys is a [gmap string _];
    - the third-party engines (LanguageTool, textstat, spaCy, the nano
      editor, the terminal prompts) are parameters: records of functions or
      scripted answers;
    - a raised exception is [None] in the [option] monad. *)

From Stdlib Require Import ZArith String Ascii List Floats Bool Lia.
From Stdlib Require Import Sorting.Sorted Sorting.Permutation.
From stdpp Require Import gmap strings list sorting pretty.

Local Open Scope string_scope.
Local Open Scope list_scope.
Local Set Warnings "-register-all,-inexact-float".

(** ** Python primitives used by the program *)

Module Py.

(** [str.isspace] on one ASCII character: TAB, LF, VT, FF, CR, the four
    separators FS, GS, RS, US, and the space. *)
Definition isspace (c : ascii) : bool :=
  let n := nat_of_ascii c in
  (Nat.leb 9 n && Nat.leb n 13) || (Nat.leb 28 n && Nat.leb n 32).

(** [s.lstrip()] *)
Fixpoint lstrip (s : string) : string :=
  match s with
  | EmptyString => EmptyString
  | String c s' => if isspace c then lstrip s' else s
  end.

(** [s.rstrip()] *)
Fixpoint rstrip (s : string) : string :=
  match s with
  | EmptyString => EmptyString
  | String c s' =>
      match rstrip s' with
      | EmptyString => if isspace c then EmptyString else String c EmptyString
      | r => String c r
      end
  end.

(** [s.strip()] *)
Definition strip (s : string) : string := rstrip (lstrip s).

(** Truthiness of a [str]: non-empty. *)
Definition truthy (s : string) : bool :=
  match s with EmptyString => false | String _ _ => true end.

(** [s.startswith(p)] *)
Definition startswith (s p : string) : bool := String.prefix p s.

(** [s[n:]] *)
Fixpoint drop_str (n : nat) (s : string) : string :=
  match n, s with
  | O, _ => s
  | S _, EmptyString => EmptyString
  | S k, String _ s' => drop_str k s'
  end.

(** [sub in s] *)
Fixpoint contains (sub s : string) : bool :=
  String.prefix sub s ||
  match s with
  | EmptyString => false
  | String _ s' => contains sub s'
  end.

(** [s.split(sep)] for a non-empty separator: leftmost, non-overlapping
    occurrences of [sep] cut the text; [skip] counts the characters of the
    current occurrence that remain to be passed over. *)
Fixpoint split_go (sep : string) (skip : nat) (s : string) : list string :=
  match s with
  | EmptyString => [EmptyString]
  | String c s' =>
      match skip with
      | S k => split_go sep k s'
      | O =>
          if String.prefix sep s
          then EmptyString :: split_go sep (String.length sep - 1) s'
          else match split_go sep 0 s' with
               | h :: t => String c h :: t
               | [] => [String c EmptyString]
               end
      end
  end.

Definition split (s sep : string) : list string := split_go sep 0 s.

(** [s.split()] with no argument: maximal runs of non-space characters. *)
Fixpoint split_ws (s : string) : list string :=
  match s with
  | EmptyString => []
  | String c s' =>
      if isspace c then split_ws s'
      else match s' with
           | EmptyString => [String c EmptyString]
           | String c' _ =>
               if isspace c' then String c EmptyString :: split_ws s'
               else match split_ws s' with
                    | h :: t => String c h :: t
                    | [] => [String c EmptyString]
                    end
           end
  end.

(** [sep.join(parts)] *)
Definition join (sep : string) (parts : list string) : string :=
  String.concat sep parts.

(** [s.replace(old, new, 1)]: the first occurrence only; an empty [old]
    matches at the start. *)
Fixpoint replace_first (s old new : string) : string :=
  if String.prefix old s then new +:+ drop_str (String.length old) s
  else match s with
       | EmptyString => EmptyString
       | String c s' => String c (replace_first s' old new)
       end.

(** [s.lower()] on ASCII letters. *)
Definition lower_char (c : ascii) : ascii :=
  let n := nat_of_ascii c in
  if Nat.leb 65 n && Nat.leb n 90 then ascii_of_nat (n + 32) else c.

Fixpoint lower (s : string) : string :=
  match s with
  | EmptyString => EmptyString
  | String c s' => String (lower_char c) (lower s')
  end.

(** [s * n] *)
Fixpoint repeat_str (s : string) (n : nat) : string :=
  match n with
  | O => EmptyString
  | S k => s +:+ repeat_str s k
  end.

(** [str(n)] for an [int]. *)
Definition str_of_int (z : Z) : string := pretty z.

(** [len(l)] *)
Definition len {A} (l : list A) : Z := Z.of_nat (length l).

(** [l[:k]] for a list: a negative [k] counts from the end. *)
Definition slice_to {A} (l : list A) (k : Z) : list A :=
  if (0 <=? k)%Z then firstn (Z.to_nat k) l
  else firstn (Z.to_nat (len l + k)) l.

(** [sorted(l, key=key, reverse=True)]: the sort is stable, so the result
    is the one an insertion sort gives that never moves an element past
    another of equal key. *)
Fixpoint insert_desc {A} (key : A -> Z) (x : A) (l : list A) : list A :=
  match l with
  | [] => [x]
  | y :: l' => if (key x <? key y)%Z then y :: insert_desc key x l' else x :: l
  end.

Fixpoint sorted_desc {A} (key : A -> Z) (l : list A) : list A :=
  match l with
  | [] => []
  | x :: l' => insert_desc key x (sorted_desc key l')
  end.

(** [enumerate(l, start)] *)
Fixpoint enumerate {A} (start : Z) (l : list A) : list (Z * A) :=
  match l with
  | [] => []
  | x :: l' => (start, x) :: enumerate (start + 1) l'
  end.

(** [collections.Counter(l)], in first-occurrence order as the underlying
    dict keeps it, and [.most_common(n)]. *)
Fixpoint counter_add (w : string) (c : list (string * Z)) : list (string * Z) :=
  match c with
  | [] => [(w, 1%Z)]
  | (k, n) :: c' =>
      if String.eqb k w then (k, (n + 1)%Z) :: c' else (k, n) :: counter_add w c'
  end.

Definition Counter (l : list string) : list (string * Z) :=
  fold_left (fun c w => counter_add w c) l [].

Definition most_common (c : list (string * Z)) (n : Z) : list (string * Z) :=
  slice_to (sorted_desc snd c) n.

(** [float(n)] for an [int], exact up to 2^53 in absolute value and
    correctly rounded up to 2^63. *)
Definition float_of_int (z : Z) : float :=
  match z with
  | Z0 => 0%float
  | Zpos _ => PrimFloat.of_uint63 (Uint63.of_Z z)
  | Zneg p => PrimFloat.opp (PrimFloat.of_uint63 (Uint63.of_Z (Zpos p)))
  end.

(** A Python number: [int] or [float]. *)
Inductive num :=
| NInt (z : Z)
| NFloat (f : float).

Definition to_float (a : num) : float :=
  match a with NInt z => float_of_int z | NFloat f => f end.

(** [a < b]: exact on two ints, the IEEE comparison otherwise (an int
    operand is converted, which is exact for the counts and thresholds of
    this program). *)
Definition lt (a b : num) : bool :=
  match a, b with
  | NInt x, NInt y => (x <? y)%Z
  | _, _ => PrimFloat.ltb (to_float a) (to_float b)
  end.

(** [a <= b] *)
Definition le (a b : num) : bool :=
  match a, b with
  | NInt x, NInt y => (x <=? y)%Z
  | _, _ => PrimFloat.leb (to_float a) (to_float b)
  end.

(** [a > b] and [a >= b] *)
Definition gt (a b : num) : bool := lt b a.
Definition ge (a b : num) : bool := le b a.

(** [a - b] *)
Definition sub (a b : num) : num :=
  match a, b with
  | NInt x, NInt y => NInt (x - y)
  | _, _ => NFloat (PrimFloat.sub (to_float a) (to_float b))
  end.

(** [a * b] *)
Definition mul (a b : num) : num :=
  match a, b with
  | NInt x, NInt y => NInt (x * y)
  | _, _ => NFloat (PrimFloat.mul (to_float a) (to_float b))
  end.

(** [a / b] for two ints with [b] non-zero: true division. *)
Definition truediv (a b : Z) : num :=
  NFloat (PrimFloat.div (float_of_int a) (float_of_int b)).

(** [sum(l)] for a list of ints. *)
Definition sum (l : list Z) : Z := fold_right Z.add 0%Z l.

(** The values stored in an issue's [metrics] dict. *)
Inductive value :=
| VNum (n : num)
| VStr (s : string)
| VList (l : list value)
| VTuple (l : list value).

Definition VInt (z : Z) : value := VNum (NInt z).
Definition VFloat (f : float) : value := VNum (NFloat f).

(** Reading a value as a number; anything else makes the arithmetic or the
    comparison that follows raise [TypeError]. *)
Definition as_num (v : value) : option num :=
  match v with VNum n => Some n | _ => None end.

(** [len(v)] of a stored value; a number has no length. *)
Definition value_len (v : value) : option Z :=
  match v with
  | VNum _ => None
  | VStr s => Some (Z.of_nat (String.length s))
  | VList l | VTuple l => Some (len l)
  end.

(** [format(x, '.1f')], the rendering of a number with one decimal, as
    the f-strings of the program use it.  The conversion of a binary64
    value to decimal digits is left to the interpreter: it is a parameter
    of the model. *)
Class Formatter := format_1f : num -> string.

(** [d.get(key, dflt)] *)
Definition get (d : gmap string value) (key : string) (dflt : value) : value :=
  default dflt (d !! key).

End Py.

(** ** optimization/local_analyzer.py *)

Module LocalAnalyzer.
Import Py.

(** *** GrammarAnalyzer *)

(** A match as LanguageTool reports it. *)
Record Match := {
  message : string;
  context : string;
  offset : Z;
  errorLength : Z;
  replacements : list string;
  ruleId : string
}.

(** The dict built for each match, keys ['message'], ['context'],
    ['offset'], ['length'], ['replacements'], ['rule']. *)
Record Finding := {
  f_message : string;
  f_context : string;
  f_offset : Z;
  f_length : Z;
  f_replacements : list string;
  f_rule : string
}.

(** The analyzer holds the LanguageTool instance; [check] is its
    [tool.check]. *)
Record GrammarAnalyzer := {
  check : string -> list Match
}.

Record GrammarAnalysis := {
  grammar_issues : list Finding;
  spelling_issues : list Finding;
  punctuation_issues : list Finding;
  total_issues : Z;
  issue_breakdown : gmap string Z
}.

Definition finding_of (m : Match) : Finding :=
  {| f_message := message m;
     f_context := context m;
     f_offset := offset m;
     f_length := errorLength m;
     f_replacements := slice_to (replacements m) 3;
     f_rule := ruleId m |}.

Definition is_spelling (m : Match) : bool :=
  contains "SPELL" (ruleId m) || contains "MORFOLOGIK" (ruleId m).

Definition is_punctuation (m : Match) : bool :=
  contains "PUNCT" (ruleId m) || contains "COMMA" (ruleId m).

(** One turn of the categorising loop over the three lists
    (grammar, spelling, punctuation). *)
Definition categorize_step
    (acc : list Finding * list Finding * list Finding) (m : Match)
    : list Finding * list Finding * list Finding :=
  let '(grammar, spelling, punctuation) := acc in
  let issue := finding_of m in
  if is_spelling m then (grammar, spelling ++ [issue], punctuation)
  else if is_punctuation m then (grammar, spelling, punctuation ++ [issue])
  else (grammar ++ [issue], spelling, punctuation).

(** [GrammarAnalyzer.analyze] *)
Definition grammar_analyze (self : GrammarAnalyzer) (text : string)
    : GrammarAnalysis :=
  let matches := check self text in
  let '(grammar, spelling, punctuation) :=
    fold_left categorize_step matches ([], [], []) in
  {| grammar_issues := grammar;
     spelling_issues := spelling;
     punctuation_issues := punctuation;
     total_issues := len matches;
     issue_breakdown :=
       <["punctuation" := len punctuation]>
         (<["spelling" := len spelling]>
            (<["grammar" := len grammar]> ∅)) |}.

(** [GrammarAnalyzer.get_top_issues]: spelling first, then grammar, then
    punctuation, cut at [limit]. *)
Definition get_top_issues (analysis : GrammarAnalysis) (limit : Z)
    : list Finding :=
  let all_issues :=
    spelling_issues analysis ++ grammar_issues analysis
    ++ punctuation_issues analysis in
  slice_to all_issues limit.

(** *** ReadabilityAnalyzer *)

(** The functions of the [textstat] module that the analysis reads. *)
Record ReadabilityAnalyzer := {
  textstat_flesch_reading_ease : string -> float;
  textstat_flesch_kincaid_grade : string -> float;
  textstat_lexicon_count : string -> Z;
  textstat_sentence_count : string -> Z;
  textstat_avg_sentence_length : string -> float;
  textstat_syllable_count : string -> Z;
  textstat_difficult_words : string -> Z
}.

(** The keys of the result that the coach consumes, the statistics and the
    two interpretations; the five further indices (SMOG, Coleman-Liau, ARI,
    Dale-Chall, Gunning fog) are passed through from textstat and read by
    nothing here. *)
Record ReadabilityAnalysis := {
  flesch_reading_ease : float;
  flesch_kincaid_grade : float;
  word_count : Z;
  sentence_count : Z;
  avg_sentence_length : float;
  syllable_count : Z;
  difficult_words : Z;
  char_count : Z;
  reading_level : string;
  reading_ease_interpretation : string
}.

Definition _interpret_grade_level (grade : float) : string :=
  if PrimFloat.ltb grade 6 then "Elementary"
  else if PrimFloat.ltb grade 9 then "Middle School"
  else if PrimFloat.ltb grade 13 then "High School"
  else if PrimFloat.ltb grade 16 then "College"
  else "Graduate".

Definition _interpret_reading_ease (score : float) : string :=
  if PrimFloat.leb 90 score then "Very Easy"
  else if PrimFloat.leb 80 score then "Easy"
  else if PrimFloat.leb 70 score then "Fairly Easy"
  else if PrimFloat.leb 60 score then "Standard"
  else if PrimFloat.leb 50 score then "Fairly Difficult"
  else if PrimFloat.leb 30 score then "Difficult"
  else "Very Difficult".

(** [ReadabilityAnalyzer.analyze] *)
Definition readability_analyze (self : ReadabilityAnalyzer) (text : string)
    : ReadabilityAnalysis :=
  {| flesch_reading_ease := textstat_flesch_reading_ease self text;
     flesch_kincaid_grade := textstat_flesch_kincaid_grade self text;
     word_count := textstat_lexicon_count self text;
     sentence_count := textstat_sentence_count self text;
     avg_sentence_length := textstat_avg_sentence_length self text;
     syllable_count := textstat_syllable_count self text;
     difficult_words := textstat_difficult_words self text;
     char_count := Z.of_nat (String.length text);
     reading_level :=
       _interpret_grade_level (textstat_flesch_kincaid_grade self text);
     reading_ease_interpretation :=
       _interpret_reading_ease (textstat_flesch_reading_ease self text) |}.

(** *** WritingQualityAnalyzer *)

(** What the analysis reads of a spaCy token, sentence and document.  The
    tokens of a document are those of its sentences, in order. *)
Record Token := {
  text : string;
  lemma_ : string;
  pos_ : string;
  dep_ : string;
  is_stop : bool;
  is_alpha : bool
}.

Record Span := {
  span_text : string;
  span_tokens : list Token
}.

Record Doc := {
  sents : list Span
}.

Definition doc_tokens (doc : Doc) : list Token :=
  concat (map span_tokens (sents doc)).

(** The analyzer holds the loaded pipeline; [nlp] is [self.nlp]. *)
Record WritingQualityAnalyzer := {
  nlp : string -> Doc
}.

Record PassiveVoice := {
  pv_count : Z;
  pv_percentage : num;
  pv_examples : list string;
  pv_is_excessive : bool
}.

Record Adverbs := {
  adv_count : Z;
  adv_per_100_words : num;
  adv_most_common : list (string * Z);
  adv_is_excessive : bool
}.

Record WeakVerbs := {
  wv_count : Z;
  wv_total_verbs : Z;
  wv_percentage : num;
  wv_is_excessive : bool
}.

Record Repetition := {
  rep_repeated_words : list (string * Z);
  rep_total_repetitions : Z;
  rep_is_excessive : bool
}.

Record Transitions := {
  tr_count : Z;
  tr_types_used : list (string * Z);
  tr_variety : Z
}.

Record ParagraphStats := {
  ps_count : Z;
  ps_avg_length : num;
  ps_lengths : list Z;
  ps_long_paragraphs : list Z
}.

(** The result of [analyze]; the ['sentence_variety'] entry is read by
    nothing in the coach and is left out. *)
Record QualityAnalysis := {
  passive_voice : PassiveVoice;
  adverbs : Adverbs;
  weak_verbs : WeakVerbs;
  repetition : Repetition;
  transitions : Transitions;
  paragraph_stats : ParagraphStats
}.

Definition _detect_passive_voice (doc : Doc) : PassiveVoice :=
  let passive_sentences :=
    List.filter
      (fun sent => existsb (fun token => String.eqb (dep_ token) "auxpass")
                           (span_tokens sent))
      (sents doc) in
  let passive_count := len passive_sentences in
  let total_sentences := len (sents doc) in
  let percentage :=
    if (0 <? total_sentences)%Z
    then mul (truediv passive_count total_sentences) (NInt 100)
    else NInt 0 in
  {| pv_count := passive_count;
     pv_percentage := percentage;
     pv_examples := slice_to (map span_text passive_sentences) 5;
     pv_is_excessive := gt percentage (NInt 10) |}.

Definition _analyze_adverbs (doc : Doc) : Adverbs :=
  let adverbs :=
    map text
        (List.filter (fun token => String.eqb (pos_ token) "ADV")
                     (doc_tokens doc)) in
  let n := len (doc_tokens doc) in
  {| adv_count := len adverbs;
     adv_per_100_words :=
       if (0 <? n)%Z then mul (truediv (len adverbs) n) (NInt 100) else NInt 0;
     adv_most_common := most_common (Counter adverbs) 10;
     adv_is_excessive :=
       if (0 <? n)%Z
       then gt (mul (truediv (len adverbs) n) (NInt 100)) (NInt 3)
       else false |}.

Definition weak_verb_lemmas : list string :=
  ["be"; "is"; "are"; "was"; "were"; "been"; "have"; "has"; "had";
   "do"; "does"; "did"; "get"; "got"; "make"; "made"].

Definition _detect_weak_verbs (doc : Doc) : WeakVerbs :=
  let weak_verb_count :=
    len (List.filter
           (fun token =>
              String.eqb (pos_ token) "VERB" &&
              existsb (String.eqb (lemma_ token)) weak_verb_lemmas)
           (doc_tokens doc)) in
  let total_verbs :=
    len (List.filter (fun token => String.eqb (pos_ token) "VERB")
                     (doc_tokens doc)) in
  {| wv_count := weak_verb_count;
     wv_total_verbs := total_verbs;
     wv_percentage :=
       if (0 <? total_verbs)%Z
       then mul (truediv weak_verb_count total_verbs) (NInt 100)
       else NInt 0;
     wv_is_excessive :=
       if (0 <? total_verbs)%Z
       then gt (mul (truediv weak_verb_count total_verbs) (NInt 100)) (NInt 30)
       else false |}.

(** One turn of the repetition loop: [word_positions] maps a word to the
    positions seen so far, [repetitions] collects the pairs
    (word, distance) for distances of at most 50. *)
Definition repetition_step
    (st : gmap string (list Z) * list (string * Z)) (iw : Z * string)
    : gmap string (list Z) * list (string * Z) :=
  let '(word_positions, repetitions) := st in
  let '(i, word) := iw in
  let repetitions' :=
    match word_positions !! word with
    | Some positions =>
        repetitions ++
        map (fun prev_pos => (word, (i - prev_pos)%Z))
            (List.filter (fun prev_pos => (i - prev_pos <=? 50)%Z) positions)
    | None => repetitions
    end in
  (<[word := default [] (word_positions !! word) ++ [i]]> word_positions,
   repetitions').

Definition _detect_repetition (doc : Doc) : Repetition :=
  let words :=
    map (fun token => lower (lemma_ token))
        (List.filter (fun token => negb (is_stop token) && is_alpha token)
                     (doc_tokens doc)) in
  let repetitions :=
    snd (fold_left repetition_step (enumerate 0 words) (∅, [])) in
  {| rep_repeated_words := most_common (Counter (map fst repetitions)) 10;
     rep_total_repetitions := len repetitions;
     rep_is_excessive :=
       gt (NInt (len repetitions)) (mul (NInt (len words)) (NFloat 0.1)) |}.

Definition transition_words : list string :=
  ["however"; "therefore"; "moreover"; "furthermore"; "consequently";
   "nevertheless"; "additionally"; "meanwhile"; "thus"; "hence";
   "first"; "second"; "third"; "finally"; "in conclusion"].

Definition _analyze_transitions (doc : Doc) : Transitions :=
  let found_transitions :=
    List.filter (fun w => existsb (String.eqb w) transition_words)
                (map (fun token => lower (text token)) (doc_tokens doc)) in
  {| tr_count := len found_transitions;
     tr_types_used := Counter found_transitions;
     tr_variety := len (Counter found_transitions) |}.

(** The non-blank pieces between blank lines:
    [[p for p in text.split('\n\n') if p.strip()]]. *)
Definition nl : string := String (ascii_of_nat 10) EmptyString.

Definition paragraphs_of (text : string) : list string :=
  List.filter (fun p => truthy (strip p)) (split text (nl +:+ nl)).

Definition _analyze_paragraphs (text : string) : ParagraphStats :=
  let paragraphs := paragraphs_of text in
  match paragraphs with
  | [] => {| ps_count := 0; ps_avg_length := NInt 0; ps_lengths := [];
             ps_long_paragraphs := [] |}
  | _ =>
      let lengths := map (fun p => len (split_ws p)) paragraphs in
      {| ps_count := len paragraphs;
         ps_avg_length := truediv (sum lengths) (len lengths);
         ps_lengths := lengths;
         ps_long_paragraphs :=
           map fst (List.filter (fun il => (150 <? snd il)%Z)
                                (enumerate 0 lengths)) |}
  end.

(** [WritingQualityAnalyzer.analyze] *)
Definition quality_analyze (self : WritingQualityAnalyzer) (text : string)
    : QualityAnalysis :=
  let doc := nlp self text in
  {| passive_voice := _detect_passive_voice doc;
     adverbs := _analyze_adverbs doc;
     weak_verbs := _detect_weak_verbs doc;
     repetition := _detect_repetition doc;
     transitions := _analyze_transitions doc;
     paragraph_stats := _analyze_paragraphs text |}.

End LocalAnalyzer.

(** ** coaching/problem_detector.py *)

Module Detector.
Import Py.
Module LA := LocalAnalyzer.

(** [Issue]: one detected writing problem. *)
Record Issue := {
  type : string;
  severity : Z;
  location : string;
  context : string;
  description : string;
  why : string;
  suggested_approach : list string;
  metrics : gmap string value
}.

(** The assignment [issue.severity = s]. *)
Definition set_severity (s : Z) (issue : Issue) : Issue :=
  {| type := type issue;
     severity := s;
     location := location issue;
     context := context issue;
     description := description issue;
     why := why issue;
     suggested_approach := suggested_approach issue;
     metrics := metrics issue |}.

(** *** IssuePrioritizer *)

Definition SEVERITY_SCORES : gmap string Z :=
  list_to_map
    [("spelling", 10%Z); ("grammar", 9%Z); ("factual_error", 10%Z);
     ("sentence_too_long", 7%Z); ("difficult_words", 6%Z);
     ("poor_transitions", 6%Z); ("paragraph_too_long", 6%Z);
     ("passive_voice", 5%Z); ("weak_verbs", 4%Z); ("adverbs", 3%Z);
     ("word_repetition", 4%Z)].

Definition score_issue (issue : Issue) : Z :=
  default 3%Z (SEVERITY_SCORES !! type issue).

Definition top_issues (issues : list Issue) (limit : Z) : list Issue :=
  let sorted_issues := sorted_desc severity issues in
  let important_issues :=
    List.filter (fun i => (5 <=? severity i)%Z) sorted_issues in
  slice_to important_issues limit.

(** *** ProblemDetector *)

(** The analyzers a detector holds; one whose import failed is [None].
    The sentiment and linguistic analyzers are constructed as well but
    never called by the coach. *)
Record ProblemDetector := {
  grammar_analyzer : option LA.GrammarAnalyzer;
  readability_analyzer : option LA.ReadabilityAnalyzer;
  quality_analyzer : option LA.WritingQualityAnalyzer
}.

Section Detection.
Context `{Formatter}.

Definition spelling_issue (n : Z) (spell_issue : LA.Finding) : Issue :=
  {| type := "spelling";
     severity := 10;
     location := "Character " +:+ str_of_int (LA.f_offset spell_issue);
     context := LA.f_context spell_issue;
     description := LA.f_message spell_issue;
     why := "Spelling errors hurt credibility and distract readers";
     suggested_approach :=
       [match LA.f_replacements spell_issue with
        | [] => "Check spelling"
        | _ => "Replace with: " +:+
               join ", " (slice_to (LA.f_replacements spell_issue) 3)
        end];
     metrics := {["issue_count" := VInt n]} |}.

Definition grammar_issue (n : Z) (gram_issue : LA.Finding) : Issue :=
  {| type := "grammar";
     severity := 9;
     location := "Character " +:+ str_of_int (LA.f_offset gram_issue);
     context := LA.f_context gram_issue;
     description := LA.f_message gram_issue;
     why := "Grammar errors reduce clarity and professionalism";
     suggested_approach :=
       [match LA.f_replacements gram_issue with
        | [] => "Review grammar rule"
        | _ => "Consider: " +:+
               join ", " (slice_to (LA.f_replacements gram_issue) 3)
        end];
     metrics := {["issue_count" := VInt n]} |}.

Definition _detect_grammar_issues (ga : LA.GrammarAnalyzer) (text : string)
    : list Issue :=
  let analysis := LA.grammar_analyze ga text in
  map (spelling_issue (len (LA.spelling_issues analysis)))
      (slice_to (LA.spelling_issues analysis) 5)
  ++
  map (grammar_issue (len (LA.grammar_issues analysis)))
      (slice_to (LA.grammar_issues analysis) 5).

Definition difficult_words_issue (analysis : LA.ReadabilityAnalysis) : Issue :=
  let score := NFloat (LA.flesch_reading_ease analysis) in
  {| type := "difficult_words";
     severity := 6;
     location := "Throughout article";
     context := "Readability score: " +:+ format_1f score +:+ " (" +:+
                LA.reading_ease_interpretation analysis +:+ ")";
     description := "Article is difficult to read";
     why := "Lower readability scores mean fewer people can easily understand your writing";
     suggested_approach :=
       ["Use simpler words where possible";
        "Break long sentences into shorter ones";
        "Target: Flesch Reading Ease above 60 (currently " +:+
          format_1f score +:+ ")"];
     metrics :=
       <["avg_sentence_length" := VFloat (LA.avg_sentence_length analysis)]>
         (<["difficult_words" := VInt (LA.difficult_words analysis)]>
            {["flesch_score" := VFloat (LA.flesch_reading_ease analysis)]}) |}.

Definition sentence_too_long_issue (analysis : LA.ReadabilityAnalysis) : Issue :=
  let avg := NFloat (LA.avg_sentence_length analysis) in
  {| type := "sentence_too_long";
     severity := 7;
     location := "Throughout article";
     context := "Average sentence length: " +:+ format_1f avg +:+ " words";
     description := "Sentences are too long on average";
     why := "Long sentences are harder to follow and can lose readers";
     suggested_approach :=
       ["Break long sentences (>25 words) into two shorter ones";
        "Use periods instead of commas to separate ideas";
        "Target: Average sentence length under 20 words (currently " +:+
          format_1f avg +:+ ")"];
     metrics :=
       {["avg_sentence_length" := VFloat (LA.avg_sentence_length analysis)]} |}.

Definition _detect_readability_issues
    (ra : LA.ReadabilityAnalyzer) (text : string) : list Issue :=
  let analysis := LA.readability_analyze ra text in
  (if PrimFloat.ltb (LA.flesch_reading_ease analysis) 50
   then [difficult_words_issue analysis] else [])
  ++
  (if PrimFloat.ltb 20 (LA.avg_sentence_length analysis)
   then [sentence_too_long_issue analysis] else []).

Definition str_pairs (l : list (string * Z)) : value :=
  VList (map (fun wc => VTuple [VStr (fst wc); VInt (snd wc)]) l).

Definition passive_voice_issue (analysis : LA.QualityAnalysis) : Issue :=
  let pv := LA.passive_voice analysis in
  let passive_pct := LA.pv_percentage pv in
  {| type := "passive_voice";
     severity := 5;
     location := "Multiple paragraphs";
     context := str_of_int (len (LA.pv_examples pv)) +:+
                " passive constructions found";
     description := "Excessive passive voice (" +:+ format_1f passive_pct +:+ "%)";
     why := "Passive voice makes writing less direct and engaging. Active voice is clearer and stronger.";
     suggested_approach :=
       ["Identify the actor (who did the action)";
        "Make the actor the subject of the sentence";
        "Use active verbs";
        "Target: <10% passive voice (currently " +:+
          format_1f passive_pct +:+ "%)"];
     metrics :=
       <["examples" := VList (map VStr (slice_to (LA.pv_examples pv) 3))]>
         (<["count" := VInt (LA.pv_count pv)]>
            {["percentage" := VNum passive_pct]}) |}.

Definition adverbs_issue (analysis : LA.QualityAnalysis) : Issue :=
  let adv := LA.adverbs analysis in
  let adverb_rate := LA.adv_per_100_words adv in
  {| type := "adverbs";
     severity := 3;
     location := "Throughout article";
     context := str_of_int (LA.adv_count adv) +:+ " adverbs (" +:+
                format_1f adverb_rate +:+ " per 100 words)";
     description := "Too many adverbs";
     why := "Excessive adverbs weaken writing. Stronger verbs are better than weak verbs + adverbs.";
     suggested_approach :=
       ["Replace 'walked slowly' with 'ambled' or 'strolled'";
        "Remove unnecessary intensifiers like 'very', 'really', 'quite'";
        "Target: <3 adverbs per 100 words (currently " +:+
          format_1f adverb_rate +:+ ")"];
     metrics :=
       <["most_common" := str_pairs (slice_to (LA.adv_most_common adv) 5)]>
         (<["rate" := VNum adverb_rate]>
            {["count" := VInt (LA.adv_count adv)]}) |}.

Definition weak_verbs_issue (analysis : LA.QualityAnalysis) : Issue :=
  let wv := LA.weak_verbs analysis in
  let weak_verb_pct := LA.wv_percentage wv in
  {| type := "weak_verbs";
     severity := 4;
     location := "Throughout article";
     context := str_of_int (LA.wv_count wv) +:+ " weak verbs (" +:+
                format_1f weak_verb_pct +:+ "%)";
     description := "Too many weak verbs (be, have, do, get)";
     why := "Weak verbs create passive, lifeless writing. Strong verbs make writing vivid.";
     suggested_approach :=
       ["Replace 'is able to' with 'can'";
        "Replace 'has impact on' with 'affects' or 'influences'";
        "Use action verbs instead of 'to be' constructions";
        "Target: <30% weak verbs (currently " +:+
          format_1f weak_verb_pct +:+ "%)"];
     metrics :=
       <["count" := VInt (LA.wv_count wv)]>
         {["percentage" := VNum weak_verb_pct]} |}.

Definition word_repetition_issue (analysis : LA.QualityAnalysis) : Issue :=
  let rep := LA.repetition analysis in
  {| type := "word_repetition";
     severity := 4;
     location := "Multiple sections";
     context := str_of_int (LA.rep_total_repetitions rep) +:+ " repeated words";
     description := "Excessive word repetition";
     why := "Repeating the same words too often makes writing monotonous. Use synonyms for variety.";
     suggested_approach :=
       ["Use synonyms for variety";
        "Rephrase sentences to avoid repetition";
        "Most repeated: " +:+
          join ", "
               (map (fun wc => fst wc +:+ " (" +:+ str_of_int (snd wc) +:+ "x)")
                    (slice_to (LA.rep_repeated_words rep) 3))];
     metrics :=
       <["repeated_words" := str_pairs (slice_to (LA.rep_repeated_words rep) 10)]>
         {["total_repetitions" := VInt (LA.rep_total_repetitions rep)]} |}.

Definition poor_transitions_issue (analysis : LA.QualityAnalysis) : Issue :=
  let transition_count := LA.tr_count (LA.transitions analysis) in
  let paragraph_count := LA.ps_count (LA.paragraph_stats analysis) in
  {| type := "poor_transitions";
     severity := 6;
     location := "Between paragraphs";
     context := str_of_int transition_count +:+ " transitions in " +:+
                str_of_int paragraph_count +:+ " paragraphs";
     description := "Few transition words between ideas";
     why := "Transition words help readers follow your logic and connect ideas smoothly.";
     suggested_approach :=
       ["Add transitions like 'however', 'therefore', 'moreover'";
        "Connect paragraphs with transitional sentences";
        "Show relationships between ideas explicitly"];
     metrics :=
       <["paragraph_count" := VInt paragraph_count]>
         {["transition_count" := VInt transition_count]} |}.

Definition _detect_quality_issues
    (qa : LA.WritingQualityAnalyzer) (text : string) : list Issue :=
  let analysis := LA.quality_analyze qa text in
  (if LA.pv_is_excessive (LA.passive_voice analysis)
   then [passive_voice_issue analysis] else [])
  ++
  (if LA.adv_is_excessive (LA.adverbs analysis)
   then [adverbs_issue analysis] else [])
  ++
  (if LA.wv_is_excessive (LA.weak_verbs analysis)
   then [weak_verbs_issue analysis] else [])
  ++
  (if LA.rep_is_excessive (LA.repetition analysis)
   then [word_repetition_issue analysis] else [])
  ++
  (if (LA.tr_count (LA.transitions analysis) <?
       LA.ps_count (LA.paragraph_stats analysis))%Z
   then [poor_transitions_issue analysis] else []).

(** The pairs (paragraph number from 1, word count) of the paragraphs of
    more than 150 words. *)
Definition long_paragraphs_of (paragraphs : list string) : list (Z * Z) :=
  List.filter
    (fun iw => (150 <? snd iw)%Z)
    (map (fun ip => ((fst ip + 1)%Z, len (split_ws (snd ip))))
         (enumerate 0 paragraphs)).

Definition paragraph_too_long_issue
    (long_paragraphs : list (Z * Z)) (paragraphs : list string) : Issue :=
  {| type := "paragraph_too_long";
     severity := 6;
     location := "Paragraph(s) " +:+
                 join ", " (map (fun p => str_of_int (fst p))
                                (slice_to long_paragraphs 3));
     context := str_of_int (len long_paragraphs) +:+ " paragraphs over 150 words";
     description := "Some paragraphs are too long";
     why := "Long paragraphs are intimidating and hard to follow. Readers may skip them.";
     suggested_approach :=
       ["Break long paragraphs into smaller chunks";
        "Each paragraph should focus on one main idea";
        "Target: <150 words per paragraph";
        "Longest: " +:+
          str_of_int (fold_right Z.max 0%Z (map snd long_paragraphs)) +:+
          " words"];
     metrics :=
       <["total_paragraphs" := VInt (len paragraphs)]>
         {["long_paragraphs" :=
             VList (map (fun p => VTuple [VInt (fst p); VInt (snd p)])
                        long_paragraphs)]} |}.

Definition _detect_structure_issues (text : string) : list Issue :=
  let paragraphs := LA.paragraphs_of text in
  let long_paragraphs := long_paragraphs_of paragraphs in
  match long_paragraphs with
  | [] => []
  | _ => [paragraph_too_long_issue long_paragraphs paragraphs]
  end.

(** [find_all_issues]: the four categories in order, then every issue's
    severity overwritten by the prioritizer's score. *)
Definition find_all_issues (self : ProblemDetector) (text : string)
    : list Issue :=
  let issues :=
    (match grammar_analyzer self with
     | Some ga => _detect_grammar_issues ga text
     | None => []
     end)
    ++
    (match readability_analyzer self with
     | Some ra => _detect_readability_issues ra text
     | None => []
     end)
    ++
    (match quality_analyzer self with
     | Some qa => _detect_quality_issues qa text
     | None => []
     end)
    ++
    _detect_structure_issues text in
  map (fun issue => set_severity (score_issue issue) issue) issues.

End Detection.
End Detector.

(** ** coaching/fix_validator.py *)

Module Validator.
Import Py.
Import Detector.

(** The verdict messages.  Each constructor stands for one f-string
    template of [_check_improvement] and carries the values interpolated
    into it; the constructor is the message tier. *)
Inductive Message :=
| FixedReduced (issue_type : string) (old_count : num) (new_count : Z)
    (* "Fixed! Reduced {issue_type} issues from {old_count} to {new_count}" *)
| PerfectNoneRemaining (issue_type : string)
    (* "Perfect! No {issue_type} issues remaining" *)
| StillRemaining (new_count : Z) (issue_type : string)
    (* "Still {new_count} {issue_type} issue(s) remaining" *)
| PassiveExcellent (new_pct : num)
    (* "Excellent! Passive voice reduced to {new_pct:.1f}% (target met)" *)
| PassiveGoodImprovement (old_pct new_pct : num)
    (* "Good improvement! Passive voice: {old_pct:.1f}% -> {new_pct:.1f}%" *)
| PassiveSmallImprovement (old_pct new_pct : num)
    (* "Small improvement. Passive voice: {old_pct:.1f}% -> {new_pct:.1f}%" *)
| PassiveNoImprovement (new_pct : num)
    (* "No improvement. Passive voice still at {new_pct:.1f}%" *)
| AdverbsExcellent (new_rate : num)
    (* "Excellent! Adverb rate reduced to {new_rate:.1f} per 100 words" *)
| AdverbsGood (old_rate new_rate : num)
    (* "Good! Adverbs: {old_rate:.1f} -> {new_rate:.1f} per 100 words" *)
| AdverbsStill (new_rate : num)
    (* "Still {new_rate:.1f} adverbs per 100 words (target: <3)" *)
| WeakVerbsGreat (new_pct : num)
    (* "Great! Weak verbs reduced to {new_pct:.1f}%" *)
| WeakVerbsImproved (old_pct new_pct : num)
    (* "Improved! Weak verbs: {old_pct:.1f}% -> {new_pct:.1f}%" *)
| WeakVerbsStill (new_pct : num)
    (* "Still {new_pct:.1f}% weak verbs (target: <30%)" *)
| ReadabilityExcellent (new_score : num)
    (* "Excellent! Readability improved to {new_score:.1f}" *)
| ReadabilityBetter (old_score new_score : num)
    (* "Better! Readability: {old_score:.1f} -> {new_score:.1f}" *)
| ReadabilitySlight (old_score new_score : num)
    (* "Slight improvement: {old_score:.1f} -> {new_score:.1f}" *)
| ReadabilityUnchanged (new_score : num)
    (* "Readability unchanged at {new_score:.1f}" *)
| SentencePerfect (new_avg : num)
    (* "Perfect! Average sentence length: {new_avg:.1f} words" *)
| SentenceBetter (old_avg new_avg : num)
    (* "Better! Sentence length: {old_avg:.1f} -> {new_avg:.1f} words" *)
| SentenceStill (new_avg : num)
    (* "Still averaging {new_avg:.1f} words per sentence" *)
| ParagraphsExcellent
    (* "Excellent! All paragraphs are now <150 words" *)
| ParagraphsImproved (old_count new_count : Z)
    (* "Improved! Long paragraphs: {old_count} -> {len(long_paras)}" *)
| ParagraphsStill (new_count : Z)
    (* "Still {len(long_paras)} paragraph(s) over 150 words" *)
| RepetitionBetter (old_count : num) (new_count : Z)
    (* "Better! Repetitions reduced from {old_count} to {new_count}" *)
| RepetitionStill (new_count : Z)
    (* "Still {new_count} repeated words" *)
| TransitionsGreat (new_count : Z)
    (* "Great! Added transition words ({new_count} transitions)" *)
| TransitionsImproved (old_count : num) (new_count : Z)
    (* "Improved! Transitions: {old_count} -> {new_count}" *)
| TransitionsStill (new_count para_count : Z)
    (* "Still only {new_count} transitions for {para_count} paragraphs" *)
| TextEdited.
    (* "Text edited" *)

(** The returned triple (improved, message, metrics). *)
Definition Verdict : Type := bool * Message * gmap string value.

Definition before_after (before after : value) : gmap string value :=
  <["after" := after]> {["before" := before]}.

Record FixValidator := {
  detector : ProblemDetector
}.

(** [calculate_overall_improvements]: for each analyzer at hand, the
    metric of the original text paired with that of the coached text. *)
Definition calculate_overall_improvements
    (self : FixValidator) (original_text coached_text : string)
    : gmap string (num * num) :=
  let improvements : gmap string (num * num) := ∅ in
  let improvements :=
    match readability_analyzer (detector self) with
    | Some ra =>
        let orig_read := LA.readability_analyze ra original_text in
        let new_read := LA.readability_analyze ra coached_text in
        <["avg_sentence_length" :=
            (NFloat (LA.avg_sentence_length orig_read),
             NFloat (LA.avg_sentence_length new_read))]>
          (<["readability" :=
               (NFloat (LA.flesch_reading_ease orig_read),
                NFloat (LA.flesch_reading_ease new_read))]> improvements)
    | None => improvements
    end in
  let improvements :=
    match quality_analyzer (detector self) with
    | Some qa =>
        let orig_quality := LA.quality_analyze qa original_text in
        let new_quality := LA.quality_analyze qa coached_text in
        <["weak_verbs" :=
            (LA.wv_percentage (LA.weak_verbs orig_quality),
             LA.wv_percentage (LA.weak_verbs new_quality))]>
          (<["adverbs" :=
               (LA.adv_per_100_words (LA.adverbs orig_quality),
                LA.adv_per_100_words (LA.adverbs new_quality))]>
             (<["passive_voice" :=
                  (LA.pv_percentage (LA.passive_voice orig_quality),
                   LA.pv_percentage (LA.passive_voice new_quality))]>
                improvements))
    | None => improvements
    end in
  match grammar_analyzer (detector self) with
  | Some ga =>
      let orig_grammar := LA.grammar_analyze ga original_text in
      let new_grammar := LA.grammar_analyze ga coached_text in
      <["grammar_issues" :=
          (NInt (LA.total_issues orig_grammar),
           NInt (LA.total_issues new_grammar))]> improvements
  | None => improvements
  end.

Section Validation.
Context `{Formatter}.

(** [_check_improvement]; [None] is a [TypeError] raised when the baseline
    stored in [issue.metrics] is not of the kind the branch computes with.
    A branch whose analyzer is absent falls through to the default. *)
Definition _check_improvement
    (self : FixValidator) (original edited : string) (issue : Issue)
    (new_issues : list Issue) : option Verdict :=
  let issue_type := type issue in
  let dflt : option Verdict := Some (true, TextEdited, ∅) in
  if String.eqb issue_type "spelling" || String.eqb issue_type "grammar" then
    let new_count :=
      len (List.filter (fun i => String.eqb (type i) issue_type) new_issues) in
    let old := get (metrics issue) "issue_count" (VInt 0) in
    old_count ← as_num old;
    if lt (NInt new_count) old_count then
      Some (true, FixedReduced issue_type old_count new_count,
            before_after old (VInt new_count))
    else if (new_count =? 0)%Z then
      Some (true, PerfectNoneRemaining issue_type, before_after old (VInt 0))
    else
      Some (false, StillRemaining new_count issue_type,
            before_after old (VInt new_count))
  else if String.eqb issue_type "passive_voice" then
    match quality_analyzer (detector self) with
    | Some qa =>
        let new_analysis := LA.quality_analyze qa edited in
        let new_pct := LA.pv_percentage (LA.passive_voice new_analysis) in
        let old := get (metrics issue) "percentage" (VInt 0) in
        old_pct ← as_num old;
        let improvement := sub old_pct new_pct in
        if lt new_pct (NInt 10) then
          Some (true, PassiveExcellent new_pct, before_after old (VNum new_pct))
        else if gt improvement (NInt 3) then
          Some (true, PassiveGoodImprovement old_pct new_pct,
                before_after old (VNum new_pct))
        else if gt improvement (NInt 0) then
          Some (true, PassiveSmallImprovement old_pct new_pct,
                before_after old (VNum new_pct))
        else
          Some (false, PassiveNoImprovement new_pct,
                before_after old (VNum new_pct))
    | None => dflt
    end
  else if String.eqb issue_type "adverbs" then
    match quality_analyzer (detector self) with
    | Some qa =>
        let new_analysis := LA.quality_analyze qa edited in
        let new_rate := LA.adv_per_100_words (LA.adverbs new_analysis) in
        let old := get (metrics issue) "rate" (VInt 0) in
        old_rate ← as_num old;
        let improvement := sub old_rate new_rate in
        if lt new_rate (NInt 3) then
          Some (true, AdverbsExcellent new_rate, before_after old (VNum new_rate))
        else if gt improvement (NFloat 0.5) then
          Some (true, AdverbsGood old_rate new_rate,
                before_after old (VNum new_rate))
        else
          Some (false, AdverbsStill new_rate, before_after old (VNum new_rate))
    | None => dflt
    end
  else if String.eqb issue_type "weak_verbs" then
    match quality_analyzer (detector self) with
    | Some qa =>
        let new_analysis := LA.quality_analyze qa edited in
        let new_pct := LA.wv_percentage (LA.weak_verbs new_analysis) in
        let old := get (metrics issue) "percentage" (VInt 0) in
        old_pct ← as_num old;
        let improvement := sub old_pct new_pct in
        if lt new_pct (NInt 30) then
          Some (true, WeakVerbsGreat new_pct, before_after old (VNum new_pct))
        else if gt improvement (NInt 3) then
          Some (true, WeakVerbsImproved old_pct new_pct,
                before_after old (VNum new_pct))
        else
          Some (false, WeakVerbsStill new_pct, before_after old (VNum new_pct))
    | None => dflt
    end
  else if String.eqb issue_type "difficult_words" then
    match readability_analyzer (detector self) with
    | Some ra =>
        let new_analysis := LA.readability_analyze ra edited in
        let new_score := NFloat (LA.flesch_reading_ease new_analysis) in
        let old := get (metrics issue) "flesch_score" (VInt 0) in
        old_score ← as_num old;
        let improvement := sub new_score old_score in
        if ge new_score (NInt 60) then
          Some (true, ReadabilityExcellent new_score,
                before_after old (VNum new_score))
        else if gt improvement (NInt 5) then
          Some (true, ReadabilityBetter old_score new_score,
                before_after old (VNum new_score))
        else if gt improvement (NInt 0) then
          Some (true, ReadabilitySlight old_score new_score,
                before_after old (VNum new_score))
        else
          Some (false, ReadabilityUnchanged new_score,
                before_after old (VNum new_score))
    | None => dflt
    end
  else if String.eqb issue_type "sentence_too_long" then
    match readability_analyzer (detector self) with
    | Some ra =>
        let new_analysis := LA.readability_analyze ra edited in
        let new_avg := NFloat (LA.avg_sentence_length new_analysis) in
        let old := get (metrics issue) "avg_sentence_length" (VInt 0) in
        old_avg ← as_num old;
        let improvement := sub old_avg new_avg in
        if lt new_avg (NInt 20) then
          Some (true, SentencePerfect new_avg, before_after old (VNum new_avg))
        else if gt improvement (NInt 2) then
          Some (true, SentenceBetter old_avg new_avg,
                before_after old (VNum new_avg))
        else
          Some (false, SentenceStill new_avg, before_after old (VNum new_avg))
    | None => dflt
    end
  else if String.eqb issue_type "paragraph_too_long" then
    let paragraphs := LA.paragraphs_of edited in
    let long_paras :=
      List.filter (fun n => (150 <? n)%Z)
                  (map (fun p => len (split_ws p)) paragraphs) in
    old_count ← value_len (get (metrics issue) "long_paragraphs" (VList []));
    if (len long_paras =? 0)%Z then
      Some (true, ParagraphsExcellent, before_after (VInt old_count) (VInt 0))
    else if (len long_paras <? old_count)%Z then
      Some (true, ParagraphsImproved old_count (len long_paras),
            before_after (VInt old_count) (VInt (len long_paras)))
    else
      Some (false, ParagraphsStill (len long_paras),
            before_after (VInt old_count) (VInt (len long_paras)))
  else if String.eqb issue_type "word_repetition" then
    match quality_analyzer (detector self) with
    | Some qa =>
        let new_analysis := LA.quality_analyze qa edited in
        let new_count := LA.rep_total_repetitions (LA.repetition new_analysis) in
        let old := get (metrics issue) "total_repetitions" (VInt 0) in
        old_count ← as_num old;
        if lt (NInt new_count) old_count then
          Some (true, RepetitionBetter old_count new_count,
                before_after old (VInt new_count))
        else
          Some (false, RepetitionStill new_count,
                before_after old (VInt new_count))
    | None => dflt
    end
  else if String.eqb issue_type "poor_transitions" then
    match quality_analyzer (detector self) with
    | Some qa =>
        let new_analysis := LA.quality_analyze qa edited in
        let new_count := LA.tr_count (LA.transitions new_analysis) in
        let old := get (metrics issue) "transition_count" (VInt 0) in
        let para_count := len (LA.paragraphs_of edited) in
        if (para_count <=? new_count)%Z then
          Some (true, TransitionsGreat new_count,
                before_after old (VInt new_count))
        else
          old_count ← as_num old;
          if gt (NInt new_count) old_count then
            Some (true, TransitionsImproved old_count new_count,
                  before_after old (VInt new_count))
          else
            Some (false, TransitionsStill new_count para_count,
                  before_after old (VInt new_count))
    | None => dflt
    end
  else dflt.

(** [validate_fix]: a full re-analysis of the edited text, then the rule
    of the issue's type. *)
Definition validate_fix
    (self : FixValidator) (original_text edited_text : string) (issue : Issue)
    : option Verdict :=
  let new_issues := find_all_issues (detector self) edited_text in
  _check_improvement self original_text edited_text issue new_issues.

End Validation.
End Validator.

(** ** coaching/issue_presenter.py *)

Module Presenter.
Import Py.

(** What a run of the nano editor on the temporary file leaves behind:
    the content of the file after the user saved and left, or a failure of
    the subprocess or of the read. *)
Inductive EditorRun :=
| EditorFailed
| EditorSaved (content : string).

(** The user at the editor: from the content the file is opened with to
    the outcome of the run. *)
Definition Editor : Type := string -> EditorRun.

(** The content written to the temporary file before the editor opens. *)
Definition initial_file (text issue_description : string) : string :=
  "# Fix: " +:+ issue_description +:+ LocalAnalyzer.nl +:+
  "# Delete this line and edit the text below." +:+ LocalAnalyzer.nl +:+
  "# Save and exit (Ctrl+X, then Y, then Enter)" +:+ LocalAnalyzer.nl +:+
  LocalAnalyzer.nl +:+
  text.

(** The treatment of the saved content: instruction lines removed, the
    rest joined again and stripped. *)
Definition remove_instruction_lines (edited : string) : string :=
  let lines := split edited LocalAnalyzer.nl in
  let lines := List.filter (fun line => negb (startswith line "#")) lines in
  strip (join LocalAnalyzer.nl lines).

(** [edit_text_inline]: the edited text, or [None] when the user left
    nothing or the editor could not be run. *)
Definition edit_text_inline
    (nano : Editor) (text issue_description : string) : option string :=
  match nano (initial_file text issue_description) with
  | EditorSaved edited =>
      let edited := remove_instruction_lines edited in
      if truthy edited then Some edited else None
  | EditorFailed => None
  end.

End Presenter.

(** ** article_coach.py *)

Module Coach.
Import Py.
Import Detector.
Import Validator.
Import Presenter.

(** The four answers [present_issue] can return. *)
Inductive Action :=
| quit
| skip
| edit_inline
| edit_external.

(** What the user does when one issue is presented: the action chosen, the
    answer to the quit confirmation, the behaviour at the nano editor, and
    the outcome of the external editor on the scratch file (the content read
    back, or [None] when it could not be opened). *)
Record Session := {
  present_issue : Action;
  confirm_quit : bool;
  nano : Editor;
  open_in_external_editor : string -> option string
}.

(** A call of the validator made by the loop, with its verdict. *)
Record Validation := {
  v_original : string;
  v_edited : string;
  v_issue : Issue;
  v_verdict : Verdict
}.

(** The mutable fields of [ArticleCoach], and the calls of
    [validate_fix] made so far. *)
Record State := {
  coached_text : string;
  fixed_count : Z;
  skipped_count : Z;
  validations : list Validation
}.

(** How the body of the loop leaves one issue: on to the next one, or out
    of the function with [False]. *)
Inductive Flow :=
| Next
| ReturnFalse.

Section Coaching.
Context `{Formatter}.

(** The body of the loop of [_present_issues] for one issue.  [None] is
    an exception escaping from the validator.  A declined quit reaches
    [continue], which takes the next issue of the enumeration. *)
Definition present_one
    (validator : FixValidator) (user : Session) (st : State) (issue : Issue)
    : option (State * Flow) :=
  match present_issue user with
  | quit =>
      if confirm_quit user then Some (st, ReturnFalse) else Some (st, Next)
  | skip =>
      Some ({| coached_text := coached_text st;
               fixed_count := fixed_count st;
               skipped_count := (skipped_count st + 1)%Z;
               validations := validations st |}, Next)
  | edit_inline =>
      match edit_text_inline (nano user) (context issue) (description issue) with
      | Some edited =>
          if truthy edited && negb (String.eqb edited (context issue)) then
            let text' := replace_first (coached_text st) (context issue) edited in
            verdict ← validate_fix validator (context issue) edited issue;
            let '(improved, message, metrics) := (verdict : Verdict) in
            Some ({| coached_text := text';
                     fixed_count :=
                       if improved then (fixed_count st + 1)%Z
                       else fixed_count st;
                     skipped_count := skipped_count st;
                     validations :=
                       validations st ++
                       [{| v_original := context issue;
                           v_edited := edited;
                           v_issue := issue;
                           v_verdict := verdict |}] |}, Next)
          else Some (st, Next)
      | None => Some (st, Next)
      end
  | edit_external =>
      match open_in_external_editor user (coached_text st) with
      | Some loaded =>
          Some ({| coached_text := loaded;
                   fixed_count := (fixed_count st + 1)%Z;
                   skipped_count := skipped_count st;
                   validations := validations st |}, Next)
      | None => Some (st, Next)
      end
  end.

(** [_present_issues]: the issues in order, the user's conduct at the
    i-th issue given by [users i] (from 1); returns the final state and the
    completion flag. *)
Fixpoint present_from
    (validator : FixValidator) (users : Z -> Session) (i : Z)
    (st : State) (issues : list Issue) : option (State * bool) :=
  match issues with
  | [] => Some (st, true)
  | issue :: rest =>
      r ← present_one validator (users i) st issue;
      match r with
      | (st', ReturnFalse) => Some (st', false)
      | (st', Next) => present_from validator users (i + 1)%Z st' rest
      end
  end.

Definition _present_issues
    (validator : FixValidator) (users : Z -> Session)
    (st : State) (issues : list Issue) : option (State * bool) :=
  present_from validator users 1 st issues.

(** The coach: its detector, its validator and the two options of the
    command line.  ([self.detector] is named [coach_detector] here, the
    validator having a detector of its own.) *)
Record ArticleCoach := {
  coach_detector : ProblemDetector;
  validator : FixValidator;
  skip_types : list string;
  quick_mode : bool
}.

(** The counters and the working text right after the article is
    loaded. *)
Definition initial_state (original_text : string) : State :=
  {| coached_text := original_text;
     fixed_count := 0;
     skipped_count := 0;
     validations := [] |}.

(** [_filter_issues]: the skipped types removed, then the prioritizer with
    a limit of 3 in quick mode and 10 otherwise. *)
Definition _filter_issues (self : ArticleCoach) (issues : list Issue)
    : list Issue :=
  let issues :=
    match skip_types self with
    | [] => issues
    | _ =>
        List.filter
          (fun i => negb (existsb (String.eqb (type i)) (skip_types self)))
          issues
    end in
  top_issues issues (if quick_mode self then 3 else 10).

(** What reading the article file gives. *)
Inductive FileRead :=
| ReadError
| ReadOk (content : string).

(** [coach_article]: the completion flag and the content written to the
    coached file, if one is written.  [None] is an exception escaping from
    the validator. *)
Definition coach_article
    (self : ArticleCoach) (file : FileRead) (users : Z -> Session)
    : option (bool * option string) :=
  match file with
  | ReadError => Some (false, None)
  | ReadOk original_text =>
      if negb (truthy (strip original_text)) then Some (false, None)
      else
        let issues := find_all_issues (coach_detector self) original_text in
        let issues := _filter_issues self issues in
        match issues with
        | [] => Some (true, None)
        | _ =>
            r ← _present_issues (validator self) users
                  (initial_state original_text) issues;
            let '(st, completed) := (r : State * bool) in
            if completed then Some (true, Some (coached_text st))
            else Some (false, None)
        end
  end.

End Coaching.

(** The skip list that [main] builds from the three flags. *)
Definition skip_types_of_flags
    (skip_style skip_grammar skip_readability : bool) : list string :=
  (if skip_style then ["passive_voice"; "adverbs"; "weak_verbs"] else [])
  ++ (if skip_grammar then ["spelling"; "grammar"] else [])
  ++ (if skip_readability
      then ["sentence_too_long"; "difficult_words"; "paragraph_too_long"]
      else []).

End Coach.

(** ** Concrete collaborators for worked examples *)

Module Fixtures.
Import Py.
Module LA := LocalAnalyzer.

(** The nearest integer to [n / 2^k], ties to the even one. *)
Definition round_half_even_shift (n : Z) (k : Z) : Z :=
  let d := (2 ^ k)%Z in
  let q := (n / d)%Z in
  let r := (n mod d)%Z in
  if (2 * r <? d)%Z then q
  else if (d <? 2 * r)%Z then (q + 1)%Z
  else if Z.even q then q else (q + 1)%Z.

(** [format(x, '.1f')] computed from the exact binary value: the tenths
    are rounded to nearest, ties to even, as the interpreter does. *)
Definition format_1f_float (f : float) : string :=
  match Prim2SF f with
  | S754_zero s => (if s then "-" else "") +:+ "0.0"
  | S754_infinity s => if s then "-inf" else "inf"
  | S754_nan => "nan"
  | S754_finite s m e =>
      let tenths :=
        if (0 <=? e)%Z then (10 * Zpos m * 2 ^ e)%Z
        else round_half_even_shift (10 * Zpos m) (- e) in
      (if s then "-" else "") +:+
      str_of_int (tenths / 10) +:+ "." +:+ str_of_int (tenths mod 10)
  end.

#[export] Instance python_format : Formatter :=
  fun x =>
    match x with
    | NInt z =>
        (if (z <? 0)%Z then "-" else "") +:+ str_of_int (Z.abs z) +:+ ".0"
    | NFloat f => format_1f_float f
    end.

(** A stand-in for the spaCy pipeline: one sentence holding the
    whitespace-separated words of the text, no part-of-speech or
    dependency labels. *)
Definition word_token (w : string) : LA.Token :=
  {| LA.text := w; LA.lemma_ := lower w; LA.pos_ := ""; LA.dep_ := "";
     LA.is_stop := false; LA.is_alpha := true |}.

Definition whitespace_nlp : LA.WritingQualityAnalyzer :=
  {| LA.nlp := fun text =>
       {| LA.sents :=
            match split_ws text with
            | [] => []
            | ws => [{| LA.span_text := text;
                        LA.span_tokens := map word_token ws |}]
            end |} |}.

(** A stand-in for textstat that reports fixed scores. *)
Definition fixed_textstat (flesch avg : float) : LA.ReadabilityAnalyzer :=
  {| LA.textstat_flesch_reading_ease := fun _ => flesch;
     LA.textstat_flesch_kincaid_grade := fun _ => 8%float;
     LA.textstat_lexicon_count := fun text => len (split_ws text);
     LA.textstat_sentence_count := fun _ => 1%Z;
     LA.textstat_avg_sentence_length := fun _ => avg;
     LA.textstat_syllable_count := fun _ => 0%Z;
     LA.textstat_difficult_words := fun _ => 0%Z |}.

(** A stand-in for LanguageTool that knows one misspelling, one comma rule
    and one agreement rule, and reports each at most once. *)
Definition teh_match : LA.Match :=
  {| LA.message := "Possible spelling mistake found.";
     LA.context := "I saw teh cat.";
     LA.offset := 6;
     LA.errorLength := 3;
     LA.replacements := ["the"; "tea"; "ten"; "tech"];
     LA.ruleId := "MORFOLOGIK_RULE_EN_US" |}.

Definition comma_match : LA.Match :=
  {| LA.message := "Put a space after the comma.";
     LA.context := ",but";
     LA.offset := 0;
     LA.errorLength := 4;
     LA.replacements := [", but"];
     LA.ruleId := "COMMA_PARENTHESIS_WHITESPACE" |}.

Definition agreement_match : LA.Match :=
  {| LA.message := "The verb does not agree with the subject.";
     LA.context := "they is";
     LA.offset := 0;
     LA.errorLength := 7;
     LA.replacements := ["they are"];
     LA.ruleId := "SUBJECT_VERB_AGREEMENT" |}.

Definition tiny_language_tool : LA.GrammarAnalyzer :=
  {| LA.check := fun text =>
       (if contains "teh" text then [teh_match] else []) ++
       (if contains ",but" text then [comma_match] else []) ++
       (if contains "they is" text then [agreement_match] else []) |}.

(** A stand-in for LanguageTool that reports the same misspelling eight
    times whatever the text, and a detector that has only this one. *)
Definition stubborn_tool : LA.GrammarAnalyzer :=
  {| LA.check := fun _ => repeat teh_match 8 |}.

Definition stubborn_detector : Detector.ProblemDetector :=
  {| Detector.grammar_analyzer := Some stubborn_tool;
     Detector.readability_analyzer := None;
     Detector.quality_analyzer := None |}.

Definition eightfold_issue : Detector.Issue :=
  Detector.spelling_issue 8 (LA.finding_of teh_match).

(** The issue a pass reports for the one misspelling. *)
Definition teh_issue : Detector.Issue :=
  Detector.spelling_issue 1 (LA.finding_of teh_match).

Definition full_detector (flesch avg : float) : Detector.ProblemDetector :=
  {| Detector.grammar_analyzer := Some tiny_language_tool;
     Detector.readability_analyzer := Some (fixed_textstat flesch avg);
     Detector.quality_analyzer := Some whitespace_nlp |}.

(** A stand-in pipeline that parses any text as [n] sentences of one
    token each, the first [k] of them passive. *)
Definition sentence (passive : bool) : LA.Span :=
  {| LA.span_text := if passive then "It was done." else "We did it.";
     LA.span_tokens :=
       [{| LA.text := if passive then "was" else "did";
           LA.lemma_ := if passive then "be" else "do";
           LA.pos_ := "AUX";
           LA.dep_ := if passive then "auxpass" else "ROOT";
           LA.is_stop := true;
           LA.is_alpha := true |}] |}.

Definition passive_pipeline (k n : nat) : LA.WritingQualityAnalyzer :=
  {| LA.nlp := fun _ =>
       {| LA.sents := repeat (sentence true) k
                      ++ repeat (sentence false) (n - k) |} |}.

Definition passive_detector (k n : nat) : Detector.ProblemDetector :=
  {| Detector.grammar_analyzer := None;
     Detector.readability_analyzer := None;
     Detector.quality_analyzer := Some (passive_pipeline k n) |}.

(** A passive-voice issue whose baseline percentage is [pct]. *)
Definition passive_issue (pct : float) : Detector.Issue :=
  {| Detector.type := "passive_voice";
     Detector.severity := 5;
     Detector.location := "Multiple paragraphs";
     Detector.context := "15 passive constructions found";
     Detector.description := "Excessive passive voice";
     Detector.why := "";
     Detector.suggested_approach := [];
     Detector.metrics := {["percentage" := VFloat pct]} |}.

(** An issue with the given type and severity and nothing else of
    note. *)
Definition plain_issue (ty : string) (sev : Z) (ctx : string)
    : Detector.Issue :=
  {| Detector.type := ty;
     Detector.severity := sev;
     Detector.location := "";
     Detector.context := ctx;
     Detector.description := "";
     Detector.why := "";
     Detector.suggested_approach := [];
     Detector.metrics := ∅ |}.

(** A detector with the stand-in pipeline only, an essay of five
    paragraphs holding two transition words, the one issue a pass finds in
    it, and the text a user types in its place. *)
Definition quality_only_detector : Detector.ProblemDetector :=
  {| Detector.grammar_analyzer := None;
     Detector.readability_analyzer := None;
     Detector.quality_analyzer := Some whitespace_nlp |}.

Definition essay : string :=
  "however a" +:+ LA.nl +:+ LA.nl +:+
  "therefore b" +:+ LA.nl +:+ LA.nl +:+
  "c" +:+ LA.nl +:+ LA.nl +:+
  "d" +:+ LA.nl +:+ LA.nl +:+
  "e".

Definition essay_issue : Detector.Issue :=
  Detector.set_severity 6
    (Detector.poor_transitions_issue (LA.quality_analyze whitespace_nlp essay)).

Definition essay_edit : string := "thus we conclude".

(** A snippet that opens with a Markdown heading, and the lines of the
    temporary file the editor is opened with for it. *)
Definition heading_snippet : string :=
  "# Results" +:+ LA.nl +:+ "The model was fitted.".

Definition heading_file_lines : list string :=
  ["# Fix: Excessive passive voice";
   "# Delete this line and edit the text below.";
   "# Save and exit (Ctrl+X, then Y, then Enter)";
   "";
   "# Results";
   "The model was fitted."].

(** The text ["A"*200 + "\n\n" + "B"*10]: two paragraphs of one word
    each, of 200 and 10 letters. *)
Definition letters_text : string :=
  repeat_str "A" 200 +:+ LA.nl +:+ LA.nl +:+ repeat_str "B" 10.

(** The text [("A " * 200) + "\n\n" + ("B " * 10)]: two paragraphs of
    200 and 10 words. *)
Definition words_text : string :=
  repeat_str "A " 200 +:+ LA.nl +:+ LA.nl +:+ repeat_str "B " 10.

(** A user who chooses the inline edit and behaves at the editor as
    [editor] says. *)
Definition inline_session (editor : Presenter.Editor) : Coach.Session :=
  {| Coach.present_issue := Coach.edit_inline;
     Coach.confirm_quit := false;
     Coach.nano := editor;
     Coach.open_in_external_editor := fun _ => None |}.

(** The user saves the temporary file as it was opened. *)
Definition save_untouched : Presenter.Editor := Presenter.EditorSaved.

(** The user replaces the whole file by [content]. *)
Definition save_as (content : string) : Presenter.Editor :=
  fun _ => Presenter.EditorSaved content.

(** A user who skips the first issue and then asks to quit, confirming
    it. *)
Definition skip_then_quit (k : Z) : Coach.Session :=
  {| Coach.present_issue := if (k =? 1)%Z then Coach.skip else Coach.quit;
     Coach.confirm_quit := true;
     Coach.nano := save_untouched;
     Coach.open_in_external_editor := fun _ => None |}.

(** A user who skips everything. *)
Definition always_skip (k : Z) : Coach.Session :=
  {| Coach.present_issue := Coach.skip;
     Coach.confirm_quit := false;
     Coach.nano := save_untouched;
     Coach.open_in_external_editor := fun _ => None |}.

(** The state of a coach that has just loaded [text]. *)
Definition loaded (text : string) : Coach.State :=
  {| Coach.coached_text := text;
     Coach.fixed_count := 0;
     Coach.skipped_count := 0;
     Coach.validations := [] |}.

End Fixtures.

(** ** Vocabulary of the specification *)

Module Spec.
Import Py.
Import Detector.

(** Whether a list of issues holds one of the given type, and how many. *)
Definition has_type (ty : string) (issues : list Issue) : bool :=
  existsb (fun i => String.eqb (type i) ty) issues.

Definition count_type (ty : string) (issues : list Issue) : Z :=
  len (List.filter (fun i => String.eqb (type i) ty) issues).

(** The severity table as the specification words it: ten listed types,
    and 3 for any type that is not listed. *)
Definition spec_severity (ty : string) : Z :=
  if String.eqb ty "spelling" then 10
  else if String.eqb ty "grammar" then 9
  else if String.eqb ty "sentence_too_long" then 7
  else if String.eqb ty "difficult_words" then 6
  else if String.eqb ty "poor_transitions" then 6
  else if String.eqb ty "paragraph_too_long" then 6
  else if String.eqb ty "passive_voice" then 5
  else if String.eqb ty "weak_verbs" then 4
  else if String.eqb ty "word_repetition" then 4
  else if String.eqb ty "adverbs" then 3
  else 3.

(** The three classes of a raw match: spelling; punctuation when not
    spelling; grammar when neither. *)
Definition spelling_class (m : LA.Match) : bool := LA.is_spelling m.

Definition punctuation_class (m : LA.Match) : bool :=
  negb (LA.is_spelling m) && LA.is_punctuation m.

Definition grammar_class (m : LA.Match) : bool :=
  negb (LA.is_spelling m) && negb (LA.is_punctuation m).

(** A line: a text without a newline.  A blank text: whitespace only. *)
Fixpoint no_newline (s : string) : bool :=
  match s with
  | EmptyString => true
  | String c s' => negb (Ascii.eqb c (ascii_of_nat 10)) && no_newline s'
  end.

Fixpoint all_space (s : string) : bool :=
  match s with
  | EmptyString => true
  | String c s' => isspace c && all_space s'
  end.

(** What [edit_text_inline] returns for a stripped remainder. *)
Definition text_or_none (edited : string) : option string :=
  if truthy edited then Some edited else None.

(** Descending order of a key. *)
Definition desc {A} (key : A -> Z) (a b : A) : Prop := (key b <= key a)%Z.

(** The types an analysis pass can emit. *)
Definition emitted_types : list string :=
  ["spelling"; "grammar"; "difficult_words"; "sentence_too_long";
   "passive_voice"; "adverbs"; "weak_verbs"; "word_repetition";
   "poor_transitions"; "paragraph_too_long"].

(** The issues of a pass before the prioritizer's scores are written
    into them. *)
Definition raw_issues `{Formatter} (self : ProblemDetector) (text : string)
    : list Issue :=
  (match grammar_analyzer self with
   | Some ga => _detect_grammar_issues ga text
   | None => []
   end)
  ++
  (match readability_analyzer self with
   | Some ra => _detect_readability_issues ra text
   | None => []
   end)
  ++
  (match quality_analyzer self with
   | Some qa => _detect_quality_issues qa text
   | None => []
   end)
  ++
  _detect_structure_issues text.

End Spec.

(** * Properties *)

Import Py Detector Validator Presenter Coach Spec.
Module LA := LocalAnalyzer.

(** ** Types of emitted issues *)

Lemma find_all_issues_raw `{Formatter} det text :
  find_all_issues det text =
  map (fun issue => set_severity (score_issue issue) issue) (raw_issues det text).
Proof. reflexivity. Qed.

Lemma has_type_app ty l1 l2 :
  has_type ty (l1 ++ l2) = has_type ty l1 || has_type ty l2.
Proof. apply existsb_app. Qed.

Lemma has_type_rescored ty (l : list Issue) :
  has_type ty (map (fun issue => set_severity (score_issue issue) issue) l)
  = has_type ty l.
Proof.
  induction l as [|i l IH]; simpl; [reflexivity|].
  now rewrite IH.
Qed.

Lemma has_type_false_of_types ty (tys : list string) (l : list Issue) :
  Forall (fun i => In (type i) tys) l ->
  ~ In ty tys ->
  has_type ty l = false.
Proof.
  intros Hall Hnot.
  induction Hall as [|i l Hi _ IH]; simpl; [reflexivity|].
  rewrite IH, orb_false_r.
  apply String.eqb_neq. intros Heq. apply Hnot. now rewrite <- Heq.
Qed.

(** Closes [Forall (fun i => In (type i) tys) l] for a list [l] that is
    empty or a singleton chosen by a test. *)
Ltac one_or_none :=
  match goal with
  | |- Forall _ (if ?b then _ else _) => destruct b
  | |- Forall _ (match ?l with [] => _ | _ :: _ => _ end) => destruct l
  | _ => idtac
  end;
  first [ solve [constructor]
        | constructor; [simpl; auto 12 | constructor] ].

Lemma grammar_issue_types `{Formatter} ga text :
  Forall (fun i => In (type i) ["spelling"; "grammar"])
         (_detect_grammar_issues ga text).
Proof.
  unfold _detect_grammar_issues.
  apply Forall_app; split; apply List.Forall_map, Forall_forall;
    intros x _; simpl; auto.
Qed.

Lemma readability_issue_types `{Formatter} ra text :
  Forall (fun i => In (type i) ["difficult_words"; "sentence_too_long"])
         (_detect_readability_issues ra text).
Proof.
  unfold _detect_readability_issues.
  apply Forall_app; split; one_or_none.
Qed.

Lemma quality_issue_types `{Formatter} qa text :
  Forall (fun i => In (type i)
            ["passive_voice"; "adverbs"; "weak_verbs"; "word_repetition";
             "poor_transitions"])
         (_detect_quality_issues qa text).
Proof.
  unfold _detect_quality_issues.
  repeat (apply Forall_app; split); one_or_none.
Qed.

Lemma structure_issue_types `{Formatter} text :
  Forall (fun i => In (type i) ["paragraph_too_long"])
         (_detect_structure_issues text).
Proof.
  unfold _detect_structure_issues.
  one_or_none.
Qed.

Lemma Forall_In_weaken (tys tys' : list string) (l : list Issue) :
  (forall t, In t tys -> In t tys') ->
  Forall (fun i => In (type i) tys) l ->
  Forall (fun i => In (type i) tys') l.
Proof.
  intros Hsub Hall. eapply Forall_impl; [exact Hall|].
  intros i Hi. now apply Hsub.
Qed.

Lemma raw_issue_types `{Formatter} det text :
  Forall (fun i => In (type i) emitted_types) (raw_issues det text).
Proof.
  unfold raw_issues.
  repeat (apply Forall_app; split).
  - destruct (grammar_analyzer det); [|constructor].
    eapply Forall_In_weaken; [|apply grammar_issue_types].
    unfold emitted_types; simpl; intuition.
  - destruct (readability_analyzer det); [|constructor].
    eapply Forall_In_weaken; [|apply readability_issue_types].
    unfold emitted_types; simpl; intuition.
  - destruct (quality_analyzer det); [|constructor].
    eapply Forall_In_weaken; [|apply quality_issue_types].
    unfold emitted_types; simpl; intuition.
  - eapply Forall_In_weaken; [|apply structure_issue_types].
    unfold emitted_types; simpl; intuition.
Qed.

Lemma score_matches_spec_on_emitted ty :
  In ty emitted_types ->
  default 3%Z (SEVERITY_SCORES !! ty) = spec_severity ty.
Proof.
  unfold emitted_types; simpl.
  intros [<-|[<-|[<-|[<-|[<-|[<-|[<-|[<-|[<-|[<-|[]]]]]]]]]]];
    vm_compute; reflexivity.
Qed.

Lemma readability_has_difficult_words `{Formatter} ra text :
  has_type "difficult_words" (_detect_readability_issues ra text)
  = PrimFloat.ltb (LA.flesch_reading_ease (LA.readability_analyze ra text)) 50.
Proof.
  unfold _detect_readability_issues.
  rewrite has_type_app.
  destruct (PrimFloat.ltb (LA.flesch_reading_ease _) 50);
    destruct (PrimFloat.ltb 20 (LA.avg_sentence_length _)); reflexivity.
Qed.

Lemma readability_has_sentence_too_long `{Formatter} ra text :
  has_type "sentence_too_long" (_detect_readability_issues ra text)
  = PrimFloat.ltb 20 (LA.avg_sentence_length (LA.readability_analyze ra text)).
Proof.
  unfold _detect_readability_issues.
  rewrite has_type_app.
  destruct (PrimFloat.ltb (LA.flesch_reading_ease _) 50);
    destruct (PrimFloat.ltb 20 (LA.avg_sentence_length _)); reflexivity.
Qed.

(** Only the readability category can emit a readability type. *)
Lemma has_readability_type `{Formatter} det ra text ty :
  readability_analyzer det = Some ra ->
  In ty ["difficult_words"; "sentence_too_long"] ->
  has_type ty (find_all_issues det text)
  = has_type ty (_detect_readability_issues ra text).
Proof.
  intros Hra Hty.
  rewrite find_all_issues_raw, has_type_rescored.
  unfold raw_issues. rewrite Hra, !has_type_app.
  assert (Hg : has_type ty
                 (match grammar_analyzer det with
                  | Some ga => _detect_grammar_issues ga text
                  | None => []
                  end) = false).
  { destruct (grammar_analyzer det); [|reflexivity].
    eapply has_type_false_of_types; [apply grammar_issue_types|].
    simpl in *; intuition congruence. }
  assert (Hq : has_type ty
                 (match quality_analyzer det with
                  | Some qa => _detect_quality_issues qa text
                  | None => []
                  end) = false).
  { destruct (quality_analyzer det); [|reflexivity].
    eapply has_type_false_of_types; [apply quality_issue_types|].
    simpl in *; intuition congruence. }
  assert (Hs : has_type ty (_detect_structure_issues text) = false).
  { eapply has_type_false_of_types; [apply structure_issue_types|].
    simpl in *; intuition congruence. }
  rewrite Hg, Hq, Hs. simpl. now rewrite !orb_false_r.
Qed.

(** ** C1: readability thresholds *)

(** C1.  With a readability analyzer at hand, [find_all_issues] emits a
    [difficult_words] issue exactly when the analyzer's Flesch reading ease
    of the text is strictly below 50, and a [sentence_too_long] issue
    exactly when its average sentence length is strictly above 20; a score
    of exactly 50 and an average of exactly 20.0 emit nothing. *)
Theorem readability_issues_iff_thresholds `{Formatter}
    (det : ProblemDetector) (ra : LA.ReadabilityAnalyzer) (text : string) :
  readability_analyzer det = Some ra ->
  let analysis := LA.readability_analyze ra text in
  has_type "difficult_words" (find_all_issues det text)
    = PrimFloat.ltb (LA.flesch_reading_ease analysis) 50
  /\ has_type "sentence_too_long" (find_all_issues det text)
    = PrimFloat.ltb 20 (LA.avg_sentence_length analysis)
  /\ (LA.flesch_reading_ease analysis = 50%float ->
      has_type "difficult_words" (find_all_issues det text) = false)
  /\ (LA.avg_sentence_length analysis = 20%float ->
      has_type "sentence_too_long" (find_all_issues det text) = false).
Proof.
  intros Hra analysis.
  assert (Hd : has_type "difficult_words" (find_all_issues det text)
               = PrimFloat.ltb (LA.flesch_reading_ease analysis) 50).
  { rewrite (has_readability_type det ra) by (simpl; auto).
    apply readability_has_difficult_words. }
  assert (Hs : has_type "sentence_too_long" (find_all_issues det text)
               = PrimFloat.ltb 20 (LA.avg_sentence_length analysis)).
  { rewrite (has_readability_type det ra) by (simpl; auto).
    apply readability_has_sentence_too_long. }
  repeat split; try assumption.
  - intros E. rewrite Hd, E. reflexivity.
  - intros E. rewrite Hs, E. reflexivity.
Qed.

Lemma readability_issues_iff_thresholds_witness :
  has_type "difficult_words"
    (find_all_issues (H := Fixtures.python_format)
       (Fixtures.full_detector 50 20) "Plain words.") = false
  /\ has_type "sentence_too_long"
    (find_all_issues (H := Fixtures.python_format)
       (Fixtures.full_detector 50 20) "Plain words.") = false.
Proof.
  destruct (readability_issues_iff_thresholds
              (H := Fixtures.python_format)
              (Fixtures.full_detector 50 20)
              (Fixtures.fixed_textstat 50 20) "Plain words." eq_refl)
    as (_ & _ & Hflesch & Havg).
  split; [apply Hflesch | apply Havg]; reflexivity.
Defined.

(** ** C3: severities come from the table *)

(** The table of the code and the table of the specification agree on
    every type but ['factual_error'], which the code lists with 10 and no
    analysis pass emits. *)
Lemma severity_tables_agree (ty : string) :
  ty <> "factual_error" ->
  default 3%Z (SEVERITY_SCORES !! ty) = spec_severity ty.
Proof.
  intros Hfe. unfold spec_severity.
  repeat match goal with
         | |- context [String.eqb ty ?k] =>
             destruct (String.eqb_spec ty k) as [->|?];
             [vm_compute; reflexivity|]
         end.
  unfold SEVERITY_SCORES. cbn [list_to_map foldr uncurry fst snd].
  rewrite !lookup_insert_ne by congruence.
  now rewrite lookup_empty.
Qed.

Lemma rescoring_forgets_severity (i : Issue) (s : Z) :
  set_severity (score_issue (set_severity s i)) (set_severity s i)
  = set_severity (score_issue i) i.
Proof. reflexivity. Qed.

(** C3.  Every issue returned by [find_all_issues] has the severity that
    the table gives for its type (spelling 10, grammar 9, sentence_too_long
    7, difficult_words 6, poor_transitions 6, paragraph_too_long 6,
    passive_voice 5, weak_verbs 4, word_repetition 4, adverbs 3, any other
    type 3), whatever severity the issue was constructed with. *)
Theorem find_all_issues_severity_from_table `{Formatter}
    (det : ProblemDetector) (text : string) :
  Forall (fun i => severity i = score_issue i
                   /\ severity i = spec_severity (type i))
         (find_all_issues det text)
  /\ (forall (i : Issue) (s : Z),
        severity (set_severity (score_issue (set_severity s i))
                               (set_severity s i))
        = score_issue i).
Proof.
  split; [|reflexivity].
  rewrite find_all_issues_raw.
  apply List.Forall_map.
  eapply Forall_impl; [apply raw_issue_types|].
  intros i Hi. simpl. split; [reflexivity|].
  unfold score_issue. now apply score_matches_spec_on_emitted.
Qed.

(** ** C2: the prioritizer *)

Section StableSort.
Context {A : Type} (key : A -> Z).

#[local] Abbreviation desc := (desc key).

Lemma insert_desc_perm x l : Permutation (insert_desc key x l) (x :: l).
Proof.
  induction l as [|y l IH]; simpl; [reflexivity|].
  destruct (key x <? key y)%Z; [|reflexivity].
  rewrite IH. apply perm_swap.
Qed.

Lemma sorted_desc_perm l : Permutation (sorted_desc key l) l.
Proof.
  induction l as [|x l IH]; simpl; [reflexivity|].
  rewrite insert_desc_perm. now constructor.
Qed.

Lemma insert_desc_sorted x l :
  StronglySorted desc l -> StronglySorted desc (insert_desc key x l).
Proof.
  induction 1 as [|y l Hl IH Hy]; simpl.
  - repeat constructor.
  - destruct (key x <? key y)%Z eqn:E.
    + constructor; [exact IH|].
      apply Z.ltb_lt in E.
      eapply Permutation_Forall; [symmetry; apply insert_desc_perm|].
      constructor; [unfold desc; lia | exact Hy].
    + apply Z.ltb_ge in E.
      constructor; [constructor; assumption|].
      constructor; [exact E|].
      eapply Forall_impl; [exact Hy|].
      intros z Hz. unfold desc in *. lia.
Qed.

Lemma sorted_desc_sorted l : StronglySorted desc (sorted_desc key l).
Proof.
  induction l as [|x l IH]; simpl; [constructor|].
  now apply insert_desc_sorted.
Qed.

(** Insertion never carries an element past one of the same key. *)
Lemma insert_desc_stable k x l :
  List.filter (fun a => (key a =? k)%Z) (insert_desc key x l)
  = List.filter (fun a => (key a =? k)%Z) (x :: l).
Proof.
  induction l as [|y l IH]; [reflexivity|].
  cbn [insert_desc].
  destruct (key x <? key y)%Z eqn:E; [|reflexivity].
  apply Z.ltb_lt in E.
  cbn [List.filter] in *. rewrite IH.
  destruct (key x =? k)%Z eqn:Ex, (key y =? k)%Z eqn:Ey; try reflexivity.
  apply Z.eqb_eq in Ex, Ey. lia.
Qed.

Lemma sorted_desc_stable k l :
  List.filter (fun a => (key a =? k)%Z) (sorted_desc key l)
  = List.filter (fun a => (key a =? k)%Z) l.
Proof.
  induction l as [|x l IH]; [reflexivity|].
  cbn [sorted_desc]. rewrite insert_desc_stable.
  cbn [List.filter]. now rewrite IH.
Qed.

Lemma filter_sorted (p : A -> bool) l :
  StronglySorted desc l -> StronglySorted desc (List.filter p l).
Proof.
  induction 1 as [|y l Hl IH Hy]; simpl; [constructor|].
  destruct (p y); [|exact IH].
  constructor; [exact IH|].
  apply List.Forall_forall. intros z Hz.
  apply filter_In in Hz as [Hz _].
  rewrite List.Forall_forall in Hy. now apply Hy.
Qed.

Lemma slice_to_is_firstn (l : list A) (k : Z) :
  exists n, slice_to l k = firstn n l.
Proof. unfold slice_to. destruct (0 <=? k)%Z; eauto. Qed.

Lemma firstn_sorted n l :
  StronglySorted desc l -> StronglySorted desc (firstn n l).
Proof.
  intros Hl. rewrite <- (firstn_skipn n l) in Hl.
  now apply StronglySorted_app_1_l in Hl.
Qed.

Lemma filter_firstn_prefix (p : A -> bool) n l :
  List.filter p (firstn n l) `prefix_of` List.filter p l.
Proof.
  exists (List.filter p (skipn n l)).
  now rewrite <- List.filter_app, firstn_skipn.
Qed.

End StableSort.

Lemma filter_commute {A} (p q : A -> bool) (l : list A) :
  List.filter p (List.filter q l) = List.filter q (List.filter p l).
Proof.
  induction l as [|x l IH]; [reflexivity|].
  simpl. destruct (p x) eqn:Ep, (q x) eqn:Eq; simpl;
    rewrite ?Ep, ?Eq, IH; reflexivity.
Qed.

Lemma important_of_severity (s : Z) (l : list Issue) :
  List.filter (fun i => (5 <=? severity i)%Z)
              (List.filter (fun i => (severity i =? s)%Z) l)
  = if (5 <=? s)%Z then List.filter (fun i => (severity i =? s)%Z) l else [].
Proof.
  induction l as [|i l IH]; [now destruct (5 <=? s)%Z|].
  cbn [List.filter]. destruct (severity i =? s)%Z eqn:Ei; [|exact IH].
  cbn [List.filter]. apply Z.eqb_eq in Ei. rewrite Ei, IH.
  now destruct (5 <=? s)%Z.
Qed.

(** C2, as the code has it.  For every list of issues and every limit,
    [top_issues] returns issues of the input only, none of severity below
    5, sorted by descending severity, and among issues of one severity in
    the order of the input (they form a prefix of the input's issues of
    that severity); when the limit is not negative the result has at most
    [limit] issues. *)
Theorem top_issues_filtered_bounded_sorted_stable
    (issues : list Issue) (limit : Z) :
  Forall (fun i => (5 <= severity i)%Z /\ In i issues) (top_issues issues limit)
  /\ ((0 <= limit)%Z -> (len (top_issues issues limit) <= limit)%Z)
  /\ StronglySorted (fun a b => (severity b <= severity a)%Z)
                    (top_issues issues limit)
  /\ (forall s : Z,
        List.filter (fun i => (severity i =? s)%Z) (top_issues issues limit)
        `prefix_of` List.filter (fun i => (severity i =? s)%Z) issues).
Proof.
  unfold top_issues.
  set (important := List.filter (fun i => (5 <=? severity i)%Z)
                                (sorted_desc severity issues)).
  destruct (slice_to_is_firstn important limit) as [n Hn].
  repeat split.
  - rewrite Hn. apply List.Forall_forall. intros i Hi.
    assert (Hin : In i important).
    { rewrite <- (firstn_skipn n important). apply in_or_app. now left. }
    apply filter_In in Hin as [Hin Hsev].
    split; [now apply Z.leb_le|].
    eapply Permutation_in; [apply sorted_desc_perm | exact Hin].
  - intros Hlimit. unfold slice_to, len.
    apply Z.leb_le in Hlimit. rewrite Hlimit. apply Z.leb_le in Hlimit.
    pose proof (firstn_le_length (Z.to_nat limit) important). lia.
  - rewrite Hn. apply (firstn_sorted severity), (filter_sorted severity).
    apply sorted_desc_sorted.
  - intros s. rewrite Hn.
    etransitivity; [apply filter_firstn_prefix|].
    unfold important.
    rewrite filter_commute, sorted_desc_stable, important_of_severity.
    destruct (5 <=? s)%Z; [reflexivity | apply prefix_nil].
Qed.

Lemma top_issues_filtered_bounded_sorted_stable_witness :
  (len (top_issues
          [Fixtures.plain_issue "adverbs" 3 "a";
           Fixtures.plain_issue "grammar" 9 "b";
           Fixtures.plain_issue "spelling" 10 "c";
           Fixtures.plain_issue "grammar" 9 "d"] 2) <= 2)%Z.
Proof.
  apply (top_issues_filtered_bounded_sorted_stable
           [Fixtures.plain_issue "adverbs" 3 "a";
            Fixtures.plain_issue "grammar" 9 "b";
            Fixtures.plain_issue "spelling" 10 "c";
            Fixtures.plain_issue "grammar" 9 "d"] 2).
  lia.
Defined.

(** C2, as stated, fails for a negative limit: the slice [[:limit]] then
    drops issues from the end, and with two important issues and a limit of
    -1 one issue is returned. *)
Lemma top_issues_negative_limit_counterexample :
  top_issues [Fixtures.plain_issue "spelling" 10 "a";
              Fixtures.plain_issue "grammar" 9 "b"] (-1)
  = [Fixtures.plain_issue "spelling" 10 "a"]
  /\ (len (top_issues [Fixtures.plain_issue "spelling" 10 "a";
                       Fixtures.plain_issue "grammar" 9 "b"] (-1)) <=? -1)%Z
     = false.
Proof. split; reflexivity. Qed.

(** ** C9: the grammar analyzer partitions the matches *)

Lemma categorize_fold (ms : list LA.Match) (g s p : list LA.Finding) :
  fold_left LA.categorize_step ms (g, s, p)
  = (g ++ map LA.finding_of (List.filter grammar_class ms),
     s ++ map LA.finding_of (List.filter spelling_class ms),
     p ++ map LA.finding_of (List.filter punctuation_class ms)).
Proof.
  revert g s p.
  induction ms as [|m ms IH]; intros g s p; simpl.
  - now rewrite !app_nil_r.
  - unfold grammar_class, spelling_class, punctuation_class in *.
    destruct (LA.is_spelling m); simpl.
    + rewrite IH. now rewrite <- app_assoc.
    + destruct (LA.is_punctuation m); simpl; rewrite IH;
        now rewrite <- app_assoc.
Qed.

Lemma classes_partition_length (ms : list LA.Match) :
  (length (List.filter grammar_class ms)
   + length (List.filter spelling_class ms)
   + length (List.filter punctuation_class ms) = length ms)%nat.
Proof.
  induction ms as [|m ms IH]; [reflexivity|].
  unfold grammar_class, spelling_class, punctuation_class in *. simpl.
  destruct (LA.is_spelling m), (LA.is_punctuation m); simpl; lia.
Qed.

Lemma classes_partition_perm (ms : list LA.Match) :
  Permutation
    (List.filter grammar_class ms ++ List.filter spelling_class ms
     ++ List.filter punctuation_class ms)
    ms.
Proof.
  induction ms as [|m ms IH]; [reflexivity|].
  unfold grammar_class, spelling_class, punctuation_class in *. simpl.
  destruct (LA.is_spelling m), (LA.is_punctuation m); simpl.
  - rewrite <- Permutation_middle. now constructor.
  - rewrite <- Permutation_middle. now constructor.
  - rewrite app_assoc, <- Permutation_middle, <- app_assoc. now constructor.
  - now constructor.
Qed.

(** C9.  [GrammarAnalyzer.analyze] places each raw match in exactly one of
    the three lists: in [spelling_issues] when its rule id contains SPELL or
    MORFOLOGIK, otherwise in [punctuation_issues] when it contains PUNCT or
    COMMA, otherwise in [grammar_issues]; the three lengths add up to
    [total_issues], and [issue_breakdown] holds the three lengths. *)
Theorem grammar_analyze_partitions
    (ga : LA.GrammarAnalyzer) (text : string) :
  let ms := LA.check ga text in
  let a := LA.grammar_analyze ga text in
  LA.spelling_issues a = map LA.finding_of (List.filter spelling_class ms)
  /\ LA.punctuation_issues a
     = map LA.finding_of (List.filter punctuation_class ms)
  /\ LA.grammar_issues a = map LA.finding_of (List.filter grammar_class ms)
  /\ (forall m, In m ms ->
        (spelling_class m = true /\ punctuation_class m = false
         /\ grammar_class m = false)
        \/ (spelling_class m = false /\ punctuation_class m = true
            /\ grammar_class m = false)
        \/ (spelling_class m = false /\ punctuation_class m = false
            /\ grammar_class m = true))
  /\ Permutation
       (LA.grammar_issues a ++ LA.spelling_issues a ++ LA.punctuation_issues a)
       (map LA.finding_of ms)
  /\ (len (LA.grammar_issues a) + len (LA.spelling_issues a)
      + len (LA.punctuation_issues a) = LA.total_issues a)%Z
  /\ LA.issue_breakdown a !! "grammar" = Some (len (LA.grammar_issues a))
  /\ LA.issue_breakdown a !! "spelling" = Some (len (LA.spelling_issues a))
  /\ LA.issue_breakdown a !! "punctuation"
     = Some (len (LA.punctuation_issues a)).
Proof.
  intros ms a. subst a. unfold LA.grammar_analyze. fold ms.
  rewrite categorize_fold. cbn [app].
  cbn [LA.spelling_issues LA.punctuation_issues LA.grammar_issues
       LA.total_issues LA.issue_breakdown].
  repeat split.
  - intros m _. unfold spelling_class, punctuation_class, grammar_class.
    destruct (LA.is_spelling m), (LA.is_punctuation m); simpl; auto 6.
  - rewrite <- !map_app. apply Permutation_map, classes_partition_perm.
  - unfold len. rewrite !length_map.
    pose proof (classes_partition_length ms). lia.
Qed.

(** ** C8: an inline edit that changes nothing *)

(** C8.  In the [edit_inline] branch of the resolution loop, when the
    editor returns no text (the edit was aborted) or returns the issue's
    context unchanged, the loop moves on with the state as it was: the
    working text, the fixed counter and the skipped counter are unchanged
    and no call of [validate_fix] is made. *)
Theorem edit_inline_noop_leaves_state `{Formatter}
    (validator : FixValidator) (user : Session) (st : State) (issue : Issue) :
  present_issue user = edit_inline ->
  edit_text_inline (nano user) (context issue) (description issue) = None
  \/ edit_text_inline (nano user) (context issue) (description issue)
     = Some (context issue) ->
  present_one validator user st issue = Some (st, Next)
  /\ forall st', present_one validator user st issue = Some (st', Next) ->
       coached_text st' = coached_text st
       /\ fixed_count st' = fixed_count st
       /\ skipped_count st' = skipped_count st
       /\ validations st' = validations st.
Proof.
  intros Hact Hedit.
  assert (Hone : present_one validator user st issue = Some (st, Next)).
  { unfold present_one. rewrite Hact.
    destruct Hedit as [-> | ->]; [reflexivity|].
    now rewrite String.eqb_refl, andb_false_r. }
  split; [exact Hone|].
  intros st' Hst'. rewrite Hone in Hst'. now inversion Hst'.
Qed.

Lemma edit_inline_noop_leaves_state_witness :
  present_one (H := Fixtures.python_format)
    {| detector := Fixtures.full_detector 70 12 |}
    (Fixtures.inline_session Fixtures.save_untouched)
    (Fixtures.loaded "I saw teh cat. It ran.")
    Fixtures.teh_issue
  = Some (Fixtures.loaded "I saw teh cat. It ran.", Next).
Proof.
  apply (edit_inline_noop_leaves_state (H := Fixtures.python_format)
           {| detector := Fixtures.full_detector 70 12 |}
           (Fixtures.inline_session Fixtures.save_untouched)
           (Fixtures.loaded "I saw teh cat. It ran.")
           Fixtures.teh_issue).
  - reflexivity.
  - right. reflexivity.
Defined.

(** ** C5: the passive-voice rule *)

(** C5.  For a [passive_voice] issue with baseline [old] (the percentage
    stored in the issue's metrics) and fresh percentage [new] of the edited
    snippet, [validate_fix] reports an improvement exactly when [new < 10],
    or [old - new > 3], or [old - new > 0]; the tier is decided in that
    order: excellent, good, small, and no improvement otherwise.  With
    [old = 15.0] and [new = 11.0] the verdict is an improvement of the
    "good improvement" tier. *)
Theorem passive_voice_verdict `{Formatter}
    (v : FixValidator) (qa : LA.WritingQualityAnalyzer)
    (original edited : string) (issue : Issue) (old : num) :
  type issue = "passive_voice" ->
  quality_analyzer (detector v) = Some qa ->
  get (metrics issue) "percentage" (VInt 0) = VNum old ->
  let new := LA.pv_percentage (LA.passive_voice (LA.quality_analyze qa edited)) in
  let improvement := sub old new in
  validate_fix v original edited issue
  = Some (lt new (NInt 10) || gt improvement (NInt 3) || gt improvement (NInt 0),
          (if lt new (NInt 10) then PassiveExcellent new
           else if gt improvement (NInt 3) then PassiveGoodImprovement old new
           else if gt improvement (NInt 0) then PassiveSmallImprovement old new
           else PassiveNoImprovement new),
          before_after (VNum old) (VNum new))
  /\ (old = NFloat 15 -> new = NFloat 11 ->
      validate_fix v original edited issue
      = Some (true, PassiveGoodImprovement (NFloat 15) (NFloat 11),
              before_after (VFloat 15) (VFloat 11))).
Proof.
  intros Hty Hqa Hold new improvement.
  assert (Hv : validate_fix v original edited issue
               = Some (lt new (NInt 10) || gt improvement (NInt 3)
                       || gt improvement (NInt 0),
                       (if lt new (NInt 10) then PassiveExcellent new
                        else if gt improvement (NInt 3)
                             then PassiveGoodImprovement old new
                        else if gt improvement (NInt 0)
                             then PassiveSmallImprovement old new
                        else PassiveNoImprovement new),
                       before_after (VNum old) (VNum new))).
  { unfold validate_fix, _check_improvement.
    rewrite Hty. cbn [String.eqb Ascii.eqb Bool.eqb orb].
    rewrite Hqa, Hold. cbn [as_num mbind option_bind].
    fold new. fold improvement.
    destruct (lt new (NInt 10)); [reflexivity|].
    destruct (gt improvement (NInt 3)); [reflexivity|].
    destruct (gt improvement (NInt 0)); reflexivity. }
  split; [exact Hv|].
  intros Eold Enew. rewrite Hv.
  subst improvement. rewrite Eold, Enew. reflexivity.
Qed.

Lemma passive_voice_verdict_witness :
  validate_fix (H := Fixtures.python_format)
    {| detector := Fixtures.passive_detector 11 100 |}
    "15 passive constructions found" "We rewrote most of it."
    (Fixtures.passive_issue 15)
  = Some (true, PassiveGoodImprovement (NFloat 15) (NFloat 11),
          before_after (VFloat 15) (VFloat 11)).
Proof.
  apply (passive_voice_verdict (H := Fixtures.python_format)
           {| detector := Fixtures.passive_detector 11 100 |}
           (Fixtures.passive_pipeline 11 100)
           "15 passive constructions found" "We rewrote most of it."
           (Fixtures.passive_issue 15) (NFloat 15));
    reflexivity.
Defined.

(** ** C6: the transitions rule *)

Lemma edit_text_inline_truthy (editor : Editor) (text d edited : string) :
  edit_text_inline editor text d = Some edited -> truthy edited = true.
Proof.
  unfold edit_text_inline.
  destruct (editor _) as [|saved]; [discriminate|].
  destruct (truthy (remove_instruction_lines saved)) eqn:E; [|discriminate].
  intros [= <-]. exact E.
Qed.

(** C6, as the code has it.  For a [poor_transitions] issue,
    [validate_fix] reports an improvement exactly when the fresh transition
    count of the edited snippet is at least the blank-line-delimited
    paragraph count of that same edited snippet, or strictly exceeds the
    baseline [transition_count] of the issue's metrics.  The resolution
    loop passes the edited snippet, not the working document, and counts
    the issue as fixed on that verdict. *)
Theorem poor_transitions_verdict `{Formatter}
    (v : FixValidator) (qa : LA.WritingQualityAnalyzer)
    (original edited : string) (issue : Issue) (old : num) :
  type issue = "poor_transitions" ->
  quality_analyzer (detector v) = Some qa ->
  get (metrics issue) "transition_count" (VInt 0) = VNum old ->
  let new_count := LA.tr_count (LA.transitions (LA.quality_analyze qa edited)) in
  let para_count := len (LA.paragraphs_of edited) in
  let improved := (para_count <=? new_count)%Z || gt (NInt new_count) old in
  validate_fix v original edited issue
  = Some (improved,
          (if (para_count <=? new_count)%Z then TransitionsGreat new_count
           else if gt (NInt new_count) old
                then TransitionsImproved old new_count
           else TransitionsStill new_count para_count),
          before_after (VNum old) (VInt new_count))
  /\ forall (user : Session) (st : State),
       present_issue user = edit_inline ->
       edit_text_inline (nano user) (context issue) (description issue)
       = Some edited ->
       edited <> context issue ->
       exists st',
         present_one v user st issue = Some (st', Next)
         /\ coached_text st'
            = replace_first (coached_text st) (context issue) edited
         /\ fixed_count st'
            = (if improved then fixed_count st + 1 else fixed_count st)%Z
         /\ skipped_count st' = skipped_count st.
Proof.
  intros Hty Hqa Hold new_count para_count improved.
  assert (Hv : forall o, validate_fix v o edited issue
               = Some (improved,
                       (if (para_count <=? new_count)%Z
                        then TransitionsGreat new_count
                        else if gt (NInt new_count) old
                             then TransitionsImproved old new_count
                        else TransitionsStill new_count para_count),
                       before_after (VNum old) (VInt new_count))).
  { intros o. unfold validate_fix, _check_improvement.
    rewrite Hty. cbn [String.eqb Ascii.eqb Bool.eqb orb].
    rewrite Hqa, Hold. cbn [as_num mbind option_bind].
    fold new_count. fold para_count. subst improved.
    destruct (para_count <=? new_count)%Z; [reflexivity|].
    destruct (gt (NInt new_count) old); reflexivity. }
  split; [apply Hv|].
  intros user st Hact Hedit Hne.
  unfold present_one. rewrite Hact, Hedit.
  rewrite (edit_text_inline_truthy _ _ _ _ Hedit).
  apply String.eqb_neq in Hne. rewrite Hne. cbn [negb andb].
  rewrite Hv. cbn [mbind option_bind].
  eexists. split; [reflexivity|]. cbn. auto.
Qed.

Lemma poor_transitions_verdict_witness :
  validate_fix (H := Fixtures.python_format)
    {| detector := Fixtures.quality_only_detector |}
    (context Fixtures.essay_issue) Fixtures.essay_edit Fixtures.essay_issue
  = Some (true, TransitionsGreat 1, before_after (VInt 2) (VInt 1)).
Proof.
  apply (poor_transitions_verdict (H := Fixtures.python_format)
           {| detector := Fixtures.quality_only_detector |}
           Fixtures.whitespace_nlp
           (context Fixtures.essay_issue) Fixtures.essay_edit
           Fixtures.essay_issue (NInt 2));
    reflexivity.
Defined.

(** C6, as stated, fails.  The essay has five paragraphs and two
    transition words, so the pass reports [poor_transitions] with baseline
    2.  The user types one paragraph with one transition word.  The working
    document still has five paragraphs and the count went down from 2 to 1,
    so neither condition of the stated rule holds; yet the validator compares the
    count with the single paragraph of the snippet, answers "Great!", and
    the loop counts the issue as fixed. *)
Lemma poor_transitions_document_counterexample :
  find_all_issues (H := Fixtures.python_format)
    Fixtures.quality_only_detector Fixtures.essay
  = [Fixtures.essay_issue]
  /\ present_one (H := Fixtures.python_format)
       {| detector := Fixtures.quality_only_detector |}
       (Fixtures.inline_session (Fixtures.save_as Fixtures.essay_edit))
       (Fixtures.loaded Fixtures.essay) Fixtures.essay_issue
     = Some ({| coached_text := Fixtures.essay;
                fixed_count := 1;
                skipped_count := 0;
                validations :=
                  [{| v_original := "2 transitions in 5 paragraphs";
                      v_edited := "thus we conclude";
                      v_issue := Fixtures.essay_issue;
                      v_verdict :=
                        (true, TransitionsGreat 1,
                         before_after (VInt 2) (VInt 1)) |}] |}, Next)
  /\ LA.tr_count (LA.transitions
                    (LA.quality_analyze Fixtures.whitespace_nlp
                                        Fixtures.essay_edit)) = 1%Z
  /\ len (LA.paragraphs_of
            (replace_first Fixtures.essay (context Fixtures.essay_issue)
                           Fixtures.essay_edit)) = 5%Z
  /\ get (metrics Fixtures.essay_issue) "transition_count" (VInt 0) = VInt 2
  /\ ((5 <=? 1)%Z || gt (NInt 1) (NInt 2)) = false.
Proof. repeat split; vm_compute; reflexivity. Qed.

(** ** C4: the spelling and grammar rule *)

Lemma in_slice_to {A} (x : A) (l : list A) (k : Z) :
  In x (slice_to l k) -> In x l.
Proof.
  destruct (slice_to_is_firstn l k) as [n ->].
  intros Hx. rewrite <- (firstn_skipn n l). apply in_or_app. now left.
Qed.

Lemma len_pos_of_in {A} (x : A) (l : list A) : In x l -> (1 <= len l)%Z.
Proof. destruct l; [contradiction|]. unfold len. simpl. lia. Qed.

(** An emitted spelling or grammar issue carries the count of its
    category, which is at least 1 since the issue itself is of it. *)
Lemma emitted_count_baseline `{Formatter} det text issue :
  In issue (find_all_issues det text) ->
  type issue = "spelling" \/ type issue = "grammar" ->
  exists n : Z,
    get (metrics issue) "issue_count" (VInt 0) = VInt n /\ (1 <= n)%Z.
Proof.
  rewrite find_all_issues_raw. intros Hin Hty.
  apply in_map_iff in Hin as (i0 & <- & Hin).
  change (type (set_severity (score_issue i0) i0)) with (type i0) in Hty.
  change (metrics (set_severity (score_issue i0) i0)) with (metrics i0).
  unfold raw_issues in Hin.
  apply in_app_or in Hin as [Hin|Hin].
  - destruct (grammar_analyzer det) as [ga|]; [|contradiction].
    unfold _detect_grammar_issues in Hin.
    apply in_app_or in Hin as [Hin|Hin];
      apply in_map_iff in Hin as (f & <- & Hf);
      apply in_slice_to, len_pos_of_in in Hf;
      eexists; (split; [reflexivity | exact Hf]).
  - exfalso.
    assert (Hother : In (type i0)
                       ["difficult_words"; "sentence_too_long";
                        "passive_voice"; "adverbs"; "weak_verbs";
                        "word_repetition"; "poor_transitions";
                        "paragraph_too_long"]).
    { apply in_app_or in Hin as [Hin|Hin].
      - destruct (readability_analyzer det) as [ra|]; [|contradiction].
        pose proof (readability_issue_types ra text) as Hall.
        rewrite List.Forall_forall in Hall. specialize (Hall _ Hin).
        simpl in *. intuition.
      - apply in_app_or in Hin as [Hin|Hin].
        + destruct (quality_analyzer det) as [qa|]; [|contradiction].
          pose proof (quality_issue_types qa text) as Hall.
          rewrite List.Forall_forall in Hall. specialize (Hall _ Hin).
          simpl in *. intuition.
        + pose proof (structure_issue_types text) as Hall.
          rewrite List.Forall_forall in Hall. specialize (Hall _ Hin).
          simpl in *. intuition. }
    simpl in Hother. destruct Hty as [E|E]; rewrite E in Hother;
      intuition discriminate.
Qed.

(** The rule as the code applies it: the new value is the number of
    issues of the same type in a fresh pass over the edited snippet; the
    verdict is an improvement exactly when [new < old] or [new == 0]; the
    message is chosen by testing [new < old] first. *)
Lemma spelling_grammar_verdict `{Formatter}
    (v : FixValidator) (original edited : string) (issue : Issue) (old : num) :
  type issue = "spelling" \/ type issue = "grammar" ->
  get (metrics issue) "issue_count" (VInt 0) = VNum old ->
  let new_count :=
    count_type (type issue) (find_all_issues (detector v) edited) in
  validate_fix v original edited issue
  = Some (lt (NInt new_count) old || (new_count =? 0)%Z,
          (if lt (NInt new_count) old
           then FixedReduced (type issue) old new_count
           else if (new_count =? 0)%Z then PerfectNoneRemaining (type issue)
           else StillRemaining new_count (type issue)),
          before_after (VNum old)
                       (VInt (if lt (NInt new_count) old then new_count
                              else if (new_count =? 0)%Z then 0
                              else new_count))).
Proof.
  intros Hty Hold new_count.
  unfold validate_fix, _check_improvement.
  assert (Htest : String.eqb (type issue) "spelling"
                  || String.eqb (type issue) "grammar" = true).
  { destruct Hty as [-> | ->]; reflexivity. }
  rewrite Htest, Hold. cbn [as_num mbind option_bind].
  fold (count_type (type issue) (find_all_issues (detector v) edited)).
  fold new_count.
  destruct (lt (NInt new_count) old); [reflexivity|].
  destruct (new_count =? 0)%Z; reflexivity.
Qed.

(** C4 against the code.  A text with one misspelling yields a spelling
    issue with baseline 1; once the snippet is corrected the fresh count is
    0 and the verdict is an improvement, but of the "reduced" tier ("Fixed!
    Reduced spelling issues from 1 to 0"), not the "perfect" one.  The
    [new < old] test comes first, so for an issue that an analysis pass
    emitted the "perfect" tier is never reached. *)
Theorem spelling_fixed_to_zero_reports_reduced :
  List.filter (fun i => String.eqb (type i) "spelling")
    (find_all_issues (H := Fixtures.python_format)
       (Fixtures.full_detector 70 12) "I saw teh cat.")
  = [Fixtures.teh_issue]
  /\ type Fixtures.teh_issue = "spelling"
  /\ context Fixtures.teh_issue = "I saw teh cat."
  /\ get (metrics Fixtures.teh_issue) "issue_count" (VInt 0) = VInt 1
  /\ count_type "spelling"
       (find_all_issues (H := Fixtures.python_format)
          (Fixtures.full_detector 70 12) "I saw the cat.") = 0%Z
  /\ validate_fix (H := Fixtures.python_format)
       {| detector := Fixtures.full_detector 70 12 |}
       "I saw teh cat." "I saw the cat." Fixtures.teh_issue
     = Some (true, FixedReduced "spelling" (NInt 1) 0,
             before_after (VInt 1) (VInt 0))
  /\ (forall (F : Formatter) (det : ProblemDetector) (text : string)
             (v : FixValidator) (original edited : string) (issue : Issue)
             (verdict : Verdict),
        In issue (find_all_issues det text) ->
        type issue = "spelling" \/ type issue = "grammar" ->
        validate_fix v original edited issue = Some verdict ->
        snd (fst verdict) <> PerfectNoneRemaining (type issue)).
Proof.
  do 6 (split; [vm_compute; reflexivity|]).
  intros F det text v original edited issue verdict Hin Hty Hv.
  {
    destruct (emitted_count_baseline det text issue Hin Hty) as (n & Hn & Hpos).
    rewrite (spelling_grammar_verdict v original edited issue (NInt n) Hty Hn)
      in Hv.
    injection Hv as <-. cbn [fst snd lt].
    set (new_count := count_type _ _).
    assert (Hnew : (0 <= new_count)%Z) by (unfold new_count, count_type, len; lia).
    destruct (new_count <? n)%Z eqn:E1; [discriminate|].
    destruct (new_count =? 0)%Z eqn:E2; [|discriminate].
    apply Z.ltb_ge in E1. apply Z.eqb_eq in E2. lia. }
Qed.

(** ** C7: paragraphs are measured in words *)

Lemma filter_type_nil ty (tys : list string) (l : list Issue) :
  Forall (fun i => In (type i) tys) l ->
  ~ In ty tys ->
  List.filter (fun i => String.eqb (type i) ty) l = [].
Proof.
  intros Hall Hnot.
  induction Hall as [|i l Hi _ IH]; [reflexivity|].
  cbn [List.filter]. rewrite IH.
  replace (String.eqb (type i) ty) with false; [reflexivity|].
  symmetry. apply String.eqb_neq. intros Heq. apply Hnot. now rewrite <- Heq.
Qed.

Lemma filter_type_all ty (l : list Issue) :
  Forall (fun i => In (type i) [ty]) l ->
  List.filter (fun i => String.eqb (type i) ty) l = l.
Proof.
  induction 1 as [|i l Hi _ IH]; [reflexivity|].
  cbn [List.filter]. rewrite IH.
  destruct Hi as [<-|[]]. now rewrite String.eqb_refl.
Qed.

Lemma filter_type_rescored ty (l : list Issue) :
  List.filter (fun i => String.eqb (type i) ty)
    (map (fun issue => set_severity (score_issue issue) issue) l)
  = map (fun issue => set_severity (score_issue issue) issue)
      (List.filter (fun i => String.eqb (type i) ty) l).
Proof.
  induction l as [|i l IH]; [reflexivity|].
  cbn [map List.filter set_severity type].
  destruct (String.eqb (type i) ty); cbn [map]; now rewrite IH.
Qed.

(** The [paragraph_too_long] issues of a pass are those of the structure
    check, whatever analyzers are at hand. *)
Lemma paragraph_issues_of_pass `{Formatter} det text :
  List.filter (fun i => String.eqb (type i) "paragraph_too_long")
              (find_all_issues det text)
  = map (fun issue => set_severity (score_issue issue) issue)
        (_detect_structure_issues text).
Proof.
  rewrite find_all_issues_raw, filter_type_rescored. f_equal.
  unfold raw_issues. rewrite !List.filter_app.
  rewrite (filter_type_all _ _ (structure_issue_types text)).
  assert (Hg : List.filter (fun i => String.eqb (type i) "paragraph_too_long")
                 (match grammar_analyzer det with
                  | Some ga => _detect_grammar_issues ga text
                  | None => []
                  end) = []).
  { destruct (grammar_analyzer det); [|reflexivity].
    eapply filter_type_nil; [apply grammar_issue_types|].
    simpl; intuition discriminate. }
  assert (Hr : List.filter (fun i => String.eqb (type i) "paragraph_too_long")
                 (match readability_analyzer det with
                  | Some ra => _detect_readability_issues ra text
                  | None => []
                  end) = []).
  { destruct (readability_analyzer det); [|reflexivity].
    eapply filter_type_nil; [apply readability_issue_types|].
    simpl; intuition discriminate. }
  assert (Hq : List.filter (fun i => String.eqb (type i) "paragraph_too_long")
                 (match quality_analyzer det with
                  | Some qa => _detect_quality_issues qa text
                  | None => []
                  end) = []).
  { destruct (quality_analyzer det); [|reflexivity].
    eapply filter_type_nil; [apply quality_issue_types|].
    simpl; intuition discriminate. }
  now rewrite Hg, Hr, Hq.
Qed.

(** C7, as the code has it.  A paragraph is measured by its
    whitespace-separated words.  The text of 200 words ["A"], a blank line
    and 10 words ["B"] yields exactly one [paragraph_too_long] issue, of
    severity 6, whose [long_paragraphs] is [[(1, 200)]] among 2 paragraphs.
    The text ["A"*200 + "\n\n" + "B"*10] has two paragraphs of one word
    each and yields no such issue. *)
Theorem paragraph_too_long_counts_words `{Formatter} (det : ProblemDetector) :
  (exists issue : Issue,
     List.filter (fun i => String.eqb (type i) "paragraph_too_long")
                 (find_all_issues det Fixtures.words_text) = [issue]
     /\ severity issue = 6%Z
     /\ metrics issue !! "long_paragraphs"
        = Some (VList [VTuple [VInt 1; VInt 200]])
     /\ metrics issue !! "total_paragraphs" = Some (VInt 2))
  /\ count_type "paragraph_too_long"
       (find_all_issues det Fixtures.letters_text) = 0%Z
  /\ map (fun p => len (split_ws p)) (LA.paragraphs_of Fixtures.letters_text)
     = [1%Z; 1%Z].
Proof.
  split; [|split].
  - rewrite paragraph_issues_of_pass.
    eexists. split; [vm_compute; reflexivity|].
    repeat split; vm_compute; reflexivity.
  - unfold count_type. rewrite paragraph_issues_of_pass.
    vm_compute. reflexivity.
  - vm_compute. reflexivity.
Qed.

(** C7, as stated, fails: on ["A"*200 + "\n\n" + "B"*10] the pass emits
    no [paragraph_too_long] issue, the first paragraph being one word of
    200 letters. *)
Lemma letters_text_counterexample :
  count_type "paragraph_too_long"
    (find_all_issues (H := Fixtures.python_format)
       (Fixtures.full_detector 70 12) Fixtures.letters_text) = 0%Z
  /\ _detect_structure_issues Fixtures.letters_text = []
  /\ long_paragraphs_of (LA.paragraphs_of Fixtures.letters_text) = [].
Proof. repeat split; vm_compute; reflexivity. Qed.

(** ** C10: instruction lines of the inline editor *)

Lemma prefix_nl_cons (c : ascii) (s : string) :
  String.prefix LA.nl (String c s) = Ascii.eqb c (ascii_of_nat 10).
Proof.
  unfold LA.nl. cbn [String.prefix].
  destruct (ascii_dec (ascii_of_nat 10) c) as [<-|Hne].
  - now destruct s.
  - symmetry. apply Ascii.eqb_neq. congruence.
Qed.


Lemma split_go_at_newline (rest : string) :
  split_go LA.nl 0 (String (ascii_of_nat 10) rest)
  = EmptyString :: split_go LA.nl 0 rest.
Proof.
  cbn [split_go]. now rewrite prefix_nl_cons, Ascii.eqb_refl.
Qed.

Lemma split_go_at_letter (c : ascii) (s : string) :
  Ascii.eqb c (ascii_of_nat 10) = false ->
  split_go LA.nl 0 (String c s)
  = match split_go LA.nl 0 s with
    | h :: t => String c h :: t
    | [] => [String c EmptyString]
    end.
Proof.
  intros Hc. cbn [split_go]. now rewrite prefix_nl_cons, Hc.
Qed.

Lemma split_line_then (l rest : string) :
  no_newline l = true ->
  split (l +:+ LA.nl +:+ rest) LA.nl = l :: split rest LA.nl.
Proof.
  unfold split. induction l as [|c l IH]; intros Hl.
  - change (EmptyString +:+ LA.nl +:+ rest)
      with (String (ascii_of_nat 10) rest).
    apply split_go_at_newline.
  - cbn [no_newline] in Hl. apply andb_prop in Hl as [Hc Hl].
    apply negb_true_iff in Hc.
    change (String c l +:+ LA.nl +:+ rest)
      with (String c (l +:+ LA.nl +:+ rest)).
    rewrite (split_go_at_letter _ _ Hc). now rewrite (IH Hl).
Qed.

Lemma split_line_last (l : string) :
  no_newline l = true -> split l LA.nl = [l].
Proof.
  unfold split. induction l as [|c l IH]; intros Hl; [reflexivity|].
  cbn [no_newline] in Hl. apply andb_prop in Hl as [Hc Hl].
  apply negb_true_iff in Hc.
  rewrite (split_go_at_letter _ _ Hc). now rewrite (IH Hl).
Qed.

(** Splitting the joined lines gives the lines back. *)
Lemma split_join_lines (ls : list string) :
  ls <> [] ->
  Forall (fun l => no_newline l = true) ls ->
  split (join LA.nl ls) LA.nl = ls.
Proof.
  intros Hne Hall. induction Hall as [|l ls Hl Hls IH]; [contradiction|].
  destruct ls as [|l' ls].
  - cbn [join String.concat]. now apply split_line_last.
  - cbn [join String.concat].
    change (l +:+ LA.nl +:+ String.concat LA.nl (l' :: ls))
      with (l +:+ LA.nl +:+ join LA.nl (l' :: ls)).
    rewrite split_line_then by exact Hl.
    f_equal. apply IH. discriminate.
Qed.


Lemma all_space_app (a b : string) :
  all_space (a +:+ b) = all_space a && all_space b.
Proof.
  induction a as [|c a IH]; [reflexivity|].
  simpl. now rewrite IH, andb_assoc.
Qed.

Lemma strip_all_space (s : string) : all_space s = true -> strip s = "".
Proof.
  unfold strip. induction s as [|c s IH]; [reflexivity|].
  cbn [all_space lstrip]. intros H. apply andb_prop in H as [-> Hs].
  now apply IH.
Qed.

Lemma join_all_space (ls : list string) :
  Forall (fun l => all_space l = true) ls ->
  all_space (join LA.nl ls) = true.
Proof.
  induction 1 as [|l ls Hl Hls IH]; [reflexivity|].
  destruct ls as [|l' ls]; [exact Hl|].
  change (join LA.nl (l :: l' :: ls))
    with (l +:+ LA.nl +:+ join LA.nl (l' :: ls)).
  now rewrite !all_space_app, Hl, IH.
Qed.

(** C10.  [edit_text_inline] removes from the saved text every line that
    begins with ['#'] and strips the remainder (every saved text is the
    join of its lines, see [lines_of_text]).  Hence a saved text whose
    every line begins with ['#'] or is blank gives [None], which the loop
    treats as an aborted edit (nothing changes); and a content line that
    begins with ['#'], such as a Markdown heading, is dropped: the result
    is the one the text without that line would give. *)
Theorem edit_text_inline_drops_hash_lines `{Formatter}
    (editor : Editor) (text d : string) (ls : list string) :
  ls <> [] ->
  Forall (fun l => no_newline l = true) ls ->
  editor (initial_file text d) = EditorSaved (join LA.nl ls) ->
  let kept := List.filter (fun l => negb (startswith l "#")) ls in
  edit_text_inline editor text d = text_or_none (strip (join LA.nl kept))
  /\ Forall (fun l => startswith l "#" = false /\ In l ls) kept
  /\ (forall ls1 h ls2,
        ls = ls1 ++ h :: ls2 -> startswith h "#" = true ->
        kept = List.filter (fun l => negb (startswith l "#")) (ls1 ++ ls2))
  /\ (Forall (fun l => startswith l "#" = true \/ all_space l = true) ls ->
      edit_text_inline editor text d = None
      /\ forall (validator : FixValidator) (user : Session) (st : State)
                (issue : Issue),
           present_issue user = edit_inline ->
           nano user = editor ->
           context issue = text ->
           description issue = d ->
           present_one validator user st issue = Some (st, Next)).
Proof.
  intros Hne Hlines Hsaved kept.
  assert (Hres : edit_text_inline editor text d
                 = text_or_none (strip (join LA.nl kept))).
  { unfold edit_text_inline, remove_instruction_lines.
    rewrite Hsaved, split_join_lines by assumption. reflexivity. }
  split; [exact Hres|]. split; [|split].
  - apply List.Forall_forall. intros l Hl.
    apply filter_In in Hl as [Hin Hl].
    split; [now apply negb_true_iff in Hl | exact Hin].
  - intros ls1 h ls2 -> Hh. subst kept.
    rewrite !List.filter_app. cbn [List.filter]. now rewrite Hh.
  - intros Hblank.
    assert (Hnone : edit_text_inline editor text d = None).
    { rewrite Hres. rewrite strip_all_space; [reflexivity|].
      apply join_all_space, List.Forall_forall. intros l Hl.
      apply filter_In in Hl as [Hin Hl]. apply negb_true_iff in Hl.
      rewrite List.Forall_forall in Hblank.
      destruct (Hblank l Hin) as [Hhash|Hsp]; [congruence | exact Hsp]. }
    split; [exact Hnone|].
    intros validator user st issue Hact Hnano Hctx Hd.
    unfold present_one. now rewrite Hact, Hnano, Hctx, Hd, Hnone.
Qed.

Lemma edit_text_inline_drops_hash_lines_witness :
  edit_text_inline Fixtures.save_untouched Fixtures.heading_snippet
                   "Excessive passive voice"
  = Some "The model was fitted.".
Proof.
  apply (edit_text_inline_drops_hash_lines (H := Fixtures.python_format)
           Fixtures.save_untouched Fixtures.heading_snippet
           "Excessive passive voice" Fixtures.heading_file_lines).
  - discriminate.
  - repeat constructor.
  - reflexivity.
Defined.

(** * Further properties of the code *)

(** ** Issues of one analysis pass *)

Lemma count_type_app ty (l1 l2 : list Issue) :
  count_type ty (l1 ++ l2) = (count_type ty l1 + count_type ty l2)%Z.
Proof.
  unfold count_type, len. rewrite List.filter_app, length_app. lia.
Qed.

Lemma count_type_rescored ty (l : list Issue) :
  count_type ty (map (fun issue => set_severity (score_issue issue) issue) l)
  = count_type ty l.
Proof.
  unfold count_type, len. now rewrite filter_type_rescored, length_map.
Qed.

Lemma count_type_zero ty (tys : list string) (l : list Issue) :
  Forall (fun i => In (type i) tys) l -> ~ In ty tys -> count_type ty l = 0%Z.
Proof.
  intros Hall Hnot. unfold count_type.
  now rewrite (filter_type_nil ty tys l Hall Hnot).
Qed.

Lemma count_type_nonneg ty (l : list Issue) : (0 <= count_type ty l)%Z.
Proof. unfold count_type, len. lia. Qed.

Lemma has_type_pass `{Formatter} det text ty :
  has_type ty (find_all_issues det text)
  = has_type ty (match grammar_analyzer det with
                 | Some ga => _detect_grammar_issues ga text
                 | None => []
                 end)
    || has_type ty (match readability_analyzer det with
                    | Some ra => _detect_readability_issues ra text
                    | None => []
                    end)
    || has_type ty (match quality_analyzer det with
                    | Some qa => _detect_quality_issues qa text
                    | None => []
                    end)
    || has_type ty (_detect_structure_issues text).
Proof.
  rewrite find_all_issues_raw, has_type_rescored. unfold raw_issues.
  rewrite !has_type_app. now rewrite !orb_assoc.
Qed.

Lemma count_type_pass `{Formatter} det text ty :
  count_type ty (find_all_issues det text)
  = (count_type ty (match grammar_analyzer det with
                    | Some ga => _detect_grammar_issues ga text
                    | None => []
                    end)
     + count_type ty (match readability_analyzer det with
                      | Some ra => _detect_readability_issues ra text
                      | None => []
                      end)
     + count_type ty (match quality_analyzer det with
                      | Some qa => _detect_quality_issues qa text
                      | None => []
                      end)
     + count_type ty (_detect_structure_issues text))%Z.
Proof.
  rewrite find_all_issues_raw, count_type_rescored. unfold raw_issues.
  rewrite !count_type_app. lia.
Qed.

Lemma length_slice_to_le {A} (l : list A) (k : Z) :
  (0 <= k)%Z -> (len (slice_to l k) <= k)%Z.
Proof.
  intros Hk. unfold slice_to, len.
  apply Z.leb_le in Hk. rewrite Hk. apply Z.leb_le in Hk.
  pose proof (firstn_le_length (Z.to_nat k) l). lia.
Qed.

Lemma count_type_map_const ty {A} (f : A -> Issue) (l : list A) :
  (forall x, type (f x) = ty) ->
  count_type ty (map f l) = len l.
Proof.
  intros Hf. unfold count_type, len.
  induction l as [|x l IH]; [reflexivity|].
  cbn [map List.filter]. rewrite Hf, String.eqb_refl. cbn [length]. lia.
Qed.

Lemma count_type_map_other ty ty' {A} (f : A -> Issue) (l : list A) :
  (forall x, type (f x) = ty') -> ty' <> ty ->
  count_type ty (map f l) = 0%Z.
Proof.
  intros Hf Hne. unfold count_type, len.
  induction l as [|x l IH]; [reflexivity|].
  cbn [map List.filter]. rewrite Hf.
  apply String.eqb_neq in Hne. now rewrite Hne.
Qed.

Lemma category_count_capped `{Formatter} det text ty :
  ty = "spelling" \/ ty = "grammar" ->
  (count_type ty (find_all_issues det text) <= 5)%Z.
Proof.
  intros Hty. rewrite count_type_pass.
  rewrite (count_type_zero ty ["paragraph_too_long"] _
             (structure_issue_types text))
    by (simpl; destruct Hty; subst; intuition discriminate).
  assert (Hr : count_type ty
                 (match readability_analyzer det with
                  | Some ra => _detect_readability_issues ra text
                  | None => []
                  end) = 0%Z).
  { destruct (readability_analyzer det); [|reflexivity].
    eapply count_type_zero; [apply readability_issue_types|].
    simpl; destruct Hty; subst; intuition discriminate. }
  assert (Hq : count_type ty
                 (match quality_analyzer det with
                  | Some qa => _detect_quality_issues qa text
                  | None => []
                  end) = 0%Z).
  { destruct (quality_analyzer det); [|reflexivity].
    eapply count_type_zero; [apply quality_issue_types|].
    simpl; destruct Hty; subst; intuition discriminate. }
  rewrite Hr, Hq.
  destruct (grammar_analyzer det) as [ga|];
    [|unfold count_type, len; simpl; lia].
  unfold _detect_grammar_issues. rewrite count_type_app.
  destruct Hty; subst ty.
  - rewrite (count_type_map_const "spelling") by reflexivity.
    rewrite (count_type_map_other "spelling" "grammar")
      by (reflexivity || discriminate).
    pose proof (length_slice_to_le
                  (LA.spelling_issues (LA.grammar_analyze ga text)) 5).
    lia.
  - rewrite (count_type_map_other "grammar" "spelling")
      by (reflexivity || discriminate).
    rewrite (count_type_map_const "grammar") by reflexivity.
    pose proof (length_slice_to_le
                  (LA.grammar_issues (LA.grammar_analyze ga text)) 5).
    lia.
Qed.

(** X1.  An analysis pass reports at most five spelling issues and at most
    five grammar issues, however many matches the grammar analyzer
    returns. *)
Theorem pass_reports_at_most_five_per_category `{Formatter}
    (det : ProblemDetector) (text : string) :
  (count_type "spelling" (find_all_issues det text) <= 5)%Z
  /\ (count_type "grammar" (find_all_issues det text) <= 5)%Z.
Proof. split; apply category_count_capped; auto. Qed.

Lemma grammar_part_types `{Formatter} det text :
  Forall (fun i => In (type i) ["spelling"; "grammar"])
         (match grammar_analyzer det with
          | Some ga => _detect_grammar_issues ga text
          | None => []
          end).
Proof.
  destruct (grammar_analyzer det); [apply grammar_issue_types | constructor].
Qed.

Lemma readability_part_types `{Formatter} det text :
  Forall (fun i => In (type i) ["difficult_words"; "sentence_too_long"])
         (match readability_analyzer det with
          | Some ra => _detect_readability_issues ra text
          | None => []
          end).
Proof.
  destruct (readability_analyzer det);
    [apply readability_issue_types | constructor].
Qed.

Lemma quality_part_types `{Formatter} det text :
  Forall (fun i => In (type i)
            ["passive_voice"; "adverbs"; "weak_verbs"; "word_repetition";
             "poor_transitions"])
         (match quality_analyzer det with
          | Some qa => _detect_quality_issues qa text
          | None => []
          end).
Proof.
  destruct (quality_analyzer det); [apply quality_issue_types | constructor].
Qed.

(** Decides [In ty tys] or its negation for literal strings. *)
Ltac literal_in := simpl in *; intuition congruence.

Lemma analysis_lists (ga : LA.GrammarAnalyzer) (text : string) :
  LA.spelling_issues (LA.grammar_analyze ga text)
  = map LA.finding_of (List.filter spelling_class (LA.check ga text))
  /\ LA.grammar_issues (LA.grammar_analyze ga text)
     = map LA.finding_of (List.filter grammar_class (LA.check ga text))
  /\ LA.punctuation_issues (LA.grammar_analyze ga text)
     = map LA.finding_of (List.filter punctuation_class (LA.check ga text)).
Proof.
  unfold LA.grammar_analyze. rewrite categorize_fold. now cbn.
Qed.

(** X2.  Every spelling issue of a pass carries as [issue_count] the
    number of all raw matches of the spelling class in the text, and every
    grammar issue the number of all matches that are neither spelling nor
    punctuation: the baseline is the uncapped total of the category, the
    same on every issue of that type. *)
Theorem grammar_issues_carry_category_total `{Formatter}
    (det : ProblemDetector) (ga : LA.GrammarAnalyzer) (text : string)
    (issue : Issue) :
  grammar_analyzer det = Some ga ->
  In issue (find_all_issues det text) ->
  (type issue = "spelling" ->
   metrics issue !! "issue_count"
   = Some (VInt (len (List.filter spelling_class (LA.check ga text)))))
  /\ (type issue = "grammar" ->
      metrics issue !! "issue_count"
      = Some (VInt (len (List.filter grammar_class (LA.check ga text))))).
Proof.
  intros Hga Hin.
  rewrite find_all_issues_raw in Hin.
  apply in_map_iff in Hin as (i0 & <- & Hin).
  change (type (set_severity (score_issue i0) i0)) with (type i0).
  change (metrics (set_severity (score_issue i0) i0)) with (metrics i0).
  destruct (analysis_lists ga text) as (Hs & Hg & _).
  unfold raw_issues in Hin. rewrite Hga in Hin.
  apply in_app_or in Hin as [Hin|Hin].
  - unfold _detect_grammar_issues in Hin.
    apply in_app_or in Hin as [Hin|Hin];
      apply in_map_iff in Hin as (f & <- & _); cbn [type metrics
        spelling_issue grammar_issue].
    + split; [intros _ | discriminate].
      rewrite Hs. unfold len. rewrite length_map.
      apply lookup_singleton_eq.
    + split; [discriminate | intros _].
      rewrite Hg. unfold len. rewrite length_map.
      apply lookup_singleton_eq.
  - assert (Hother : In (type i0)
                       ["difficult_words"; "sentence_too_long";
                        "passive_voice"; "adverbs"; "weak_verbs";
                        "word_repetition"; "poor_transitions";
                        "paragraph_too_long"]).
    { apply in_app_or in Hin as [Hin|Hin].
      - pose proof (readability_part_types det text) as Hall.
        rewrite List.Forall_forall in Hall. specialize (Hall _ Hin).
        simpl in *. intuition.
      - apply in_app_or in Hin as [Hin|Hin].
        + pose proof (quality_part_types det text) as Hall.
          rewrite List.Forall_forall in Hall. specialize (Hall _ Hin).
          simpl in *. intuition.
        + pose proof (structure_issue_types text) as Hall.
          rewrite List.Forall_forall in Hall. specialize (Hall _ Hin).
          simpl in *. intuition. }
    split; intros E; rewrite E in Hother; simpl in Hother;
      intuition discriminate.
Qed.

Lemma grammar_issues_carry_category_total_witness :
  metrics Fixtures.teh_issue !! "issue_count" = Some (VInt 1).
Proof.
  apply (grammar_issues_carry_category_total (H := Fixtures.python_format)
           (Fixtures.full_detector 70 12) Fixtures.tiny_language_tool
           "I saw teh cat." Fixtures.teh_issue).
  - reflexivity.
  - vm_compute. left. reflexivity.
  - reflexivity.
Defined.

Lemma count_type_one_or_none ty (b : bool) (i : Issue) :
  (count_type ty (if b then [i] else []) <= 1)%Z.
Proof.
  unfold count_type, len. destruct b; cbn [List.filter]; [|simpl; lia].
  destruct (String.eqb (type i) ty); simpl; lia.
Qed.

(** X3.  Each type other than spelling and grammar is reported at most
    once per pass: the readability, style, transition and paragraph issues
    are document-wide. *)
Theorem document_wide_issues_are_single `{Formatter}
    (det : ProblemDetector) (text : string) (ty : string) :
  ty <> "spelling" -> ty <> "grammar" ->
  (count_type ty (find_all_issues det text) <= 1)%Z.
Proof.
  intros Hs Hg. rewrite count_type_pass.
  rewrite (count_type_zero ty _ _ (grammar_part_types det text))
    by (simpl; intuition congruence).
  pose proof (count_type_nonneg ty
                (match readability_analyzer det with
                 | Some ra => _detect_readability_issues ra text
                 | None => []
                 end)) as Hr0.
  (* the three remaining categories have pairwise different types, and
     within a category every type is behind one test *)
  assert (Hr : forall ra,
            (count_type ty (_detect_readability_issues ra text)
             <= (if String.eqb ty "difficult_words" then 1 else 0)
                + (if String.eqb ty "sentence_too_long" then 1 else 0))%Z).
  { intros ra. unfold _detect_readability_issues. rewrite count_type_app.
    unfold count_type, len.
    destruct (PrimFloat.ltb _ 50), (PrimFloat.ltb 20 _);
      cbn [List.filter type difficult_words_issue sentence_too_long_issue];
      rewrite ?(String.eqb_sym _ ty);
      destruct (String.eqb ty "difficult_words"),
               (String.eqb ty "sentence_too_long"); simpl; lia. }
  assert (Hq : forall qa,
            (count_type ty (_detect_quality_issues qa text)
             <= (if String.eqb ty "passive_voice" then 1 else 0)
                + (if String.eqb ty "adverbs" then 1 else 0)
                + (if String.eqb ty "weak_verbs" then 1 else 0)
                + (if String.eqb ty "word_repetition" then 1 else 0)
                + (if String.eqb ty "poor_transitions" then 1 else 0))%Z).
  { intros qa. unfold _detect_quality_issues. rewrite !count_type_app.
    unfold count_type, len.
    destruct (LA.pv_is_excessive _), (LA.adv_is_excessive _),
             (LA.wv_is_excessive _), (LA.rep_is_excessive _),
             (_ <? _)%Z;
      cbn [List.filter type passive_voice_issue adverbs_issue
           weak_verbs_issue word_repetition_issue poor_transitions_issue];
      rewrite ?(String.eqb_sym _ ty);
      destruct (String.eqb ty "passive_voice"),
               (String.eqb ty "adverbs"),
               (String.eqb ty "weak_verbs"),
               (String.eqb ty "word_repetition"),
               (String.eqb ty "poor_transitions"); simpl; lia. }
  assert (Hp : (count_type ty (_detect_structure_issues text)
                <= (if String.eqb ty "paragraph_too_long" then 1 else 0))%Z).
  { unfold _detect_structure_issues, count_type, len.
    destruct (long_paragraphs_of _);
      [cbn [List.filter length];
       destruct (String.eqb ty "paragraph_too_long"); lia|].
    cbn [List.filter type paragraph_too_long_issue].
    rewrite (String.eqb_sym _ ty).
    destruct (String.eqb ty "paragraph_too_long"); simpl; lia. }
  assert (Hexcl : ((if String.eqb ty "difficult_words" then 1 else 0)
                   + (if String.eqb ty "sentence_too_long" then 1 else 0)
                   + (if String.eqb ty "passive_voice" then 1 else 0)
                   + (if String.eqb ty "adverbs" then 1 else 0)
                   + (if String.eqb ty "weak_verbs" then 1 else 0)
                   + (if String.eqb ty "word_repetition" then 1 else 0)
                   + (if String.eqb ty "poor_transitions" then 1 else 0)
                   + (if String.eqb ty "paragraph_too_long" then 1 else 0)
                   <= 1)%Z).
  { repeat match goal with
           | |- context [String.eqb ty ?k] =>
               destruct (String.eqb_spec ty k) as [->|?];
               [vm_compute; discriminate|]
           end.
    lia. }
  pose proof (count_type_nonneg ty (_detect_structure_issues text)).
  destruct (readability_analyzer det) as [ra|],
           (quality_analyzer det) as [qa|];
    try specialize (Hr ra); try specialize (Hq qa);
    try (pose proof (count_type_nonneg ty
                       (_detect_readability_issues ra text)));
    try (pose proof (count_type_nonneg ty (_detect_quality_issues qa text)));
    cbv beta iota; change (count_type ty []) with 0%Z;
    repeat match goal with
           | H : context [if String.eqb ty ?k then 1%Z else 0%Z] |- _ =>
               let d := fresh "d" in
               set (d := if String.eqb ty k then 1%Z else 0%Z) in *;
               assert (0 <= d)%Z
                 by (subst d; destruct (String.eqb ty k); lia);
               clearbody d
           end;
    lia.
Qed.

Lemma document_wide_issues_are_single_witness :
  (count_type "poor_transitions"
     (find_all_issues (H := Fixtures.python_format)
        Fixtures.quality_only_detector Fixtures.essay) <= 1)%Z.
Proof.
  apply (document_wide_issues_are_single (H := Fixtures.python_format)
           Fixtures.quality_only_detector Fixtures.essay "poor_transitions");
    discriminate.
Defined.

(** Drops from a disjunction of [has_type] tests the categories that
    cannot hold the type asked for. *)
Ltac silence_parts det text :=
  rewrite ?(has_type_false_of_types _ _ _ (grammar_part_types det text))
    by literal_in;
  rewrite ?(has_type_false_of_types _ _ _ (readability_part_types det text))
    by literal_in;
  rewrite ?(has_type_false_of_types _ _ _ (quality_part_types det text))
    by literal_in;
  rewrite ?(has_type_false_of_types _ _ _ (structure_issue_types text))
    by literal_in;
  cbn [has_type existsb orb]; rewrite ?orb_false_r.

Lemma has_quality_type `{Formatter} det qa text ty :
  quality_analyzer det = Some qa ->
  In ty ["passive_voice"; "adverbs"; "weak_verbs"; "word_repetition";
         "poor_transitions"] ->
  has_type ty (find_all_issues det text)
  = has_type ty (_detect_quality_issues qa text).
Proof.
  intros Hqa Hty. rewrite has_type_pass, Hqa.
  rewrite (has_type_false_of_types ty _ _ (grammar_part_types det text))
    by literal_in.
  rewrite (has_type_false_of_types ty _ _ (readability_part_types det text))
    by literal_in.
  rewrite (has_type_false_of_types ty _ _ (structure_issue_types text))
    by literal_in.
  now rewrite orb_false_r.
Qed.

(** X4.  With a quality analyzer at hand, a pass reports passive voice,
    adverbs, weak verbs and word repetition exactly when the analyzer's
    [is_excessive] flag of that measure is set, and poor transitions exactly
    when the transition-word count is below the paragraph count. *)
Theorem style_issues_iff_flags `{Formatter}
    (det : ProblemDetector) (qa : LA.WritingQualityAnalyzer) (text : string) :
  quality_analyzer det = Some qa ->
  let analysis := LA.quality_analyze qa text in
  has_type "passive_voice" (find_all_issues det text)
    = LA.pv_is_excessive (LA.passive_voice analysis)
  /\ has_type "adverbs" (find_all_issues det text)
     = LA.adv_is_excessive (LA.adverbs analysis)
  /\ has_type "weak_verbs" (find_all_issues det text)
     = LA.wv_is_excessive (LA.weak_verbs analysis)
  /\ has_type "word_repetition" (find_all_issues det text)
     = LA.rep_is_excessive (LA.repetition analysis)
  /\ has_type "poor_transitions" (find_all_issues det text)
     = (LA.tr_count (LA.transitions analysis)
        <? LA.ps_count (LA.paragraph_stats analysis))%Z.
Proof.
  intros Hqa analysis.
  repeat split;
    rewrite (has_quality_type det qa) by (assumption || (simpl; auto 6));
    unfold _detect_quality_issues; fold analysis; rewrite !has_type_app;
    destruct (LA.pv_is_excessive _), (LA.adv_is_excessive _),
             (LA.wv_is_excessive _), (LA.rep_is_excessive _),
             (_ <? _)%Z; reflexivity.
Qed.

Lemma style_issues_iff_flags_witness :
  has_type "poor_transitions"
    (find_all_issues (H := Fixtures.python_format)
       Fixtures.quality_only_detector Fixtures.essay) = true.
Proof.
  apply (style_issues_iff_flags (H := Fixtures.python_format)
           Fixtures.quality_only_detector Fixtures.whitespace_nlp
           Fixtures.essay).
  reflexivity.
Defined.

(** X5.  A category whose analyzer is missing is skipped silently: without
    a grammar analyzer no spelling or grammar issue is reported, without a
    readability analyzer no difficult-words or sentence-length issue, and
    without a quality analyzer none of the five style issues.  The paragraph
    check needs no analyzer. *)
Theorem missing_analyzer_skips_its_category `{Formatter}
    (det : ProblemDetector) (text : string) :
  (grammar_analyzer det = None ->
   has_type "spelling" (find_all_issues det text) = false
   /\ has_type "grammar" (find_all_issues det text) = false)
  /\ (readability_analyzer det = None ->
      has_type "difficult_words" (find_all_issues det text) = false
      /\ has_type "sentence_too_long" (find_all_issues det text) = false)
  /\ (quality_analyzer det = None ->
      forall ty,
        In ty ["passive_voice"; "adverbs"; "weak_verbs"; "word_repetition";
               "poor_transitions"] ->
        has_type ty (find_all_issues det text) = false)
  /\ (grammar_analyzer det = None -> readability_analyzer det = None ->
      quality_analyzer det = None ->
      find_all_issues det text
      = map (fun issue => set_severity (score_issue issue) issue)
            (_detect_structure_issues text)).
Proof.
  split; [|split; [|split]].
  - intros Hg. split; rewrite has_type_pass, Hg; silence_parts det text;
      reflexivity.
  - intros Hr. split; rewrite has_type_pass, Hr; silence_parts det text;
      reflexivity.
  - intros Hq ty Hin. rewrite has_type_pass, Hq; silence_parts det text.
    reflexivity.
  - intros Hg Hr Hq. unfold find_all_issues. now rewrite Hg, Hr, Hq.
Qed.

Lemma long_paragraphs_from (k : Z) (ps : list string) (n w : Z) :
  In (n, w)
     (List.filter (fun iw => (150 <? snd iw)%Z)
        (map (fun ip => ((fst ip + 1)%Z, len (split_ws (snd ip))))
             (enumerate k ps)))
  <-> exists p, (k + 1 <= n)%Z /\ ps !! Z.to_nat (n - 1 - k) = Some p
                /\ w = len (split_ws p) /\ (150 < w)%Z.
Proof.
  revert k. induction ps as [|q ps IH]; intros k.
  - simpl. split; [contradiction | intros (p & _ & Hp & _); discriminate].
  - cbn [enumerate map List.filter fst snd].
    assert (Hhere : In (n, w)
                      (if (150 <? len (split_ws q))%Z
                       then [((k + 1)%Z, len (split_ws q))] else [])
                    <-> n = (k + 1)%Z /\ w = len (split_ws q) /\ (150 < w)%Z).
    { destruct (150 <? len (split_ws q))%Z eqn:E.
      - apply Z.ltb_lt in E. simpl. split.
        + intros [[= <- <-]|[]]. auto.
        + intros (-> & -> & _). now left.
      - apply Z.ltb_ge in E. simpl. split; [contradiction|].
        intros (_ & -> & Hw). lia. }
    transitivity
      (In (n, w) (if (150 <? len (split_ws q))%Z
                  then [((k + 1)%Z, len (split_ws q))] else [])
       \/ In (n, w)
            (List.filter (fun iw => (150 <? snd iw)%Z)
               (map (fun ip => ((fst ip + 1)%Z, len (split_ws (snd ip))))
                    (enumerate (k + 1) ps)))).
    { destruct (150 <? len (split_ws q))%Z; simpl; tauto. }
    rewrite Hhere, IH. split.
    + intros [(-> & -> & Hw) | (p & Hn & Hp & Hw)].
      * exists q. replace (k + 1 - 1 - k)%Z with 0%Z by lia.
        repeat split; [lia | assumption].
      * exists p. replace (Z.to_nat (n - 1 - k))
          with (S (Z.to_nat (n - 1 - (k + 1)))) by lia.
        repeat split; try tauto; lia.
    + intros (p & Hn & Hp & Hw).
      destruct (Z.eq_dec n (k + 1)%Z) as [->|Hne].
      * left. replace (k + 1 - 1 - k)%Z with 0%Z in Hp by lia.
        injection Hp as ->. tauto.
      * right. exists p.
        replace (Z.to_nat (n - 1 - k))
          with (S (Z.to_nat (n - 1 - (k + 1)))) in Hp by lia.
        repeat split; try tauto; lia.
Qed.

Lemma has_type_structure text :
  has_type "paragraph_too_long" (_detect_structure_issues text)
  = existsb (fun p => (150 <? len (split_ws p))%Z) (LA.paragraphs_of text).
Proof.
  unfold _detect_structure_issues, long_paragraphs_of.
  generalize 0%Z. generalize (LA.paragraphs_of text) as ps.
  assert (Hnil : forall ps k,
            List.filter (fun iw : Z * Z => (150 <? snd iw)%Z)
              (map (fun ip : Z * string =>
                      ((fst ip + 1)%Z, len (split_ws (snd ip))))
                   (enumerate k ps)) = []
            <-> existsb (fun p => (150 <? len (split_ws p))%Z) ps = false).
  { induction ps as [|q ps IH]; intros k; [simpl; tauto|].
    cbn [enumerate map List.filter existsb fst snd].
    destruct (150 <? len (split_ws q))%Z; simpl; [split; discriminate|].
    apply IH. }
  intros ps k. specialize (Hnil ps k).
  destruct (List.filter _ _) as [|x l].
  - symmetry. now apply Hnil.
  - cbn [has_type existsb type paragraph_too_long_issue String.eqb].
    destruct (existsb _ ps); [reflexivity|].
    destruct Hnil as [_ Hnil]. now specialize (Hnil eq_refl).
Qed.

(** X6.  A pass reports a [paragraph_too_long] issue exactly when some
    blank-line-delimited paragraph has more than 150 whitespace-separated
    words.  Its [long_paragraphs] metric lists every such paragraph, each
    as the pair of its number (counted from 1 among the non-blank
    paragraphs) and its word count, and [total_paragraphs] is the number of
    non-blank paragraphs. *)
Theorem paragraph_issue_lists_long_paragraphs `{Formatter}
    (det : ProblemDetector) (text : string) :
  let ps := LA.paragraphs_of text in
  has_type "paragraph_too_long" (find_all_issues det text)
    = existsb (fun p => (150 <? len (split_ws p))%Z) ps
  /\ (forall issue,
        In issue (find_all_issues det text) ->
        type issue = "paragraph_too_long" ->
        metrics issue !! "long_paragraphs"
        = Some (VList (map (fun p => VTuple [VInt (fst p); VInt (snd p)])
                           (long_paragraphs_of ps)))
        /\ metrics issue !! "total_paragraphs" = Some (VInt (len ps)))
  /\ (forall n w : Z,
        In (n, w) (long_paragraphs_of ps)
        <-> exists p, (1 <= n)%Z /\ ps !! Z.to_nat (n - 1) = Some p
                      /\ w = len (split_ws p) /\ (150 < w)%Z).
Proof.
  intros ps. split; [|split].
  - rewrite has_type_pass. silence_parts det text.
    apply has_type_structure.
  - intros issue Hin Hty.
    assert (Hf : In issue
                   (List.filter
                      (fun i => String.eqb (type i) "paragraph_too_long")
                      (find_all_issues det text))).
    { apply filter_In. split; [exact Hin|]. now rewrite Hty. }
    rewrite paragraph_issues_of_pass in Hf.
    apply in_map_iff in Hf as (i0 & <- & Hi0).
    unfold _detect_structure_issues in Hi0. fold ps in Hi0.
    destruct (long_paragraphs_of ps) as [|x l] eqn:E; [contradiction|].
    destruct Hi0 as [<-|[]].
    cbn [metrics set_severity paragraph_too_long_issue].
    split; [|apply lookup_insert_eq].
    rewrite lookup_insert_ne by discriminate.
    apply lookup_singleton_eq.
  - intros n w. unfold long_paragraphs_of.
    rewrite long_paragraphs_from.
    split; intros (p & Hn & Hp & Hw); exists p;
      (replace (n - 1 - 0)%Z with (n - 1)%Z in * by lia);
      repeat split; try tauto; lia.
Qed.

Lemma top_issues_members (issues : list Issue) (limit : Z) (i : Issue) :
  In i (top_issues issues limit) -> In i issues /\ (5 <= severity i)%Z.
Proof.
  unfold top_issues. intros Hin. apply in_slice_to in Hin.
  apply filter_In in Hin as [Hin Hsev]. split; [|now apply Z.leb_le].
  eapply Permutation_in; [apply sorted_desc_perm | exact Hin].
Qed.

(** X7.  Whatever the limit, the issues shown after prioritisation of a
    pass are of the seven types whose table score is at least 5; an
    adverbs, weak-verbs or word-repetition issue is detected but never
    shown. *)
Theorem only_important_types_are_shown `{Formatter}
    (det : ProblemDetector) (text : string) (limit : Z) :
  Forall (fun i => In (type i)
            ["spelling"; "grammar"; "sentence_too_long"; "difficult_words";
             "poor_transitions"; "paragraph_too_long"; "passive_voice"])
         (top_issues (find_all_issues det text) limit).
Proof.
  apply List.Forall_forall. intros i Hi.
  apply top_issues_members in Hi as [Hin Hsev].
  rewrite find_all_issues_raw in Hin.
  apply in_map_iff in Hin as (i0 & <- & Hin).
  pose proof (raw_issue_types det text) as Hall.
  rewrite List.Forall_forall in Hall. specialize (Hall _ Hin).
  cbn [type severity set_severity] in *.
  unfold score_issue, emitted_types in *. simpl in Hall.
  destruct Hall as [E|[E|[E|[E|[E|[E|[E|[E|[E|[E|[]]]]]]]]]]];
    rewrite <- E in *; simpl; auto 10;
    vm_compute in Hsev; exfalso; now apply Hsev.
Qed.

(** ** The prioritizer keeps the most severe issues *)

Lemma filter_permutation {A} (p : A -> bool) (l l' : list A) :
  Permutation l l' -> Permutation (List.filter p l) (List.filter p l').
Proof.
  induction 1 as [|x l l' _ IH|x y l|l l' l'' _ IH1 _ IH2]; simpl.
  - reflexivity.
  - destruct (p x); [now constructor | exact IH].
  - destruct (p x), (p y); try reflexivity. apply perm_swap.
  - now transitivity (List.filter p l').
Qed.

(** X8.  Truncation by the limit takes from the low end: the important
    issues of the input (severity at least 5) are the returned ones
    together with the dropped ones, no dropped issue is more severe than a
    returned one, and nothing is dropped when the limit is at least the
    number of important issues. *)
Theorem top_issues_drops_the_least_severe
    (issues : list Issue) (limit : Z) :
  exists dropped : list Issue,
    Permutation (List.filter (fun i => (5 <=? severity i)%Z) issues)
                (top_issues issues limit ++ dropped)
    /\ (forall kept d,
          In kept (top_issues issues limit) -> In d dropped ->
          (severity d <= severity kept)%Z)
    /\ ((len (List.filter (fun i => (5 <=? severity i)%Z) issues) <= limit)%Z
        -> dropped = []).
Proof.
  unfold top_issues.
  set (important := List.filter (fun i => (5 <=? severity i)%Z)
                                (sorted_desc severity issues)).
  assert (Hperm : Permutation
                    (List.filter (fun i => (5 <=? severity i)%Z) issues)
                    important).
  { apply filter_permutation. symmetry. apply sorted_desc_perm. }
  assert (Hsorted : StronglySorted (desc severity) important).
  { apply (filter_sorted severity), sorted_desc_sorted. }
  assert (Hslice : exists n,
            slice_to important limit = firstn n important
            /\ ((len important <= limit)%Z -> (length important <= n)%nat)).
  { unfold slice_to. destruct (0 <=? limit)%Z eqn:E.
    - exists (Z.to_nat limit). split; [reflexivity|]. unfold len. lia.
    - apply Z.leb_gt in E. eexists. split; [reflexivity|].
      unfold len. lia. }
  destruct Hslice as (n & Hn & Hall).
  exists (skipn n important). rewrite Hn. repeat split.
  - now rewrite firstn_skipn.
  - intros kept d Hk Hd.
    rewrite <- (firstn_skipn n important) in Hsorted.
    apply StronglySorted_app in Hsorted as (Hcross & _ & _).
    apply (Hcross kept d); now apply list_elem_of_In.
  - intros Hlen. apply skipn_all2, Hall.
    unfold len in *. now rewrite <- (Permutation_length Hperm).
Qed.

(** ** Verdicts of the validator and a fresh pass *)

Lemma SFltb_asym (x y : SpecFloat.spec_float) :
  SpecFloat.SFltb x y = true -> SpecFloat.SFltb y x = false.
Proof.
  unfold SpecFloat.SFltb.
  destruct x as [sx|sx| |sx mx ex], y as [sy|sy| |sy my ey];
    cbn [SpecFloat.SFcompare];
    try destruct sx; try destruct sy; try discriminate; try reflexivity.
  - rewrite (Z.compare_antisym ex ey).
    destruct (ex ?= ey)%Z; cbn [CompOpp]; try discriminate; try reflexivity.
    assert (E : Pos.compare_cont Eq my mx
                = CompOpp (Pos.compare_cont Eq mx my))
      by (symmetry; apply (Pos.compare_cont_antisym mx my Eq)).
    rewrite E.
    destruct (Pos.compare_cont Eq mx my); cbn [CompOpp];
      try discriminate; reflexivity.
  - rewrite (Z.compare_antisym ex ey).
    destruct (ex ?= ey)%Z; cbn [CompOpp]; try discriminate; try reflexivity.
    assert (E : Pos.compare_cont Eq my mx
                = CompOpp (Pos.compare_cont Eq mx my))
      by (symmetry; apply (Pos.compare_cont_antisym mx my Eq)).
    rewrite E.
    destruct (Pos.compare_cont Eq mx my); cbn [CompOpp];
      try discriminate; reflexivity.
Qed.

Lemma float_ltb_asym (x y : float) :
  PrimFloat.ltb x y = true -> PrimFloat.ltb y x = false.
Proof. rewrite !ltb_spec. apply SFltb_asym. Qed.

Lemma lt_asym (a b : num) : lt a b = true -> lt b a = false.
Proof.
  destruct a as [x|x], b as [y|y]; cbn [lt to_float];
    try apply float_ltb_asym.
  intros Hxy. apply Z.ltb_lt in Hxy. apply Z.ltb_ge. lia.
Qed.

(** X9.  An edit that the validator has no rule or no analyzer for counts
    as an improvement: the verdict is (True, "Text edited", {}) for a type
    outside the ten known ones, for any of the five style types when the
    quality analyzer is missing, and for the two readability types when the
    readability analyzer is missing. *)
Theorem unsupported_edit_counts_as_improved `{Formatter}
    (v : FixValidator) (original edited : string) (issue : Issue) :
  (~ In (type issue) emitted_types ->
   validate_fix v original edited issue = Some (true, TextEdited, ∅))
  /\ (quality_analyzer (detector v) = None ->
      In (type issue)
         ["passive_voice"; "adverbs"; "weak_verbs"; "word_repetition";
          "poor_transitions"] ->
      validate_fix v original edited issue = Some (true, TextEdited, ∅))
  /\ (readability_analyzer (detector v) = None ->
      In (type issue) ["difficult_words"; "sentence_too_long"] ->
      validate_fix v original edited issue = Some (true, TextEdited, ∅)).
Proof.
  split; [|split].
  - intros Hnot. unfold validate_fix, _check_improvement.
    repeat match goal with
           | |- context [String.eqb (type issue) ?k] =>
               let E := fresh "E" in
               destruct (String.eqb_spec (type issue) k) as [E|E];
               [exfalso; apply Hnot; rewrite E; unfold emitted_types;
                simpl; auto 12|]
           end.
    reflexivity.
  - intros Hq Hty. unfold validate_fix, _check_improvement. rewrite Hq.
    simpl in Hty.
    destruct Hty as [E|[E|[E|[E|[E|[]]]]]]; rewrite <- E; reflexivity.
  - intros Hr Hty. unfold validate_fix, _check_improvement. rewrite Hr.
    simpl in Hty.
    destruct Hty as [E|[E|[]]]; rewrite <- E; reflexivity.
Qed.

(** X10.  The fresh count of a spelling or grammar rule is taken from the
    issues of a new pass, which holds at most five per category, while the
    baseline is the uncapped total.  So for an issue whose baseline exceeds
    5 every edit is judged an improvement of the "reduced" tier, even one
    that corrects nothing. *)
Theorem baseline_above_five_always_improves `{Formatter}
    (v : FixValidator) (original edited : string) (issue : Issue) (old : Z) :
  type issue = "spelling" \/ type issue = "grammar" ->
  get (metrics issue) "issue_count" (VInt 0) = VInt old ->
  (5 < old)%Z ->
  let new_count :=
    count_type (type issue) (find_all_issues (detector v) edited) in
  (new_count <= 5)%Z
  /\ validate_fix v original edited issue
     = Some (true, FixedReduced (type issue) (NInt old) new_count,
             before_after (VInt old) (VInt new_count)).
Proof.
  intros Hty Hold Hbig new_count.
  assert (Hcap : (new_count <= 5)%Z)
    by (apply category_count_capped; exact Hty).
  split; [exact Hcap|].
  rewrite (spelling_grammar_verdict v original edited issue (NInt old) Hty Hold).
  fold new_count. cbn [lt].
  replace (new_count <? old)%Z with true by (symmetry; apply Z.ltb_lt; lia).
  reflexivity.
Qed.

Lemma baseline_above_five_always_improves_witness :
  List.filter (fun i => String.eqb (type i) "spelling")
    (find_all_issues (H := Fixtures.python_format)
       Fixtures.stubborn_detector "I saw teh cat.")
  = repeat Fixtures.eightfold_issue 5
  /\ validate_fix (H := Fixtures.python_format)
       {| detector := Fixtures.stubborn_detector |}
       "I saw teh cat." "I saw teh cat again." Fixtures.eightfold_issue
     = Some (true, FixedReduced "spelling" (NInt 8) 5,
             before_after (VInt 8) (VInt 5)).
Proof.
  split; [vm_compute; reflexivity|].
  apply (baseline_above_five_always_improves (H := Fixtures.python_format)
           {| detector := Fixtures.stubborn_detector |}
           "I saw teh cat." "I saw teh cat again." Fixtures.eightfold_issue 8).
  - left. reflexivity.
  - reflexivity.
  - lia.
Defined.

(** The shapes an issue of a pass can have before rescoring. *)
Lemma raw_issue_cases `{Formatter} det text (i : Issue) :
  In i (raw_issues det text) ->
  (exists n f, i = spelling_issue n f)
  \/ (exists n f, i = grammar_issue n f)
  \/ (exists a, i = difficult_words_issue a)
  \/ (exists a, i = sentence_too_long_issue a)
  \/ (exists a, i = passive_voice_issue a)
  \/ (exists a, i = adverbs_issue a)
  \/ (exists a, i = weak_verbs_issue a)
  \/ (exists a, i = word_repetition_issue a)
  \/ (exists a, i = poor_transitions_issue a)
  \/ (exists lp ps, i = paragraph_too_long_issue lp ps).
Proof.
  unfold raw_issues. intros Hin.
  apply in_app_or in Hin as [Hin|Hin].
  { destruct (grammar_analyzer det) as [ga|]; [|contradiction].
    unfold _detect_grammar_issues in Hin.
    apply in_app_or in Hin as [Hin|Hin];
      apply in_map_iff in Hin as (f & <- & _); eauto 12. }
  apply in_app_or in Hin as [Hin|Hin].
  { destruct (readability_analyzer det) as [ra|]; [|contradiction].
    unfold _detect_readability_issues in Hin.
    apply in_app_or in Hin as [Hin|Hin];
      match type of Hin with
      | In _ (if ?b then _ else _) => destruct b
      end; try contradiction; destruct Hin as [<-|[]]; eauto 12. }
  apply in_app_or in Hin as [Hin|Hin].
  { destruct (quality_analyzer det) as [qa|]; [|contradiction].
    unfold _detect_quality_issues in Hin.
    repeat (apply in_app_or in Hin as [Hin|Hin]);
      match type of Hin with
      | In _ (if ?b then _ else _) => destruct b
      end; try contradiction; destruct Hin as [<-|[]]; eauto 15. }
  unfold _detect_structure_issues in Hin.
  destruct (long_paragraphs_of _); [contradiction|].
  destruct Hin as [<-|[]]. do 9 right. eauto.
Qed.

(** Runs [_check_improvement] on an issue whose type is a literal and
    whose baseline is stored under the key the rule reads. *)
Ltac run_rule :=
  unfold validate_fix, _check_improvement;
  cbn [type metrics set_severity spelling_issue grammar_issue
       difficult_words_issue sentence_too_long_issue passive_voice_issue
       adverbs_issue weak_verbs_issue word_repetition_issue
       poor_transitions_issue paragraph_too_long_issue];
  cbn [String.eqb Ascii.eqb Bool.eqb orb andb];
  repeat match goal with
         | |- context [quality_analyzer ?d] =>
             destruct (quality_analyzer d)
         | |- context [readability_analyzer ?d] =>
             destruct (readability_analyzer d)
         end;
  try match goal with
      | |- context [get ?m ?k ?d] =>
          let b := eval vm_compute in (m !! k) in
          match b with
          | Some ?x => change (get m k d) with x
          end
      end;
  cbn [as_num value_len VInt VFloat mbind option_bind];
  repeat match goal with
         | |- context [if ?b then _ else _] => destruct b
         end;
  eauto.

(** X11.  The baseline an analysis pass stores in an issue's metrics has
    the shape the validator's rule for that type computes with: validating
    any edit against any issue of a pass returns a verdict and never
    fails, whichever analyzers the validator has. *)
Theorem issues_of_a_pass_always_validate `{Formatter}
    (det : ProblemDetector) (text : string) (issue : Issue)
    (v : FixValidator) (original edited : string) :
  In issue (find_all_issues det text) ->
  exists verdict : Verdict,
    validate_fix v original edited issue = Some verdict.
Proof.
  rewrite find_all_issues_raw. intros Hin.
  apply in_map_iff in Hin as (i0 & <- & Hin).
  apply raw_issue_cases in Hin.
  destruct Hin as [(n & f & ->)|[(n & f & ->)|[(a & ->)|[(a & ->)|
                  [(a & ->)|[(a & ->)|[(a & ->)|[(a & ->)|[(a & ->)|
                  (lp & ps & ->)]]]]]]]]]; run_rule.
Qed.

Lemma issues_of_a_pass_always_validate_witness :
  exists verdict : Verdict,
    validate_fix (H := Fixtures.python_format)
      {| detector := Fixtures.quality_only_detector |}
      (context Fixtures.essay_issue) "so it goes" Fixtures.essay_issue
    = Some verdict.
Proof.
  apply (issues_of_a_pass_always_validate (H := Fixtures.python_format)
           Fixtures.quality_only_detector Fixtures.essay Fixtures.essay_issue
           {| detector := Fixtures.quality_only_detector |}
           (context Fixtures.essay_issue) "so it goes").
  vm_compute. left. reflexivity.
Defined.

Lemma quality_has_types `{Formatter} qa text :
  let analysis := LA.quality_analyze qa text in
  has_type "passive_voice" (_detect_quality_issues qa text)
    = LA.pv_is_excessive (LA.passive_voice analysis)
  /\ has_type "adverbs" (_detect_quality_issues qa text)
     = LA.adv_is_excessive (LA.adverbs analysis)
  /\ has_type "weak_verbs" (_detect_quality_issues qa text)
     = LA.wv_is_excessive (LA.weak_verbs analysis)
  /\ has_type "poor_transitions" (_detect_quality_issues qa text)
     = (LA.tr_count (LA.transitions analysis)
        <? LA.ps_count (LA.paragraph_stats analysis))%Z.
Proof.
  intros analysis.
  repeat split; unfold _detect_quality_issues; fold analysis;
    rewrite !has_type_app;
    destruct (LA.pv_is_excessive _), (LA.adv_is_excessive _),
             (LA.wv_is_excessive _), (LA.rep_is_excessive _),
             (_ <? _)%Z; reflexivity.
Qed.

Lemma paragraph_count_of_analysis (text : string) :
  LA.ps_count (LA._analyze_paragraphs text) = len (LA.paragraphs_of text).
Proof.
  unfold LA._analyze_paragraphs. now destruct (LA.paragraphs_of text).
Qed.

(** X12.  When the validator answers with the "target met" tier of a
    threshold rule, a fresh pass of its detector over the edited text no
    longer reports that issue: "Excellent" for passive voice (below 10%),
    "Excellent" for adverbs (below 3 per 100 words), "Great" for weak verbs
    (below 30%) and "Perfect" for sentence length (below 20 words). *)
Theorem target_met_is_not_redetected `{Formatter}
    (v : FixValidator) (original edited : string) (issue : Issue)
    (verdict : Verdict) :
  validate_fix v original edited issue = Some verdict ->
  (type issue = "passive_voice" ->
   (exists p, snd (fst verdict) = PassiveExcellent p) ->
   has_type "passive_voice" (find_all_issues (detector v) edited) = false)
  /\ (type issue = "adverbs" ->
      (exists p, snd (fst verdict) = AdverbsExcellent p) ->
      has_type "adverbs" (find_all_issues (detector v) edited) = false)
  /\ (type issue = "weak_verbs" ->
      (exists p, snd (fst verdict) = WeakVerbsGreat p) ->
      has_type "weak_verbs" (find_all_issues (detector v) edited) = false)
  /\ (type issue = "sentence_too_long" ->
      (exists p, snd (fst verdict) = SentencePerfect p) ->
      has_type "sentence_too_long" (find_all_issues (detector v) edited)
      = false).
Proof.
  intros Hv. unfold validate_fix, _check_improvement in Hv.
  repeat split; intros Hty [p Hmsg]; rewrite Hty in Hv;
    cbn [String.eqb Ascii.eqb Bool.eqb orb] in Hv.
  - destruct (quality_analyzer (detector v)) as [qa|] eqn:Hqa;
      [|injection Hv as <-; discriminate].
    destruct (as_num _) as [old|]; [|discriminate].
    cbn [mbind option_bind] in Hv.
    rewrite (has_quality_type _ qa) by (assumption || (simpl; auto)).
    destruct (quality_has_types qa edited) as (-> & _).
    destruct (lt _ (NInt 10)) eqn:E.
    + now apply lt_asym in E.
    + destruct (gt _ (NInt 3)); [injection Hv as <-; discriminate|].
      destruct (gt _ (NInt 0)); injection Hv as <-; discriminate.
  - destruct (quality_analyzer (detector v)) as [qa|] eqn:Hqa;
      [|injection Hv as <-; discriminate].
    destruct (as_num _) as [old|]; [|discriminate].
    cbn [mbind option_bind] in Hv.
    rewrite (has_quality_type _ qa) by (assumption || (simpl; auto)).
    destruct (quality_has_types qa edited) as (_ & -> & _).
    destruct (lt _ (NInt 3)) eqn:E.
    + cbn [LA.quality_analyze LA.adverbs LA._analyze_adverbs
           LA.adv_is_excessive LA.adv_per_100_words] in *.
      destruct (0 <? _)%Z; [|reflexivity]. now apply lt_asym in E.
    + destruct (gt _ (NFloat 0.5)); injection Hv as <-; discriminate.
  - destruct (quality_analyzer (detector v)) as [qa|] eqn:Hqa;
      [|injection Hv as <-; discriminate].
    destruct (as_num _) as [old|]; [|discriminate].
    cbn [mbind option_bind] in Hv.
    rewrite (has_quality_type _ qa) by (assumption || (simpl; auto 6)).
    destruct (quality_has_types qa edited) as (_ & _ & -> & _).
    destruct (lt _ (NInt 30)) eqn:E.
    + cbn [LA.quality_analyze LA.weak_verbs LA._detect_weak_verbs
           LA.wv_is_excessive LA.wv_percentage] in *.
      destruct (0 <? _)%Z; [|reflexivity]. now apply lt_asym in E.
    + destruct (gt _ (NInt 3)); injection Hv as <-; discriminate.
  - destruct (readability_analyzer (detector v)) as [ra|] eqn:Hra;
      [|injection Hv as <-; discriminate].
    destruct (as_num _) as [old|]; [|discriminate].
    cbn [mbind option_bind] in Hv.
    rewrite (has_readability_type _ ra) by (assumption || (simpl; auto)).
    rewrite readability_has_sentence_too_long.
    destruct (lt _ (NInt 20)) eqn:E.
    + cbn [lt to_float] in E.
      change (float_of_int 20) with 20%float in E.
      now apply float_ltb_asym in E.
    + destruct (gt _ (NInt 2)); injection Hv as <-; discriminate.
Qed.

Lemma target_met_is_not_redetected_witness :
  has_type "passive_voice"
    (find_all_issues (H := Fixtures.python_format)
       (Fixtures.passive_detector 2 25) "We rewrote most of it.") = false.
Proof.
  refine (proj1 (target_met_is_not_redetected (H := Fixtures.python_format)
                   {| detector := Fixtures.passive_detector 2 25 |}
                   "15 passive constructions found" "We rewrote most of it."
                   (Fixtures.passive_issue 15)
                   (true, PassiveExcellent (NFloat 8),
                    before_after (VFloat 15) (VFloat 8)) _) _ _).
  - reflexivity.
  - reflexivity.
  - exists (NFloat 8). reflexivity.
Defined.

Lemma existsb_filter_length {A} (p : A -> bool) (l : list A) :
  (length (List.filter p l) =? 0)%nat = negb (existsb p l).
Proof.
  induction l as [|x l IH]; [reflexivity|].
  simpl. destruct (p x); [reflexivity | exact IH].
Qed.

Lemma long_paragraph_count (ps : list string) :
  (len (List.filter (fun n => (150 <? n)%Z)
          (map (fun p => len (split_ws p)) ps)) =? 0)%Z
  = negb (existsb (fun p => (150 <? len (split_ws p))%Z) ps).
Proof.
  induction ps as [|q ps IH]; [reflexivity|].
  cbn [map List.filter existsb].
  destruct (150 <? len (split_ws q))%Z; [|exact IH].
  unfold len. cbn [length]. cbn [orb negb]. apply Z.eqb_neq. lia.
Qed.

(** X13.  The two count rules test exactly what the detector tests.  For
    a [poor_transitions] issue the verdict is the "Great" tier if and only
    if a fresh pass of the validator's detector over the edited text
    reports no [poor_transitions] issue; for a [paragraph_too_long] issue
    it is the "Excellent" tier if and only if a fresh pass of any detector
    over the edited text reports no [paragraph_too_long] issue. *)
Theorem count_targets_agree_with_fresh_pass `{Formatter}
    (v : FixValidator) (original edited : string) (issue : Issue)
    (verdict : Verdict) :
  validate_fix v original edited issue = Some verdict ->
  (type issue = "poor_transitions" ->
   quality_analyzer (detector v) <> None ->
   ((exists n, snd (fst verdict) = TransitionsGreat n)
    <-> has_type "poor_transitions" (find_all_issues (detector v) edited)
        = false))
  /\ (type issue = "paragraph_too_long" ->
      forall det : ProblemDetector,
        snd (fst verdict) = ParagraphsExcellent
        <-> has_type "paragraph_too_long" (find_all_issues det edited)
            = false).
Proof.
  intros Hv. unfold validate_fix, _check_improvement in Hv.
  split; intros Hty; rewrite Hty in Hv;
    cbn [String.eqb Ascii.eqb Bool.eqb orb] in Hv.
  - intros Hqa.
    destruct (quality_analyzer (detector v)) as [qa|] eqn:Eqa;
      [|contradiction].
    rewrite (has_quality_type _ qa) by (assumption || (simpl; auto 6)).
    destruct (quality_has_types qa edited) as (_ & _ & _ & ->).
    change (LA.paragraph_stats (LA.quality_analyze qa edited))
      with (LA._analyze_paragraphs edited).
    rewrite paragraph_count_of_analysis.
    set (tr := LA.tr_count (LA.transitions (LA.quality_analyze qa edited)))
      in *.
    set (pc := len (LA.paragraphs_of edited)) in *.
    destruct (pc <=? tr)%Z eqn:E.
    + injection Hv as <-. cbn [fst snd].
      split; [intros _ | eauto].
      apply Z.leb_le in E. apply Z.ltb_ge. exact E.
    + apply Z.leb_gt in E.
      assert (Hlt : (tr <? pc)%Z = true) by now apply Z.ltb_lt.
      rewrite Hlt.
      destruct (as_num _) as [old|]; [|discriminate].
      cbn [mbind option_bind] in Hv.
      destruct (gt _ old); injection Hv as <-; cbn [fst snd];
        (split; [intros [n Hn]; discriminate | discriminate]).
  - intros det.
    rewrite has_type_pass. silence_parts det edited.
    rewrite has_type_structure.
    destruct (value_len _) as [old_count|]; [|discriminate].
    cbn [mbind option_bind] in Hv.
    rewrite long_paragraph_count in Hv.
    destruct (existsb _ (LA.paragraphs_of edited)); cbn [negb] in Hv.
    + destruct (_ <? old_count)%Z; injection Hv as <-; cbn [fst snd];
        (split; discriminate).
    + injection Hv as <-. cbn [fst snd]. tauto.
Qed.

Lemma count_targets_agree_with_fresh_pass_witness :
  (exists n, TransitionsGreat 1 = TransitionsGreat n)
  <-> has_type "poor_transitions"
        (find_all_issues (H := Fixtures.python_format)
           Fixtures.quality_only_detector Fixtures.essay_edit) = false.
Proof.
  refine (proj1 (count_targets_agree_with_fresh_pass
                   (H := Fixtures.python_format)
                   {| detector := Fixtures.quality_only_detector |}
                   (context Fixtures.essay_issue) Fixtures.essay_edit
                   Fixtures.essay_issue
                   (true, TransitionsGreat 1,
                    before_after (VInt 2) (VInt 1)) _) _ _).
  - reflexivity.
  - reflexivity.
  - discriminate.
Defined.

(** ** The session summary *)

(** Breaks a lookup in a map built by inserts into the case of each
    inserted key. *)
Ltac lookup_cases :=
  repeat (rewrite lookup_insert; case_decide; subst);
  rewrite ?lookup_empty.

(** X14.  [calculate_overall_improvements] has the two readability
    entries exactly when the readability analyzer is at hand, the three
    style entries exactly when the quality analyzer is, and the grammar
    entry exactly when the grammar analyzer is, and no other entry.
    Comparing a text with itself gives pairs with equal sides, and
    exchanging the two texts exchanges the sides of every pair. *)
Theorem overall_improvements_entries
    (v : FixValidator) (original coached : string) :
  (forall k : string,
     is_Some (calculate_overall_improvements v original coached !! k)
     <-> (readability_analyzer (detector v) <> None
          /\ In k ["readability"; "avg_sentence_length"])
         \/ (quality_analyzer (detector v) <> None
             /\ In k ["passive_voice"; "adverbs"; "weak_verbs"])
         \/ (grammar_analyzer (detector v) <> None
             /\ k = "grammar_issues"))
  /\ (forall (k : string) (before after : num),
        calculate_overall_improvements v original original !! k
        = Some (before, after) ->
        before = after)
  /\ (forall (k : string) (before after : num),
        calculate_overall_improvements v original coached !! k
        = Some (before, after) ->
        calculate_overall_improvements v coached original !! k
        = Some (after, before)).
Proof.
  unfold calculate_overall_improvements.
  destruct (readability_analyzer (detector v)) as [ra|],
           (quality_analyzer (detector v)) as [qa|],
           (grammar_analyzer (detector v)) as [ga|];
    (split; [|split]).
  all: try solve
         [ intros k; rewrite ?lookup_insert_is_Some';
           assert (Hemp : ~ is_Some ((∅ : gmap string (num * num)) !! k))
             by apply lookup_empty_is_Some;
           cbn [In]; intuition (try congruence) ].
  all: intros k before after; lookup_cases; intros Hs; now inversion Hs.
Qed.

(** ** The inline editor *)

Lemma rstrip_idempotent (s : string) : rstrip (rstrip s) = rstrip s.
Proof.
  induction s as [|c s IH]; [reflexivity|].
  cbn [rstrip]. destruct (rstrip s) as [|c' r] eqn:E.
  - destruct (isspace c) eqn:Ec; [reflexivity|].
    cbn [rstrip]. now rewrite Ec.
  - cbn [rstrip]. cbn [rstrip] in IH. now rewrite IH.
Qed.

Lemma lstrip_head (s : string) :
  lstrip s = EmptyString
  \/ exists c t, lstrip s = String c t /\ isspace c = false.
Proof.
  induction s as [|c s IH]; [now left|].
  cbn [lstrip]. destruct (isspace c) eqn:Ec; [exact IH|].
  right. eauto.
Qed.

Lemma rstrip_keeps_head (c : ascii) (t : string) :
  isspace c = false -> exists r, rstrip (String c t) = String c r.
Proof.
  intros Hc. cbn [rstrip]. destruct (rstrip t); [|eauto].
  rewrite Hc. eauto.
Qed.

Lemma strip_idempotent (s : string) : strip (strip s) = strip s.
Proof.
  unfold strip.
  destruct (lstrip_head s) as [->|(c & t & -> & Hc)]; [reflexivity|].
  destruct (rstrip_keeps_head c t Hc) as [r Hr].
  rewrite Hr. cbn [lstrip]. rewrite Hc, <- Hr.
  apply rstrip_idempotent.
Qed.

(** X15.  Whatever the user saves, a text returned by [edit_text_inline]
    is not empty and has no leading or trailing whitespace (stripping it
    again changes nothing); in particular it differs from any issue context
    that begins or ends with whitespace. *)
Theorem edit_text_inline_returns_stripped_text
    (editor : Editor) (text d edited : string) :
  edit_text_inline editor text d = Some edited ->
  edited <> EmptyString
  /\ strip edited = edited
  /\ (strip text <> text -> edited <> text).
Proof.
  unfold edit_text_inline.
  destruct (editor _) as [|saved]; [discriminate|].
  destruct (truthy (remove_instruction_lines saved)) eqn:E; [|discriminate].
  intros [= <-].
  assert (Hs : strip (remove_instruction_lines saved)
               = remove_instruction_lines saved)
    by (unfold remove_instruction_lines; apply strip_idempotent).
  repeat split.
  - intros Hempty. now rewrite Hempty in E.
  - exact Hs.
  - intros Hne Heq. apply Hne. now rewrite <- Heq.
Qed.

Lemma edit_text_inline_returns_stripped_text_witness :
  strip "The model was fitted." = "The model was fitted.".
Proof.
  apply (edit_text_inline_returns_stripped_text
           Fixtures.save_untouched Fixtures.heading_snippet
           "Excessive passive voice" "The model was fitted.").
  reflexivity.
Defined.






(** ** The resolution loop *)

Lemma present_one_step `{Formatter}
    (validator : FixValidator) (user : Session) (st st1 : State)
    (issue : Issue) (flow : Flow) :
  present_one validator user st issue = Some (st1, flow) ->
  (fixed_count st <= fixed_count st1)%Z
  /\ (skipped_count st <= skipped_count st1)%Z
  /\ (fixed_count st1 - fixed_count st
      + (skipped_count st1 - skipped_count st) <= 1)%Z
  /\ exists new, validations st1 = validations st ++ new
                 /\ (length new <= 1)%nat
                 /\ (fixed_count st1 - fixed_count st
                     <= (if present_issue user is edit_external then 1 else 0)
                        + len (List.filter
                                 (fun c => fst (fst (v_verdict c))) new))%Z.
Proof.
  unfold present_one.
  destruct (present_issue user).
  - destruct (confirm_quit user); intros [= <- <-];
      (repeat split; try lia; exists []; rewrite app_nil_r; simpl;
       repeat split; unfold len; simpl; lia).
  - intros [= <- <-]. cbn.
    repeat split; try lia. exists []. rewrite app_nil_r.
    repeat split; unfold len; simpl; lia.
  - destruct (edit_text_inline _ _ _) as [edited|].
    + destruct (truthy edited && negb (String.eqb edited (context issue))).
      * destruct (validate_fix _ _ _ _) as [[[improved message] m]|];
          [|discriminate].
        cbn [mbind option_bind]. intros [= <- <-]. cbn.
        destruct improved; (repeat split; try lia);
          eexists; (split; [reflexivity|]); unfold len; simpl; split; lia.
      * intros [= <- <-]. repeat split; try lia.
        exists []. rewrite app_nil_r. repeat split; unfold len; simpl; lia.
    + intros [= <- <-]. repeat split; try lia.
      exists []. rewrite app_nil_r. repeat split; unfold len; simpl; lia.
  - destruct (open_in_external_editor user _); intros [= <- <-]; cbn;
      (repeat split; try lia; exists []; rewrite app_nil_r;
       repeat split; unfold len; simpl; lia).
Qed.

(** X17.  In any session the two counters only grow, together by at most
    one per issue presented, and the validator is called at most once per
    issue: after the loop, fixed plus skipped has grown by at most the
    number of issues, and so has the number of validator calls. *)
Theorem session_counters_are_bounded `{Formatter}
    (validator : FixValidator) (users : Z -> Session) (st st' : State)
    (issues : list Issue) (completed : bool) :
  _present_issues validator users st issues = Some (st', completed) ->
  (fixed_count st <= fixed_count st')%Z
  /\ (skipped_count st <= skipped_count st')%Z
  /\ (fixed_count st' - fixed_count st
      + (skipped_count st' - skipped_count st) <= len issues)%Z
  /\ exists new, validations st' = validations st ++ new
                 /\ (len new <= len issues)%Z.
Proof.
  unfold _present_issues. generalize 1%Z as i.
  revert st. induction issues as [|issue rest IH]; intros st i Hrun.
  - injection Hrun as <- <-. repeat split; try lia; unfold len; simpl; try lia.
    exists []. now rewrite app_nil_r.
  - cbn [present_from] in Hrun.
    destruct (present_one validator (users i) st issue) as [[st1 flow]|] eqn:E;
      [|discriminate].
    cbn [mbind option_bind] in Hrun.
    apply present_one_step in E as (Hf & Hs & Hsum & new1 & Hv & Hlen & _).
    assert (Hcons : len (issue :: rest) = (1 + len rest)%Z)
      by (unfold len; cbn [length]; lia).
    assert (Hrest : (0 <= len rest)%Z) by (unfold len; lia).
    assert (Hnew1 : (len new1 <= 1)%Z) by (unfold len; lia).
    destruct flow.
    + apply IH in Hrun as (Hf' & Hs' & Hsum' & new2 & Hv' & Hlen').
      repeat split; try lia.
      exists (new1 ++ new2). rewrite Hv', Hv, app_assoc.
      split; [reflexivity|].
      assert (len (new1 ++ new2) = (len new1 + len new2)%Z)
        by (unfold len; rewrite length_app; lia).
      lia.
    + injection Hrun as <- <-. repeat split; try lia.
      exists new1. split; [exact Hv|]. lia.
Qed.

Lemma session_counters_are_bounded_witness :
  (fixed_count (Fixtures.loaded Fixtures.essay)
   <= fixed_count
        {| coached_text := Fixtures.essay;
           fixed_count := 1;
           skipped_count := 0;
           validations :=
             [{| v_original := "2 transitions in 5 paragraphs";
                 v_edited := "thus we conclude";
                 v_issue := Fixtures.essay_issue;
                 v_verdict :=
                   (true, TransitionsGreat 1,
                    before_after (VInt 2) (VInt 1)) |}] |})%Z.
Proof.
  apply (session_counters_are_bounded (H := Fixtures.python_format)
           {| detector := Fixtures.quality_only_detector |}
           (fun _ => Fixtures.inline_session
                       (Fixtures.save_as Fixtures.essay_edit))
           (Fixtures.loaded Fixtures.essay) _ [Fixtures.essay_issue] true).
  reflexivity.
Defined.

Lemma present_from_only_skips `{Formatter}
    (validator : FixValidator) (users : Z -> Session)
    (issues : list Issue) (i : Z) (st : State) :
  (forall k, present_issue (users k) = skip) ->
  present_from validator users i st issues
  = Some ({| coached_text := coached_text st;
             fixed_count := fixed_count st;
             skipped_count := (skipped_count st + len issues)%Z;
             validations := validations st |}, true).
Proof.
  intros Hskip. revert i st.
  induction issues as [|issue rest IH]; intros i st.
  - cbn [present_from]. unfold len. cbn [length].
    destruct st; cbn. now rewrite Z.add_0_r.
  - cbn [present_from]. unfold present_one at 1. rewrite Hskip.
    cbn [mbind option_bind]. rewrite IH. cbn.
    do 3 f_equal. unfold len. cbn [length]. lia.
Qed.

(** X18.  A user who skips every issue completes the session: every issue
    is counted as skipped, the working text and the fixed counter are
    untouched and the validator is never called; the coached file then
    written is the original text. *)
Theorem skipping_everything_changes_nothing `{Formatter}
    (self : ArticleCoach) (users : Z -> Session) (text : string)
    (validator : FixValidator) (st : State) (issues : list Issue) :
  (forall k, present_issue (users k) = skip) ->
  _present_issues validator users st issues
  = Some ({| coached_text := coached_text st;
             fixed_count := fixed_count st;
             skipped_count := (skipped_count st + len issues)%Z;
             validations := validations st |}, true)
  /\ (truthy (strip text) = true ->
      _filter_issues self (find_all_issues (coach_detector self) text) <> [] ->
      coach_article self (ReadOk text) users = Some (true, Some text)).
Proof.
  intros Hskip. split; [now apply present_from_only_skips|].
  intros Htext Hissues. unfold coach_article. rewrite Htext. cbn [negb].
  destruct (_filter_issues _ _) as [|issue rest] eqn:E; [contradiction|].
  unfold _present_issues. rewrite present_from_only_skips by exact Hskip.
  reflexivity.
Qed.

Lemma skipping_everything_changes_nothing_witness :
  coach_article (H := Fixtures.python_format)
    {| coach_detector := Fixtures.quality_only_detector;
       validator := {| detector := Fixtures.quality_only_detector |};
       skip_types := [];
       quick_mode := false |}
    (ReadOk Fixtures.essay) Fixtures.always_skip
  = Some (true, Some Fixtures.essay).
Proof.
  apply (skipping_everything_changes_nothing (H := Fixtures.python_format)
           _ Fixtures.always_skip Fixtures.essay
           {| detector := Fixtures.quality_only_detector |}
           (Fixtures.loaded Fixtures.essay) []).
  - reflexivity.
  - reflexivity.
  - vm_compute. discriminate.
Defined.

Lemma present_from_app `{Formatter}
    (validator : FixValidator) (users : Z -> Session)
    (l1 l2 : list Issue) (i : Z) (st st1 : State) :
  present_from validator users i st l1 = Some (st1, true) ->
  present_from validator users i st (l1 ++ l2)
  = present_from validator users (i + len l1) st1 l2.
Proof.
  revert i st. induction l1 as [|issue l1 IH]; intros i st Hrun.
  - injection Hrun as <-. unfold len. cbn [length app].
    now rewrite Z.add_0_r.
  - cbn [present_from app] in *.
    destruct (present_one validator (users i) st issue) as [[st0 flow]|];
      [|discriminate].
    cbn [mbind option_bind] in *.
    destruct flow; [|discriminate].
    rewrite (IH _ _ Hrun). f_equal. unfold len. cbn [length]. lia.
Qed.

(** X19.  A confirmed quit ends the session at once: if the issues before
    it were completed, the loop returns [False] with the state reached
    there, whatever issues follow and whatever the user would have done
    with them.  A declined quit changes nothing and the loop goes on with
    the next issue: the issue at which it was asked is not presented
    again. *)
Theorem quit_ends_or_moves_on `{Formatter}
    (validator : FixValidator) (users : Z -> Session)
    (l1 l2 : list Issue) (issue : Issue) (i : Z) (st st1 : State) :
  present_from validator users i st l1 = Some (st1, true) ->
  present_issue (users (i + len l1)%Z) = quit ->
  present_from validator users i st (l1 ++ issue :: l2)
  = (if confirm_quit (users (i + len l1)%Z)
     then Some (st1, false)
     else present_from validator users (i + len l1 + 1) st1 l2).
Proof.
  intros Hrun Hquit.
  rewrite (present_from_app _ _ _ _ _ _ _ Hrun).
  cbn [present_from]. unfold present_one at 1. rewrite Hquit.
  now destruct (confirm_quit _).
Qed.

Lemma quit_ends_or_moves_on_witness :
  present_from (H := Fixtures.python_format)
    {| detector := Fixtures.quality_only_detector |}
    Fixtures.skip_then_quit 1 (Fixtures.loaded Fixtures.essay)
    ([Fixtures.teh_issue] ++ Fixtures.essay_issue :: [Fixtures.teh_issue])
  = Some ({| coached_text := Fixtures.essay;
             fixed_count := 0;
             skipped_count := 1;
             validations := [] |}, false).
Proof.
  rewrite (quit_ends_or_moves_on (H := Fixtures.python_format)
             {| detector := Fixtures.quality_only_detector |}
             Fixtures.skip_then_quit
             [Fixtures.teh_issue] [Fixtures.teh_issue] Fixtures.essay_issue
             1 (Fixtures.loaded Fixtures.essay)
             {| coached_text := Fixtures.essay;
                fixed_count := 0;
                skipped_count := 1;
                validations := [] |}
             eq_refl eq_refl).
  reflexivity.
Defined.

(** ** Applying an inline edit *)

Lemma prefix_app (old b : string) : String.prefix old (old +:+ b) = true.
Proof.
  induction old as [|c old IH]; [now destruct b|].
  change (String c old +:+ b) with (String c (old +:+ b)).
  cbn [String.prefix]. now destruct (ascii_dec c c).
Qed.

Lemma prefix_split (old s : string) :
  String.prefix old s = true ->
  s = old +:+ drop_str (String.length old) s.
Proof.
  revert s. induction old as [|c old IH]; intros s Hp; [reflexivity|].
  destruct s as [|c' s]; [discriminate|].
  cbn [String.prefix] in Hp.
  destruct (ascii_dec c c') as [<-|]; [|discriminate].
  cbn [String.length drop_str].
  change (String c old +:+ drop_str (String.length old) s)
    with (String c (old +:+ drop_str (String.length old) s)).
  f_equal. now apply IH.
Qed.

Lemma replace_first_absent (s old new : string) :
  contains old s = false -> replace_first s old new = s.
Proof.
  induction s as [|c s IH]; cbn [contains replace_first]; intros Hc;
    apply orb_false_elim in Hc as [Hp Hc]; rewrite Hp; [reflexivity|].
  now rewrite IH.
Qed.

Lemma replace_first_present (s old new : string) :
  contains old s = true ->
  exists a b,
    s = a +:+ old +:+ b
    /\ replace_first s old new = a +:+ new +:+ b
    /\ forall a' b', s = a' +:+ old +:+ b' ->
                     (String.length a <= String.length a')%nat.
Proof.
  induction s as [|c s IH]; cbn [contains replace_first]; intros Hc.
  - rewrite orb_false_r in Hc. rewrite Hc.
    exists EmptyString, (drop_str (String.length old) EmptyString).
    repeat split; [now apply prefix_split | intros; cbn; lia].
  - destruct (String.prefix old (String c s)) eqn:Hp.
    + exists EmptyString, (drop_str (String.length old) (String c s)).
      repeat split; [now apply prefix_split | intros; cbn; lia].
    + cbn [orb] in Hc. destruct (IH Hc) as (a & b & Hs & Hr & Hmin).
      exists (String c a), b.
      change (String c a +:+ old +:+ b) with (String c (a +:+ old +:+ b)).
      change (String c a +:+ new +:+ b) with (String c (a +:+ new +:+ b)).
      repeat split; [now f_equal | now f_equal |].
      intros a' b' Hdec. destruct a' as [|c' a'].
      * change (EmptyString +:+ old +:+ b') with (old +:+ b') in Hdec.
        rewrite Hdec, prefix_app in Hp. discriminate.
      * change (String c' a' +:+ old +:+ b')
          with (String c' (a' +:+ old +:+ b')) in Hdec.
        injection Hdec as _ Hdec. specialize (Hmin a' b' Hdec).
        cbn [String.length]. lia.
Qed.

(** X20.  An inline edit that differs from the issue's context replaces
    the first occurrence of the context in the working text and nothing
    else.  When the context no longer occurs in the working text, the text
    is left as it is, and yet the edit is validated and, on an "improved"
    verdict, counted as fixed. *)
Theorem inline_edit_replaces_first_occurrence `{Formatter}
    (validator : FixValidator) (user : Session) (st : State) (issue : Issue)
    (edited : string) (verdict : Verdict) :
  present_issue user = edit_inline ->
  edit_text_inline (nano user) (context issue) (description issue)
  = Some edited ->
  edited <> context issue ->
  validate_fix validator (context issue) edited issue = Some verdict ->
  exists st',
    present_one validator user st issue = Some (st', Next)
    /\ fixed_count st'
       = (if fst (fst verdict) then fixed_count st + 1 else fixed_count st)%Z
    /\ validations st'
       = validations st
         ++ [{| v_original := context issue; v_edited := edited;
                v_issue := issue; v_verdict := verdict |}]
    /\ (contains (context issue) (coached_text st) = false ->
        coached_text st' = coached_text st)
    /\ (contains (context issue) (coached_text st) = true ->
        exists a b,
          coached_text st = a +:+ context issue +:+ b
          /\ coached_text st' = a +:+ edited +:+ b
          /\ forall a' b',
               coached_text st = a' +:+ context issue +:+ b' ->
               (String.length a <= String.length a')%nat).
Proof.
  intros Hact Hedit Hne Hv.
  unfold present_one. rewrite Hact, Hedit.
  rewrite (edit_text_inline_truthy _ _ _ _ Hedit).
  apply String.eqb_neq in Hne. rewrite Hne. cbn [negb andb].
  rewrite Hv. cbn [mbind option_bind].
  destruct verdict as [[improved message] m].
  eexists. split; [reflexivity|]. cbn.
  repeat split.
  - intros Habs. now apply replace_first_absent.
  - intros Hpres. now apply replace_first_present.
Qed.

Lemma inline_edit_replaces_first_occurrence_witness :
  exists st',
    present_one (H := Fixtures.python_format)
      {| detector := Fixtures.quality_only_detector |}
      (Fixtures.inline_session (Fixtures.save_as Fixtures.essay_edit))
      (Fixtures.loaded Fixtures.essay) Fixtures.essay_issue
    = Some (st', Next)
    /\ fixed_count st' = 1%Z
    /\ coached_text st' = Fixtures.essay.
Proof.
  destruct (inline_edit_replaces_first_occurrence
              (H := Fixtures.python_format)
              {| detector := Fixtures.quality_only_detector |}
              (Fixtures.inline_session (Fixtures.save_as Fixtures.essay_edit))
              (Fixtures.loaded Fixtures.essay) Fixtures.essay_issue
              Fixtures.essay_edit
              (true, TransitionsGreat 1, before_after (VInt 2) (VInt 1))
              eq_refl eq_refl ltac:(discriminate) eq_refl)
    as (st' & Hone & Hfixed & _ & Hstale & _).
  exists st'. repeat split; [exact Hone | exact Hfixed |].
  apply Hstale. reflexivity.
Defined.

(** ** Filtering and the whole session *)

Lemma top_issues_length (issues : list Issue) (limit : Z) :
  (0 <= limit)%Z -> (len (top_issues issues limit) <= limit)%Z.
Proof. intros Hl. unfold top_issues. now apply length_slice_to_le. Qed.

Lemma filtered_issues_members
    (self : ArticleCoach) (issues : list Issue) (i : Issue) :
  In i (_filter_issues self issues) ->
  In i issues /\ (5 <= severity i)%Z /\ ~ In (type i) (skip_types self).
Proof.
  unfold _filter_issues. intros Hi.
  apply top_issues_members in Hi as [Hin Hsev].
  destruct (skip_types self) as [|t ts] eqn:E.
  - repeat split; [exact Hin | exact Hsev | intros []].
  - apply filter_In in Hin as [Hin Hkeep].
    repeat split; [exact Hin | exact Hsev |].
    intros Hskip. apply negb_true_iff in Hkeep.
    assert (Hex : existsb (String.eqb (type i)) (t :: ts) = true).
    { apply existsb_exists. exists (type i).
      split; [exact Hskip | apply String.eqb_refl]. }
    congruence.
Qed.

(** X21.  [_filter_issues] shows at most 3 issues in quick mode and at
    most 10 otherwise; every issue shown comes from the list it is given,
    has severity at least 5 and is of none of the skipped types. *)
Theorem filtered_issues_are_few_and_wanted
    (self : ArticleCoach) (issues : list Issue) :
  (len (_filter_issues self issues) <= (if quick_mode self then 3 else 10))%Z
  /\ Forall (fun i => In i issues
                      /\ (5 <= severity i)%Z
                      /\ ~ In (type i) (skip_types self))
            (_filter_issues self issues).
Proof.
  unfold _filter_issues. split.
  - apply top_issues_length. destruct (quick_mode self); lia.
  - apply List.Forall_forall. intros i Hi.
    now apply filtered_issues_members.
Qed.

(** X22.  With the three skip flags of the command line all set, the only
    issues a session can present are [poor_transitions] issues: no flag
    covers word repetition or transitions, and word repetition is below the
    severity threshold of the prioritizer. *)
Theorem all_skip_flags_leave_only_transitions `{Formatter}
    (self : ArticleCoach) (text : string) :
  skip_types self = skip_types_of_flags true true true ->
  Forall (fun i => type i = "poor_transitions")
         (_filter_issues self (find_all_issues (coach_detector self) text)).
Proof.
  intros Hflags. apply List.Forall_forall. intros i Hi.
  pose proof (filtered_issues_members self
                (find_all_issues (coach_detector self) text) i Hi)
    as (Hin & Hsev & Hskip).
  rewrite Hflags in Hskip.
  rewrite find_all_issues_raw in Hin.
  apply in_map_iff in Hin as (i0 & <- & Hin).
  pose proof (raw_issue_types (coach_detector self) text) as Hall.
  rewrite List.Forall_forall in Hall. specialize (Hall _ Hin).
  cbn [type severity set_severity] in *.
  unfold score_issue, emitted_types, skip_types_of_flags in *.
  simpl in Hall, Hskip.
  destruct Hall as [E|[E|[E|[E|[E|[E|[E|[E|[E|[E|[]]]]]]]]]]];
    rewrite <- E in *; try reflexivity;
    try (exfalso; apply Hskip; auto 10; fail);
    vm_compute in Hsev; exfalso; now apply Hsev.
Qed.

Lemma all_skip_flags_leave_only_transitions_witness :
  Forall (fun i => type i = "poor_transitions")
         (_filter_issues
            {| coach_detector := Fixtures.quality_only_detector;
               validator := {| detector := Fixtures.quality_only_detector |};
               skip_types := skip_types_of_flags true true true;
               quick_mode := true |}
            (find_all_issues (H := Fixtures.python_format)
               Fixtures.quality_only_detector Fixtures.essay)).
Proof.
  apply (all_skip_flags_leave_only_transitions (H := Fixtures.python_format)
           {| coach_detector := Fixtures.quality_only_detector;
              validator := {| detector := Fixtures.quality_only_detector |};
              skip_types := skip_types_of_flags true true true;
              quick_mode := true |}
           Fixtures.essay).
  reflexivity.
Defined.



(** ** The grammar analyzer's short list *)

Lemma slice_to_all {A} (l : list A) (k : Z) :
  (len l <= k)%Z -> slice_to l k = l.
Proof.
  intros Hk. unfold slice_to, len in *.
  assert (H0 : (0 <=? k)%Z = true) by (apply Z.leb_le; lia).
  rewrite H0. apply firstn_all2. lia.
Qed.

Lemma slice_to_app_l {A} (l1 l2 : list A) (k : Z) :
  (0 <= k <= len l1)%Z -> slice_to (l1 ++ l2) k = slice_to l1 k.
Proof.
  intros Hk. unfold slice_to, len in *.
  assert (H0 : (0 <=? k)%Z = true) by (apply Z.leb_le; lia).
  rewrite H0, firstn_app.
  replace (Z.to_nat k - length l1)%nat with 0%nat by lia.
  cbn [firstn]. now rewrite app_nil_r.
Qed.

Lemma length_slice_to {A} (l : list A) (k : Z) :
  (0 <= k)%Z -> len (slice_to l k) = Z.min k (len l).
Proof.
  intros Hk. unfold slice_to, len.
  assert (H0 : (0 <=? k)%Z = true) by (apply Z.leb_le; lia).
  rewrite H0, length_firstn. lia.
Qed.

(** X24.  [get_top_issues] on the analysis of a text: with a limit of at
    least [total_issues] it returns every finding once, spelling first,
    then grammar, then punctuation; with a limit that the spelling findings
    alone fill, it returns spelling findings only; for a limit that is not
    negative it returns [min(limit, total_issues)] findings; and whatever
    the limit, each finding returned is built from a match of the tool. *)
Theorem get_top_issues_prefers_spelling
    (ga : LA.GrammarAnalyzer) (text : string) (limit : Z) :
  let a := LA.grammar_analyze ga text in
  ((LA.total_issues a <= limit)%Z ->
     LA.get_top_issues a limit
     = LA.spelling_issues a ++ LA.grammar_issues a ++ LA.punctuation_issues a
     /\ Permutation (LA.get_top_issues a limit)
                    (map LA.finding_of (LA.check ga text)))
  /\ ((0 <= limit <= len (LA.spelling_issues a))%Z ->
        LA.get_top_issues a limit = slice_to (LA.spelling_issues a) limit)
  /\ ((0 <= limit)%Z ->
        len (LA.get_top_issues a limit) = Z.min limit (LA.total_issues a))
  /\ (forall f, In f (LA.get_top_issues a limit) ->
        exists m, In m (LA.check ga text) /\ f = LA.finding_of m).
Proof.
  intros a.
  assert (Hperm : Permutation
            (LA.spelling_issues a ++ LA.grammar_issues a
             ++ LA.punctuation_issues a)
            (map LA.finding_of (LA.check ga text))).
  { subst a. unfold LA.grammar_analyze. rewrite categorize_fold.
    cbn [app LA.spelling_issues LA.grammar_issues LA.punctuation_issues].
    rewrite <- !map_app. apply Permutation_map.
    etransitivity; [|apply classes_partition_perm].
    rewrite !app_assoc. apply Permutation_app_tail, Permutation_app_comm. }
  assert (Htotal : LA.total_issues a
                   = len (LA.spelling_issues a ++ LA.grammar_issues a
                          ++ LA.punctuation_issues a)).
  { unfold len. rewrite (Permutation_length Hperm), length_map.
    subst a. unfold LA.grammar_analyze.
    now destruct (fold_left _ _ _) as [[g s] p]. }
  unfold LA.get_top_issues. cbv zeta. repeat split.
  - rewrite slice_to_all; [reflexivity | lia].
  - rewrite slice_to_all; [exact Hperm | lia].
  - intros Hl. now apply slice_to_app_l.
  - intros Hl. rewrite Htotal. now apply length_slice_to.
  - intros f Hf. apply in_slice_to in Hf.
    apply (Permutation_in _ Hperm) in Hf.
    apply in_map_iff in Hf as (m & <- & Hm). now exists m.
Qed.

(** ** What the quality analyzer counts *)

Lemma filter_len_le {A} (p : A -> bool) (l : list A) :
  (0 <= len (List.filter p l) <= len l)%Z.
Proof. unfold len. pose proof (List.filter_length_le p l). lia. Qed.

Lemma filter_and_len_le {A} (p q : A -> bool) (l : list A) :
  (len (List.filter (fun x => p x && q x) l) <= len (List.filter p l))%Z.
Proof.
  unfold len. induction l as [|x l IH]; [reflexivity|].
  cbn [List.filter]. destruct (p x), (q x); cbn [andb length]; lia.
Qed.

Lemma counter_add_length (w : string) (c : list (string * Z)) :
  (length (counter_add w c) <= S (length c))%nat.
Proof.
  induction c as [|[k n] c IH]; [reflexivity|].
  cbn [counter_add]. destruct (String.eqb k w); cbn [length]; lia.
Qed.

Lemma Counter_length (l : list string) :
  (length (Counter l) <= length l)%nat.
Proof.
  unfold Counter.
  assert (Hgen : forall c,
            (length (fold_left (fun c w => counter_add w c) l c)
             <= length c + length l)%nat).
  { induction l as [|w l IH]; intros c; cbn [fold_left length]; [lia|].
    specialize (IH (counter_add w c)).
    pose proof (counter_add_length w c). lia. }
  apply (Hgen []).
Qed.

(** X25.  The counts of a quality analysis are bounded by what is counted:
    at most every sentence is passive, and at most five examples are kept,
    fewer only when there are fewer passive sentences; the weak verbs are
    among the verbs and the verbs, the adverbs and the transition words are
    among the tokens; at most ten adverbs are listed as most common; and the
    variety of transitions is at most their count. *)
Theorem quality_counts_are_bounded
    (qa : LA.WritingQualityAnalyzer) (text : string) :
  let doc := LA.nlp qa text in
  let a := LA.quality_analyze qa text in
  (0 <= LA.pv_count (LA.passive_voice a) <= len (LA.sents doc))%Z
  /\ len (LA.pv_examples (LA.passive_voice a))
     = Z.min 5 (LA.pv_count (LA.passive_voice a))
  /\ (0 <= LA.wv_count (LA.weak_verbs a)
      <= LA.wv_total_verbs (LA.weak_verbs a))%Z
  /\ (LA.wv_total_verbs (LA.weak_verbs a) <= len (LA.doc_tokens doc))%Z
  /\ (0 <= LA.adv_count (LA.adverbs a) <= len (LA.doc_tokens doc))%Z
  /\ (len (LA.adv_most_common (LA.adverbs a)) <= 10)%Z
  /\ (0 <= LA.tr_count (LA.transitions a) <= len (LA.doc_tokens doc))%Z
  /\ (LA.tr_variety (LA.transitions a) <= LA.tr_count (LA.transitions a))%Z.
Proof.
  intros doc a. subst a. unfold LA.quality_analyze. fold doc.
  cbn [LA.passive_voice LA.weak_verbs LA.adverbs LA.transitions].
  unfold LA._detect_passive_voice, LA._detect_weak_verbs, LA._analyze_adverbs,
    LA._analyze_transitions.
  cbn [LA.pv_count LA.pv_examples LA.wv_count LA.wv_total_verbs LA.adv_count
       LA.adv_most_common LA.tr_count LA.tr_variety].
  split; [apply filter_len_le|].
  split.
  { rewrite length_slice_to by lia. unfold len. now rewrite length_map. }
  split.
  { split; [apply filter_len_le | apply filter_and_len_le]. }
  split; [apply filter_len_le|].
  split.
  { unfold len at 1 2. rewrite length_map. apply filter_len_le. }
  split.
  { unfold most_common. apply length_slice_to_le. lia. }
  split.
  { pose proof (filter_len_le
                  (fun w => existsb (String.eqb w) LA.transition_words)
                  (map (fun token => lower (LA.text token))
                       (LA.doc_tokens doc))) as Hle.
    unfold len in *. rewrite length_map in Hle. lia. }
  unfold len. apply inj_le, Counter_length.
Qed.

(** ** Paragraph numbering *)

Lemma long_paragraph_numbers (k : Z) (ps : list string) :
  map fst
    (List.filter (fun iw => (150 <? snd iw)%Z)
       (map (fun ip => ((fst ip + 1)%Z, len (split_ws (snd ip))))
            (enumerate k ps)))
  = map (fun i => (i + 1)%Z)
      (map fst
         (List.filter (fun il => (150 <? snd il)%Z)
            (enumerate k (map (fun p => len (split_ws p)) ps)))).
Proof.
  revert k. induction ps as [|p ps IH]; intros k; [reflexivity|].
  cbn [enumerate map List.filter fst snd].
  destruct (150 <? len (split_ws p))%Z; cbn [map fst]; now rewrite IH.
Qed.

Lemma long_paragraph_words (k : Z) (ps : list string) :
  map snd
    (List.filter (fun iw => (150 <? snd iw)%Z)
       (map (fun ip => ((fst ip + 1)%Z, len (split_ws (snd ip))))
            (enumerate k ps)))
  = List.filter (fun n => (150 <? n)%Z) (map (fun p => len (split_ws p)) ps).
Proof.
  revert k. induction ps as [|p ps IH]; intros k; [reflexivity|].
  cbn [enumerate map List.filter fst snd].
  destruct (150 <? len (split_ws p))%Z; cbn [map snd]; now rewrite IH.
Qed.

(** X26.  The analyzer and the detector find the same long paragraphs of
    a text that has a paragraph, but number them differently: the
    analyzer's [long_paragraphs] counts from 0 and the detector's from 1.
    The word counts the detector attaches are the analyzer's [lengths]
    above 150, and both see the same number of paragraphs. *)
Theorem long_paragraphs_numbered_from_one (text : string) :
  LA.paragraphs_of text <> [] ->
  let stats := LA._analyze_paragraphs text in
  let long_paragraphs := long_paragraphs_of (LA.paragraphs_of text) in
  map fst long_paragraphs
  = map (fun i => (i + 1)%Z) (LA.ps_long_paragraphs stats)
  /\ map snd long_paragraphs
     = List.filter (fun n => (150 <? n)%Z) (LA.ps_lengths stats)
  /\ LA.ps_count stats = len (LA.paragraphs_of text).
Proof.
  intros Hne stats long_paragraphs. subst stats long_paragraphs.
  unfold LA._analyze_paragraphs, long_paragraphs_of.
  destruct (LA.paragraphs_of text) as [|p ps] eqn:E; [contradiction|].
  cbn [LA.ps_long_paragraphs LA.ps_lengths LA.ps_count].
  split; [apply long_paragraph_numbers|].
  split; [apply long_paragraph_words | reflexivity].
Qed.

Lemma long_paragraphs_numbered_from_one_witness :
  map fst (long_paragraphs_of (LA.paragraphs_of Fixtures.words_text))
  = map (fun i => (i + 1)%Z)
        (LA.ps_long_paragraphs (LA._analyze_paragraphs Fixtures.words_text)).
Proof.
  refine (proj1 (long_paragraphs_numbered_from_one Fixtures.words_text _)).
  vm_compute. discriminate.
Defined.

(** ** The reading-ease rating and the [difficult_words] flag *)

Ltac compare_cases :=
  repeat match goal with
  | H : context [Pos.compare_cont Eq ?a ?b] |- _ =>
      change (Pos.compare_cont Eq a b) with (Pos.compare a b) in H
  | |- context [Pos.compare_cont Eq ?a ?b] =>
      change (Pos.compare_cont Eq a b) with (Pos.compare a b)
  end;
  repeat match goal with
  | H : context [(?a ?= ?b)%Z] |- _ =>
      let E := fresh "E" in
      destruct (Z.compare_spec a b) as [E|E|E]; cbn [CompOpp] in *
  | |- context [(?a ?= ?b)%Z] =>
      let E := fresh "E" in
      destruct (Z.compare_spec a b) as [E|E|E]; cbn [CompOpp] in *
  | H : context [(?a ?= ?b)%positive] |- _ =>
      let E := fresh "E" in
      destruct (Pos.compare_spec a b) as [E|E|E]; cbn [CompOpp] in *
  | |- context [(?a ?= ?b)%positive] =>
      let E := fresh "E" in
      destruct (Pos.compare_spec a b) as [E|E|E]; cbn [CompOpp] in *
  end;
  try discriminate; try reflexivity; try lia.

Lemma SF_lt_le_trans (x y z : SpecFloat.spec_float) :
  SpecFloat.SFltb x y = true -> SpecFloat.SFleb y z = true ->
  SpecFloat.SFleb z x = false.
Proof.
  unfold SpecFloat.SFltb, SpecFloat.SFleb.
  destruct x as [sx|sx| |sx mx ex], y as [sy|sy| |sy my ey],
           z as [sz|sz| |sz mz ez];
    cbn [SpecFloat.SFcompare];
    try destruct sx; try destruct sy; try destruct sz;
    try discriminate; try reflexivity; intros H1 H2; compare_cases.
Qed.

Lemma SF_le_not_le_lt (a b s : SpecFloat.spec_float) :
  SpecFloat.SFleb a s = true -> SpecFloat.SFleb b s = false ->
  b <> SpecFloat.S754_nan -> SpecFloat.SFltb s b = true.
Proof.
  unfold SpecFloat.SFltb, SpecFloat.SFleb.
  destruct a as [sa|sa| |sa ma ea], b as [sb|sb| |sb mb eb],
           s as [ss|ss| |ss ms es];
    cbn [SpecFloat.SFcompare];
    try destruct sa; try destruct sb; try destruct ss;
    try discriminate; try reflexivity; try congruence;
    intros H1 H2 H3; compare_cases.
Qed.

(** [s < a] and [a <= c] leave no room for [c <= s]. *)
Lemma float_below_not_above (s a c : float) :
  PrimFloat.ltb s a = true -> PrimFloat.leb a c = true ->
  PrimFloat.leb c s = false.
Proof. rewrite ltb_spec, !leb_spec. apply SF_lt_le_trans. Qed.

(** A score that is a number (some [a <= s] holds) and is not at least
    [b] is below [b]. *)
Lemma float_not_above_below (a b s : float) :
  PrimFloat.leb a s = true -> PrimFloat.leb b s = false ->
  Prim2SF b <> SpecFloat.S754_nan -> PrimFloat.ltb s b = true.
Proof. rewrite ltb_spec, !leb_spec. apply SF_le_not_le_lt. Qed.

(** X27.  The detector's threshold and the analyzer's rating of the
    reading ease: a text flagged [difficult_words] is rated "Difficult" or
    "Very Difficult", a text rated "Difficult" is always flagged, and a text
    rated "Fairly Difficult" (a score from 50 up to 60) is not flagged. *)
Theorem difficult_words_flag_matches_rating `{Formatter}
    (det : ProblemDetector) (ra : LA.ReadabilityAnalyzer) (text : string) :
  readability_analyzer det = Some ra ->
  let rating :=
    LA.reading_ease_interpretation (LA.readability_analyze ra text) in
  let flagged := has_type "difficult_words" (find_all_issues det text) in
  (flagged = true -> rating = "Difficult" \/ rating = "Very Difficult")
  /\ (rating = "Difficult" -> flagged = true)
  /\ (rating = "Fairly Difficult" -> flagged = false).
Proof.
  intros Hra rating flagged.
  assert (Hflag : flagged
                  = PrimFloat.ltb
                      (LA.textstat_flesch_reading_ease ra text) 50).
  { subst flagged. rewrite (has_readability_type det ra) by (simpl; auto).
    apply readability_has_difficult_words. }
  assert (Hrate : rating
                  = LA._interpret_reading_ease
                      (LA.textstat_flesch_reading_ease ra text))
    by reflexivity.
  clearbody rating flagged. subst rating flagged.
  set (s := LA.textstat_flesch_reading_ease ra text). clearbody s.
  assert (Hlow : PrimFloat.ltb s 50 = true ->
                 LA._interpret_reading_ease s = "Difficult"
                 \/ LA._interpret_reading_ease s = "Very Difficult").
  { intros Hs. unfold LA._interpret_reading_ease.
    rewrite (float_below_not_above s 50 90 Hs eq_refl).
    rewrite (float_below_not_above s 50 80 Hs eq_refl).
    rewrite (float_below_not_above s 50 70 Hs eq_refl).
    rewrite (float_below_not_above s 50 60 Hs eq_refl).
    rewrite (float_below_not_above s 50 50 Hs eq_refl).
    destruct (PrimFloat.leb 30 s); auto. }
  split; [exact Hlow|]. split.
  - unfold LA._interpret_reading_ease.
    destruct (PrimFloat.leb 90 s); [discriminate|].
    destruct (PrimFloat.leb 80 s); [discriminate|].
    destruct (PrimFloat.leb 70 s); [discriminate|].
    destruct (PrimFloat.leb 60 s); [discriminate|].
    destruct (PrimFloat.leb 50 s) eqn:H50; [discriminate|].
    destruct (PrimFloat.leb 30 s) eqn:H30; [|discriminate].
    intros _. apply (float_not_above_below 30 50 s H30 H50).
    vm_compute. discriminate.
  - intros Hfair. destruct (PrimFloat.ltb s 50) eqn:Hs; [|reflexivity].
    destruct (Hlow eq_refl) as [E|E]; rewrite E in Hfair; discriminate.
Qed.

Lemma difficult_words_flag_matches_rating_witness :
  has_type "difficult_words"
    (find_all_issues (H := Fixtures.python_format)
       (Fixtures.full_detector 40 20) "Plain words.") = true.
Proof.
  refine (proj1 (proj2
            (difficult_words_flag_matches_rating (H := Fixtures.python_format)
               (Fixtures.full_detector 40 20)
               (Fixtures.fixed_textstat 40 20) "Plain words." eq_refl)) _).
  reflexivity.
Defined.
